(** * The MME-side EPS attach procedure of the NAS EMM sublayer

    A shallow embedding of [src/NAS/EMM/Attach.c].  The C functions become
    state-passing functions over an explicit memory (the heap of EMM
    contexts, the heap of attach retransmission buffers, the two indices of
    [_emm_data]) and a trace of the primitives the attach code issues to
    its collaborators (EMM-SAP, ESM-SAP, timer service, MME API).  The
    collaborators are not part of the file: they are an [environment] of
    memory transformers, so that a theorem holds for whatever they do. *)

From Stdlib Require Import ZArith List Bool Lia.
From stdpp Require Import base option gmap list.

Local Open Scope Z_scope.

(** ** Constants declared outside the file *)

(** Modelled from the spec: the internal status codes [ok] / [error] of §7;
    their declaration (commonDef.h) is not part of the sources. *)
Definition RETURNok : Z := 0.
Definition RETURNerror : Z := -1.

Definition TRUE : Z := 1.
Definition FALSE : Z := 0.

(** Modelled from the spec: the EMM causes of §7 with the code points of
    TS 24.301; [EMM_CAUSE_SUCCESS] is the sentinel.  Their declaration
    (emm_cause.h) is not part of the sources. *)
Definition EMM_CAUSE_SUCCESS : Z := -1.
Definition EMM_CAUSE_ILLEGAL_UE : Z := 3.
Definition EMM_CAUSE_IMEI_NOT_ACCEPTED : Z := 5.
Definition EMM_CAUSE_ESM_FAILURE : Z := 19.
Definition EMM_CAUSE_PROTOCOL_ERROR : Z := 111.

(** Modelled from the spec: the sentinel of §6 for "no timer". *)
Definition NAS_TIMER_INACTIVE_ID : Z := -1.

(** Modelled from the spec: bits of the features bitmap of §6. *)
Definition MME_API_EMERGENCY_ATTACH : Z := 1.
Definition MME_API_UNAUTHENTICATED_IMSI : Z := 2.

Definition NAS_SECURITY_ALGORITHMS_EEA0 : Z := 0.
Definition NAS_SECURITY_ALGORITHMS_EIA0 : Z := 0.
Definition EMM_KSI_NOT_AVAILABLE : Z := 0.

(** [#define ATTACH_COUNTER_MAX 5] *)
Definition ATTACH_COUNTER_MAX : Z := 5.

(** [unsigned int] and [uint32_t] arithmetic wraps around. *)
Definition uint32 (z : Z) : Z := z mod 2 ^ 32.

(** ** Data *)

(** [_emm_attach_type_str]: "EPS", "IMSI", "EMERGENCY", "RESERVED". *)
Inductive emm_proc_attach_type_t :=
| EMM_ATTACH_TYPE_EPS
| EMM_ATTACH_TYPE_IMSI
| EMM_ATTACH_TYPE_EMERGENCY
| EMM_ATTACH_TYPE_RESERVED.

(** Modelled from the spec: the FSM states of §3, in the order given there;
    the code only compares a status with [EMM_DEREGISTERED]. *)
Inductive emm_fsm_state_t :=
| EMM_INVALID
| EMM_DEREGISTERED
| EMM_REGISTERED_INITIATED
| EMM_REGISTERED
| EMM_DEREGISTERED_INITIATED
| EMM_COMMON_PROCEDURE_INITIATED.

Definition fsm_rank (s : emm_fsm_state_t) : Z :=
  match s with
  | EMM_INVALID => 0
  | EMM_DEREGISTERED => 1
  | EMM_REGISTERED_INITIATED => 2
  | EMM_REGISTERED => 3
  | EMM_DEREGISTERED_INITIATED => 4
  | EMM_COMMON_PROCEDURE_INITIATED => 5
  end.

(** The ESM peer answers [{SUCCESS, DISCARDED, FAILURE}] (§4.6). *)
Inductive esm_sap_error_t :=
| ESM_SAP_SUCCESS
| ESM_SAP_DISCARDED
| ESM_SAP_FAILED.

(** [OctetString]: a length and a pointer to the octets.  [os_value = None]
    is the NULL pointer; the two fields are independent, as in C. *)
Record OctetString := {
  os_length : Z;
  os_value : option (list Z)
}.

Definition OctetString_empty : OctetString :=
  {| os_length := 0; os_value := None |}.

(** [malloc (n); memcpy (dst, src.value, n)] *)
Definition octets_copy (n : Z) (src : OctetString) : list Z :=
  take (Z.to_nat n) (default [] (os_value src)).

Record plmn_t := {
  MCCdigit1 : Z; MCCdigit2 : Z; MCCdigit3 : Z;
  MNCdigit1 : Z; MNCdigit2 : Z; MNCdigit3 : Z
}.

Record gummei_t := {
  plmn : plmn_t;
  MMEgid : Z;
  MMEcode : Z
}.

Record GUTI_t := {
  gummei : gummei_t;
  m_tmsi : Z
}.

(** [calloc]'ed GUTI. *)
Definition GUTI_zero : GUTI_t :=
  {| gummei := {| plmn := {| MCCdigit1 := 0; MCCdigit2 := 0; MCCdigit3 := 0;
                             MNCdigit1 := 0; MNCdigit2 := 0; MNCdigit3 := 0 |};
                  MMEgid := 0; MMEcode := 0 |};
     m_tmsi := 0 |}.

(** [imsi_t] and [imei_t]: a length octet and the BCD digits
    ([u.num.digit1], [u.num.digit2], ...), two per octet of [u.value]. *)
Record imsi_t := {
  imsi_length : Z;
  imsi_digits : list Z
}.

Record imei_t := {
  imei_length : Z;
  imei_digits : list Z
}.

Definition imsi_digit (i : imsi_t) (n : nat) : Z :=
  nth (n - 1) (imsi_digits i) 0.

Record emm_security_context_t := {
  sc_type : Z;
  kasme : OctetString;
  knas_enc : OctetString;
  knas_int : OctetString;
  sel_encryption : Z;
  sel_integrity : Z
}.

Record nas_timer_t := {
  id : Z;
  sec : Z
}.

#[global] Instance OctetString_eq_dec : EqDecision OctetString.
Proof. solve_decision. Defined.
#[global] Instance plmn_eq_dec : EqDecision plmn_t.
Proof. solve_decision. Defined.
#[global] Instance gummei_eq_dec : EqDecision gummei_t.
Proof. solve_decision. Defined.
#[global] Instance GUTI_eq_dec : EqDecision GUTI_t.
Proof. solve_decision. Defined.
#[global] Instance imsi_eq_dec : EqDecision imsi_t.
Proof. solve_decision. Defined.
#[global] Instance imei_eq_dec : EqDecision imei_t.
Proof. solve_decision. Defined.
#[global] Instance security_eq_dec : EqDecision emm_security_context_t.
Proof. solve_decision. Defined.
#[global] Instance esm_sap_error_eq_dec : EqDecision esm_sap_error_t.
Proof. solve_decision. Defined.
#[global] Instance attach_type_eq_dec : EqDecision emm_proc_attach_type_t.
Proof. solve_decision. Defined.

(** [emm_data_context_t], one per UE.  Pointers to owned sub-objects
    ([guti], [old_guti], [imsi], [imei], [security]) are options: [None] is
    NULL.  Integer fields are [Z]; flags hold [TRUE] / [FALSE]. *)
Record emm_data_context_t := {
  ueid : Z;
  is_dynamic : Z;
  is_attached : Z;
  is_emergency : Z;
  guti : option GUTI_t;
  old_guti : option GUTI_t;
  guti_is_new : Z;
  imsi : option imsi_t;
  imei : option imei_t;
  security : option emm_security_context_t;
  vector : list Z;
  ksi : Z;
  eea : Z; eia : Z; ucs2 : Z; uea : Z; uia : Z; gea : Z;
  umts_present : Z; gprs_present : Z;
  tac : Z; n_tacs : Z;
  emm_cause : Z;
  esm_msg : OctetString;
  _emm_fsm_status : emm_fsm_state_t;
  T3450 : nas_timer_t;
  T3460 : nas_timer_t;
  T3470 : nas_timer_t
}.

(** [memset (&ctx, 0, sizeof ctx)] / [calloc (1, sizeof ctx)]. *)
Definition emm_ctx_zero : emm_data_context_t :=
  {| ueid := 0; is_dynamic := 0; is_attached := 0; is_emergency := 0;
     guti := None; old_guti := None; guti_is_new := 0;
     imsi := None; imei := None; security := None; vector := [];
     ksi := 0; eea := 0; eia := 0; ucs2 := 0; uea := 0; uia := 0; gea := 0;
     umts_present := 0; gprs_present := 0; tac := 0; n_tacs := 0;
     emm_cause := 0; esm_msg := OctetString_empty;
     _emm_fsm_status := EMM_INVALID;
     T3450 := {| id := 0; sec := 0 |};
     T3460 := {| id := 0; sec := 0 |};
     T3470 := {| id := 0; sec := 0 |} |}.

(** [attach_data_t]: the retransmission data bound to a running T3450. *)
Record attach_data_t := {
  ad_ueid : Z;
  retransmission_count : Z;
  ad_esm_msg : OctetString
}.

Definition attach_data_zero : attach_data_t :=
  {| ad_ueid := 0; retransmission_count := 0; ad_esm_msg := OctetString_empty |}.

(** Field updates of a context ([ctx->f = v]). *)
Definition set_ueid v (c : emm_data_context_t) :=
  Build_emm_data_context_t v (is_dynamic c) (is_attached c) (is_emergency c) (guti c) (old_guti c) (guti_is_new c) (imsi c) (imei c) (security c) (vector c) (ksi c) (eea c) (eia c) (ucs2 c) (uea c) (uia c) (gea c) (umts_present c) (gprs_present c) (tac c) (n_tacs c) (emm_cause c) (esm_msg c) (_emm_fsm_status c) (T3450 c) (T3460 c) (T3470 c).
Definition set_is_dynamic v (c : emm_data_context_t) :=
  Build_emm_data_context_t (ueid c) v (is_attached c) (is_emergency c) (guti c) (old_guti c) (guti_is_new c) (imsi c) (imei c) (security c) (vector c) (ksi c) (eea c) (eia c) (ucs2 c) (uea c) (uia c) (gea c) (umts_present c) (gprs_present c) (tac c) (n_tacs c) (emm_cause c) (esm_msg c) (_emm_fsm_status c) (T3450 c) (T3460 c) (T3470 c).
Definition set_is_attached v (c : emm_data_context_t) :=
  Build_emm_data_context_t (ueid c) (is_dynamic c) v (is_emergency c) (guti c) (old_guti c) (guti_is_new c) (imsi c) (imei c) (security c) (vector c) (ksi c) (eea c) (eia c) (ucs2 c) (uea c) (uia c) (gea c) (umts_present c) (gprs_present c) (tac c) (n_tacs c) (emm_cause c) (esm_msg c) (_emm_fsm_status c) (T3450 c) (T3460 c) (T3470 c).
Definition set_guti v (c : emm_data_context_t) :=
  Build_emm_data_context_t (ueid c) (is_dynamic c) (is_attached c) (is_emergency c) v (old_guti c) (guti_is_new c) (imsi c) (imei c) (security c) (vector c) (ksi c) (eea c) (eia c) (ucs2 c) (uea c) (uia c) (gea c) (umts_present c) (gprs_present c) (tac c) (n_tacs c) (emm_cause c) (esm_msg c) (_emm_fsm_status c) (T3450 c) (T3460 c) (T3470 c).
Definition set_old_guti v (c : emm_data_context_t) :=
  Build_emm_data_context_t (ueid c) (is_dynamic c) (is_attached c) (is_emergency c) (guti c) v (guti_is_new c) (imsi c) (imei c) (security c) (vector c) (ksi c) (eea c) (eia c) (ucs2 c) (uea c) (uia c) (gea c) (umts_present c) (gprs_present c) (tac c) (n_tacs c) (emm_cause c) (esm_msg c) (_emm_fsm_status c) (T3450 c) (T3460 c) (T3470 c).
Definition set_guti_is_new v (c : emm_data_context_t) :=
  Build_emm_data_context_t (ueid c) (is_dynamic c) (is_attached c) (is_emergency c) (guti c) (old_guti c) v (imsi c) (imei c) (security c) (vector c) (ksi c) (eea c) (eia c) (ucs2 c) (uea c) (uia c) (gea c) (umts_present c) (gprs_present c) (tac c) (n_tacs c) (emm_cause c) (esm_msg c) (_emm_fsm_status c) (T3450 c) (T3460 c) (T3470 c).
Definition set_imsi v (c : emm_data_context_t) :=
  Build_emm_data_context_t (ueid c) (is_dynamic c) (is_attached c) (is_emergency c) (guti c) (old_guti c) (guti_is_new c) v (imei c) (security c) (vector c) (ksi c) (eea c) (eia c) (ucs2 c) (uea c) (uia c) (gea c) (umts_present c) (gprs_present c) (tac c) (n_tacs c) (emm_cause c) (esm_msg c) (_emm_fsm_status c) (T3450 c) (T3460 c) (T3470 c).
Definition set_imei v (c : emm_data_context_t) :=
  Build_emm_data_context_t (ueid c) (is_dynamic c) (is_attached c) (is_emergency c) (guti c) (old_guti c) (guti_is_new c) (imsi c) v (security c) (vector c) (ksi c) (eea c) (eia c) (ucs2 c) (uea c) (uia c) (gea c) (umts_present c) (gprs_present c) (tac c) (n_tacs c) (emm_cause c) (esm_msg c) (_emm_fsm_status c) (T3450 c) (T3460 c) (T3470 c).
Definition set_security v (c : emm_data_context_t) :=
  Build_emm_data_context_t (ueid c) (is_dynamic c) (is_attached c) (is_emergency c) (guti c) (old_guti c) (guti_is_new c) (imsi c) (imei c) v (vector c) (ksi c) (eea c) (eia c) (ucs2 c) (uea c) (uia c) (gea c) (umts_present c) (gprs_present c) (tac c) (n_tacs c) (emm_cause c) (esm_msg c) (_emm_fsm_status c) (T3450 c) (T3460 c) (T3470 c).
Definition set_tac v (c : emm_data_context_t) :=
  Build_emm_data_context_t (ueid c) (is_dynamic c) (is_attached c) (is_emergency c) (guti c) (old_guti c) (guti_is_new c) (imsi c) (imei c) (security c) (vector c) (ksi c) (eea c) (eia c) (ucs2 c) (uea c) (uia c) (gea c) (umts_present c) (gprs_present c) v (n_tacs c) (emm_cause c) (esm_msg c) (_emm_fsm_status c) (T3450 c) (T3460 c) (T3470 c).
Definition set_emm_cause v (c : emm_data_context_t) :=
  Build_emm_data_context_t (ueid c) (is_dynamic c) (is_attached c) (is_emergency c) (guti c) (old_guti c) (guti_is_new c) (imsi c) (imei c) (security c) (vector c) (ksi c) (eea c) (eia c) (ucs2 c) (uea c) (uia c) (gea c) (umts_present c) (gprs_present c) (tac c) (n_tacs c) v (esm_msg c) (_emm_fsm_status c) (T3450 c) (T3460 c) (T3470 c).
Definition set_esm_msg v (c : emm_data_context_t) :=
  Build_emm_data_context_t (ueid c) (is_dynamic c) (is_attached c) (is_emergency c) (guti c) (old_guti c) (guti_is_new c) (imsi c) (imei c) (security c) (vector c) (ksi c) (eea c) (eia c) (ucs2 c) (uea c) (uia c) (gea c) (umts_present c) (gprs_present c) (tac c) (n_tacs c) (emm_cause c) v (_emm_fsm_status c) (T3450 c) (T3460 c) (T3470 c).
Definition set_emm_fsm_status v (c : emm_data_context_t) :=
  Build_emm_data_context_t (ueid c) (is_dynamic c) (is_attached c) (is_emergency c) (guti c) (old_guti c) (guti_is_new c) (imsi c) (imei c) (security c) (vector c) (ksi c) (eea c) (eia c) (ucs2 c) (uea c) (uia c) (gea c) (umts_present c) (gprs_present c) (tac c) (n_tacs c) (emm_cause c) (esm_msg c) v (T3450 c) (T3460 c) (T3470 c).
Definition set_T3450 v (c : emm_data_context_t) :=
  Build_emm_data_context_t (ueid c) (is_dynamic c) (is_attached c) (is_emergency c) (guti c) (old_guti c) (guti_is_new c) (imsi c) (imei c) (security c) (vector c) (ksi c) (eea c) (eia c) (ucs2 c) (uea c) (uia c) (gea c) (umts_present c) (gprs_present c) (tac c) (n_tacs c) (emm_cause c) (esm_msg c) (_emm_fsm_status c) v (T3460 c) (T3470 c).
Definition set_T3460 v (c : emm_data_context_t) :=
  Build_emm_data_context_t (ueid c) (is_dynamic c) (is_attached c) (is_emergency c) (guti c) (old_guti c) (guti_is_new c) (imsi c) (imei c) (security c) (vector c) (ksi c) (eea c) (eia c) (ucs2 c) (uea c) (uia c) (gea c) (umts_present c) (gprs_present c) (tac c) (n_tacs c) (emm_cause c) (esm_msg c) (_emm_fsm_status c) (T3450 c) v (T3470 c).
Definition set_T3470 v (c : emm_data_context_t) :=
  Build_emm_data_context_t (ueid c) (is_dynamic c) (is_attached c) (is_emergency c) (guti c) (old_guti c) (guti_is_new c) (imsi c) (imei c) (security c) (vector c) (ksi c) (eea c) (eia c) (ucs2 c) (uea c) (uia c) (gea c) (umts_present c) (gprs_present c) (tac c) (n_tacs c) (emm_cause c) (esm_msg c) (_emm_fsm_status c) (T3450 c) (T3460 c) v.

Definition set_timer_id (v : Z) (t : nas_timer_t) : nas_timer_t :=
  {| id := v; sec := sec t |}.

(** ** Primitives, collaborators and the trace *)

(** The functions of the file that are handed over as callbacks. *)
Inductive callback :=
| CB_NULL
| CB_emm_attach_identify
| CB_emm_attach_security
| CB_emm_attach
| CB_emm_attach_release
| CB_emm_attach_abort
| CB_emm_attach_t3450_handler.

(** The EMM-SAP primitives the file fills in, with the fields it sets.
    Pointers ([ctx], the attach data) are addresses, [0] for NULL. *)
Inductive emm_sap_t :=
| EMMREG_PROC_ABORT (reg_ueid reg_ctx : Z)
| EMMREG_ATTACH_CNF (reg_ueid reg_ctx : Z)
| EMMREG_ATTACH_REJ (reg_ueid reg_ctx : Z)
| EMMREG_COMMON_PROC_REQ (reg_ueid : Z)
| EMMAS_ESTABLISH_REJ (as_ueid as_emm_cause : Z) (NASmsg : OctetString)
    (sctx : option emm_security_context_t)
| EMMAS_ESTABLISH_CNF (as_ueid : Z) (UEid_guti new_guti : option GUTI_t)
    (as_n_tacs as_tac : Z) (sctx : option emm_security_context_t)
    (encryption integrity : Z) (NASmsg : OctetString).

Inductive esm_primitive_t :=
| ESM_PDN_CONNECTIVITY_REQ
| ESM_PDN_CONNECTIVITY_REJ
| ESM_DEFAULT_EPS_BEARER_CONTEXT_ACTIVATE_CNF.

(** The fields of [esm_sap_t] that the callers set; [recv] is a pointer to
    an [OctetString], [None] for NULL. *)
Record esm_sap_t := {
  primitive : esm_primitive_t;
  is_standalone : option Z;
  esm_ueid : Z;
  esm_ctx : Z;
  recv : option OctetString
}.

(** The other functions the file calls and that are defined elsewhere; all
    return an [int] (a status, a timer identifier or, for
    [emm_proc_common_get_args], an address). *)
Inductive api_call :=
| emm_proc_common_initialize (ue : Z) (success reject failure abort : callback) (args : Z)
| emm_proc_common_get_args (ue : Z)
| nas_timer_start (seconds : Z) (handler : callback) (args : Z)
| nas_timer_stop (timer : Z)
| nas_timer_restart (timer : Z)
| mme_api_notify_ue_id_changed (old_ueid new_ueid : Z)
| mme_api_notify_new_guti (ue : Z) (g : option GUTI_t)
| mme_api_identify_imsi (i : option imsi_t) (ctx : Z)
| mme_api_identify_guti (g : option GUTI_t) (ctx : Z)
| mme_api_identify_imei (i : option imei_t) (ctx : Z)
| mme_api_new_guti (i : option imsi_t) (ctx : Z)
| nas_itti_auth_info_req (ue : Z) (i : option imsi_t) (nb_vectors : Z)
| emm_proc_identification (ue ctx : Z) (success reject failure : callback)
| emm_proc_authentication (ctx ue eksi : Z) (rand_autn : list Z)
    (success reject failure : callback)
| emm_proc_security_mode_control (ue eksi : Z) (caps : list Z)
    (success reject failure : callback).

Inductive event :=
| EmmSap (p : emm_sap_t)
| EsmSap (p : esm_sap_t)
| Api (c : api_call).

(** The objects allocated with [malloc] / [calloc]. *)
Inductive alloc_site :=
| alloc_emm_ctx
| alloc_attach_data
| alloc_guti
| alloc_imsi
| alloc_imei
| alloc_security
| alloc_octets (n : Z).

(** ** Memory *)

(** Context and attach-data objects live in heaps indexed by address.
    [ctx_coll_ue_id] is the index of [_emm_data] by UE identifier (the
    array [_emm_data.ctx] when [NAS_BUILT_IN_EPC] is off), holding context
    addresses; [ctx_coll_guti] is the object hashtable from GUTI to UE
    identifier.  [ext] is private state of the collaborators. *)
Record memory := {
  ctx_heap : gmap Z emm_data_context_t;
  data_heap : gmap Z attach_data_t;
  ctx_coll_ue_id : gmap Z Z;
  ctx_coll_guti : list (GUTI_t * Z);
  ext : list Z
}.

Record state := {
  mem : memory;
  trace : list event
}.

Definition upd_ctx_heap (f : gmap Z emm_data_context_t → gmap Z emm_data_context_t) (m : memory) :=
  {| ctx_heap := f (ctx_heap m); data_heap := data_heap m;
     ctx_coll_ue_id := ctx_coll_ue_id m; ctx_coll_guti := ctx_coll_guti m; ext := ext m |}.
Definition upd_data_heap (f : gmap Z attach_data_t → gmap Z attach_data_t) (m : memory) :=
  {| ctx_heap := ctx_heap m; data_heap := f (data_heap m);
     ctx_coll_ue_id := ctx_coll_ue_id m; ctx_coll_guti := ctx_coll_guti m; ext := ext m |}.
Definition upd_coll_ue_id (f : gmap Z Z → gmap Z Z) (m : memory) :=
  {| ctx_heap := ctx_heap m; data_heap := data_heap m;
     ctx_coll_ue_id := f (ctx_coll_ue_id m); ctx_coll_guti := ctx_coll_guti m; ext := ext m |}.
Definition upd_coll_guti (f : list (GUTI_t * Z) → list (GUTI_t * Z)) (m : memory) :=
  {| ctx_heap := ctx_heap m; data_heap := data_heap m;
     ctx_coll_ue_id := ctx_coll_ue_id m; ctx_coll_guti := f (ctx_coll_guti m); ext := ext m |}.

(** Build switches and configuration. [NAS_BUILT_IN_EPC] and
    [ORIGINAL_CODE] are the preprocessor conditions of the file;
    [features] is [_emm_data.conf.features]; the [gummei] entries are
    [mme_config.gummei.plmn_tac[0]], [mmec[0]] and [mme_gid[0]]. *)
Record config := {
  NAS_BUILT_IN_EPC : bool;
  ORIGINAL_CODE : bool;
  EMM_DATA_NB_UE_MAX : Z;
  features : Z;
  plmn_tac_0 : Z;
  mmec_0 : Z;
  mme_gid_0 : Z;
  T3450_DEFAULT_VALUE : Z;
  T3460_DEFAULT_VALUE : Z;
  T3470_DEFAULT_VALUE : Z
}.

(** The collaborators.  Each call may change the memory (a context that is
    passed by address, the indices, its own state) and returns the [int]
    of the C function; [esm_sap_send] also fills [esm_sap.err] and
    [esm_sap.send].  [allocate] gives the address [malloc] returns, [0]
    when it fails.  [stack_err] and [stack_rc] are the values found in
    automatic variables that are read before being written. *)
Record environment := {
  esm_sap_send : esm_sap_t → memory → (Z * esm_sap_error_t * OctetString) * memory;
  emm_sap_send : emm_sap_t → memory → Z * memory;
  api : api_call → memory → Z * memory;
  allocate : alloc_site → memory → Z;
  mme_config_find_mnc_length : Z → Z → Z → Z → Z → Z → Z;
  stack_err : esm_sap_error_t;
  stack_rc : Z
}.

(** ** The monad of the embedding *)

(** A run ends with a value and a state, or is undefined (a pointer that
    designates no live object is dereferenced or freed), or stops because
    the recursion budget of [emm_proc_attach_request] is used up. *)
Inductive outcome (A : Type) :=
| Done (a : A) (s : state)
| Undefined
| OutOfFuel.
Arguments Done {A} a s.
Arguments Undefined {A}.
Arguments OutOfFuel {A}.

Definition M (A : Type) : Type := state → outcome A.

Definition ret {A} (a : A) : M A := fun s => Done a s.

Definition bind {A B} (m : M A) (k : A → M B) : M B :=
  fun s =>
    match m s with
    | Done a s' => k a s'
    | Undefined => Undefined
    | OutOfFuel => OutOfFuel
    end.

Notation "'let*' x ':=' c1 'in' c2" := (bind c1 (fun x => c2))
  (at level 10, x pattern, c1 at level 100, c2 at level 200).

Definition undefined {A} : M A := fun _ => Undefined.

Definition get_mem : M memory := fun s => Done (mem s) s.

Definition modify_mem (f : memory → memory) : M unit :=
  fun s => Done tt {| mem := f (mem s); trace := trace s |}.

Definition emit (e : event) : M unit :=
  fun s => Done tt {| mem := mem s; trace := trace s ++ [e] |}.

(** Run a collaborator on the memory. *)
Definition run_ext {A} (f : memory → A * memory) : M A :=
  fun s => let '(a, m') := f (mem s) in Done a {| mem := m'; trace := trace s |}.

(** [p->...] for a context pointer [p]. *)
Definition load_ctx (p : Z) : M emm_data_context_t :=
  fun s =>
    match ctx_heap (mem s) !! p with
    | Some c => Done c s
    | None => Undefined
    end.

Definition update_ctx (p : Z) (f : emm_data_context_t → emm_data_context_t) : M unit :=
  let* c := load_ctx p in
  modify_mem (upd_ctx_heap (insert p (f c))).

(** [d->...] for an attach-data pointer [d]. *)
Definition load_data (d : Z) : M attach_data_t :=
  fun s =>
    match data_heap (mem s) !! d with
    | Some x => Done x s
    | None => Undefined
    end.

Definition update_data (d : Z) (f : attach_data_t → attach_data_t) : M unit :=
  let* x := load_data d in
  modify_mem (upd_data_heap (insert d (f x))).

(** [free (d)] *)
Definition free_data (d : Z) : M unit :=
  let* _ := load_data d in
  modify_mem (upd_data_heap (delete d)).

Definition when (b : bool) (m : M unit) : M unit :=
  if b then m else ret tt.

Definition nonzero (z : Z) : bool := negb (z =? 0).

(** ** The context store *)

Fixpoint guti_lookup (g : GUTI_t) (l : list (GUTI_t * Z)) : option Z :=
  match l with
  | [] => None
  | (k, v) :: l' => if decide (k = g) then Some v else guti_lookup g l'
  end.

Definition guti_delete (g : GUTI_t) (l : list (GUTI_t * Z)) : list (GUTI_t * Z) :=
  filter (fun kv => kv.1 ≠ g) l.

(** [obj_hashtable_insert (_emm_data.ctx_coll_guti, g, sizeof g, ue)] *)
Definition obj_hashtable_insert (g : GUTI_t) (ue : Z) : M unit :=
  modify_mem (upd_coll_guti (fun l => (g, ue) :: guti_delete g l)).

(** [obj_hashtable_remove (_emm_data.ctx_coll_guti, g, sizeof g, &ue)] *)
Definition obj_hashtable_remove (g : GUTI_t) : M unit :=
  modify_mem (upd_coll_guti (guti_delete g)).

(** Modelled from the spec: [get_by_ueid] of §4.1, a lookup that returns a
    non-owning handle (NULL when there is none).  With [NAS_BUILT_IN_EPC]
    off this is the read of [_emm_data.ctx[ue]]. *)
Definition emm_data_context_get (ue : Z) : M Z :=
  let* m := get_mem in
  ret (default 0 (ctx_coll_ue_id m !! ue)).

(** Modelled from the spec: [get_by_guti] of §4.1 over the GUTI index,
    which the source fills with UE identifiers. *)
Definition emm_data_context_get_by_guti (g : GUTI_t) : M Z :=
  let* m := get_mem in
  match guti_lookup g (ctx_coll_guti m) with
  | Some ue => ret (default 0 (ctx_coll_ue_id m !! ue))
  | None => ret 0
  end.

(** Modelled from the spec: [insert] of §4.1, a no-op if a context with
    that UE identifier already exists; the entry appears in the GUTI index
    iff the context has a GUTI. *)
Definition emm_data_context_add (p : Z) : M unit :=
  let* c := load_ctx p in
  let* m := get_mem in
  match ctx_coll_ue_id m !! ueid c with
  | Some _ => ret tt
  | None =>
      let* _ := modify_mem (upd_coll_ue_id (insert (ueid c) p)) in
      match guti c with
      | Some g => obj_hashtable_insert g (ueid c)
      | None => ret tt
      end
  end.

(** Modelled from the spec: [remove] of §4.1 drops both index entries.  The
    source goes on using the context object after the call (it writes
    [temp->ueid] and adds it again, and passes it to [emm_sap_send]), so
    the object itself stays live. *)
Definition emm_data_context_remove (p : Z) : M unit :=
  let* c := load_ctx p in
  let* _ := modify_mem (upd_coll_ue_id (delete (ueid c))) in
  match guti c with
  | Some g => obj_hashtable_remove g
  | None => ret tt
  end.

(** Modelled from the spec: [fsm_status] is a field of the context (§3). *)
Definition emm_fsm_get_status (ue : Z) (p : Z) : M emm_fsm_state_t :=
  let* c := load_ctx p in
  ret (_emm_fsm_status c).

Definition emm_fsm_set_status (ue : Z) (p : Z) (st : emm_fsm_state_t) : M unit :=
  update_ctx p (set_emm_fsm_status st).

(** ** The attach procedure *)

Section Attach.

Variable C : config.
Variable E : environment.

(** The calls to the collaborators: each is recorded in the trace. *)
Definition call_api (c : api_call) : M Z :=
  let* _ := emit (Api c) in
  run_ext (api E c).

Definition call_emm_sap_send (p : emm_sap_t) : M Z :=
  let* _ := emit (EmmSap p) in
  run_ext (emm_sap_send E p).

Definition call_esm_sap_send (p : esm_sap_t) : M (Z * esm_sap_error_t * OctetString) :=
  let* _ := emit (EsmSap p) in
  run_ext (esm_sap_send E p).

(** [malloc] / [calloc]: the address, [0] on failure. *)
Definition malloc (site : alloc_site) : M Z :=
  let* m := get_mem in
  ret (allocate E site m).

(** [if (t.id != NAS_TIMER_INACTIVE_ID) t.id = nas_timer_stop (t.id);] for
    one of the timers of a context. *)
Definition stop_timer_if_active (p : Z)
    (get : emm_data_context_t → nas_timer_t)
    (set : nas_timer_t → emm_data_context_t → emm_data_context_t) : M unit :=
  let* c := load_ctx p in
  if negb (id (get c) =? NAS_TIMER_INACTIVE_ID) then
    let* r := call_api (nas_timer_stop (id (get c))) in
    update_ctx p (fun c' => set (set_timer_id r (get c')) c')
  else ret tt.

(** [_emm_attach_release]: releases the UE context data. *)
Definition _emm_attach_release (args : Z) : M Z :=
  if args =? 0 then ret RETURNerror
  else
    let* c := load_ctx args in
    let ue := ueid c in
    (* free the GUTI, the IMSI and the IMEI *)
    let* _ := update_ctx args (fun c => set_imei None (set_imsi None (set_guti None c))) in
    let* _ := update_ctx args (fun c =>
                if 0 <? os_length (esm_msg c)
                then set_esm_msg {| os_length := os_length (esm_msg c); os_value := None |} c
                else c) in
    (* release the NAS security context *)
    let* _ := update_ctx args (set_security None) in
    let* _ := stop_timer_if_active args T3450 set_T3450 in
    let* _ := stop_timer_if_active args T3460 set_T3460 in
    let* _ := stop_timer_if_active args T3470 set_T3470 in
    (* release the EMM context *)
    let* _ :=
      if NAS_BUILT_IN_EPC C then emm_data_context_remove args
      else
        let* q := emm_data_context_get ue in
        let* _ := when (nonzero q)
                    (let* _ := load_ctx q in modify_mem (upd_ctx_heap (delete q))) in
        modify_mem (upd_coll_ue_id (delete ue)) in
    (* notify EMM that the attach procedure is aborted *)
    call_emm_sap_send (EMMREG_PROC_ABORT ue args).

(** [_emm_attach_reject]: the attach is not accepted by the network. *)
Definition _emm_attach_reject (args : Z) : M Z :=
  if args =? 0 then ret RETURNerror
  else
    let* c := load_ctx args in
    let* _ := when (emm_cause c =? EMM_CAUSE_SUCCESS)
                (update_ctx args (set_emm_cause EMM_CAUSE_ILLEGAL_UE)) in
    let* c := load_ctx args in
    let send (msg : OctetString) : M Z :=
      let* rc := call_emm_sap_send
                   (EMMAS_ESTABLISH_REJ (ueid c) (emm_cause c) msg (security c)) in
      (* release the UE context, even if the ATTACH REJECT was not sent *)
      let* c' := load_ctx args in
      if nonzero (is_dynamic c') then _emm_attach_release args
      else ret rc in
    if negb (emm_cause c =? EMM_CAUSE_ESM_FAILURE) then send OctetString_empty
    else if 0 <? os_length (esm_msg c) then send (esm_msg c)
    else (* "ESM message is missing" *) ret RETURNerror.

(** [_emm_attach_abort]: aborts the attach procedure. *)
Definition _emm_attach_abort (args : Z) : M Z :=
  if args =? 0 then ret RETURNerror
  else
    let* d := load_data args in
    let ue := ad_ueid d in
    let* ctx := emm_data_context_get ue in
    let* _ := when (nonzero ctx) (stop_timer_if_active ctx T3450 set_T3450) in
    (* release the retransmission timer parameters *)
    let* _ := free_data args in
    (* notify ESM that the network locally refused PDN connectivity *)
    let* (rc, _, _) := call_esm_sap_send
                          {| primitive := ESM_PDN_CONNECTIVITY_REJ; is_standalone := None;
                             esm_ueid := ue; esm_ctx := ctx; recv := None |} in
    if negb (rc =? RETURNerror) then
      (* notify EMM that the EPS attach procedure failed *)
      let* rc := call_emm_sap_send (EMMREG_ATTACH_REJ ue ctx) in
      if negb (rc =? RETURNerror) then _emm_attach_release ctx
      else ret rc
    else ret rc.

(** [_emm_attach_accept]: sends ATTACH ACCEPT and starts timer T3450.  The
    GUTIs of the primitive are pointers into the context; the model keeps
    the values they designate when the primitive is filled in.  With a
    NULL context the function returns its [rc] without having set it. *)
Definition _emm_attach_accept (emm_ctx : Z) (data : Z) : M Z :=
  if emm_ctx =? 0 then ret (stack_rc E)
  else
    let* c := load_ctx emm_ctx in
    let '(UEid_guti, new_guti) :=
      if nonzero (guti_is_new c) && bool_decide (old_guti c ≠ None)
      then (old_guti c, guti c)        (* implicit GUTI reallocation *)
      else if nonzero (guti_is_new c) && bool_decide (guti c ≠ None)
      then (guti c, guti c)
      else (guti c, guti c) in
    let* _ := call_api (mme_api_notify_new_guti (ueid c) (guti c)) in
    let* c1 := load_ctx emm_ctx in
    match security c1 with
    | None => undefined
    | Some sc =>
        let* d := load_data data in
        let* rc := call_emm_sap_send
                     (EMMAS_ESTABLISH_CNF (ueid c) UEid_guti new_guti (n_tacs c1) (tac c1)
                        (security c1) (sel_encryption sc) (sel_integrity sc) (ad_esm_msg d)) in
        let* _ :=
          if negb (rc =? RETURNerror) then
            let* c2 := load_ctx emm_ctx in
            if negb (id (T3450 c2) =? NAS_TIMER_INACTIVE_ID) then
              (* re-start T3450 *)
              let* r := call_api (nas_timer_restart (id (T3450 c2))) in
              update_ctx emm_ctx (fun c' => set_T3450 (set_timer_id r (T3450 c')) c')
            else
              (* start T3450 *)
              let* r := call_api (nas_timer_start (sec (T3450 c2)) CB_emm_attach_t3450_handler data) in
              update_ctx emm_ctx (fun c' => set_T3450 (set_timer_id r (T3450 c')) c')
          else ret tt in
        ret rc
    end.

(** [emm_cn_wrapper_attach_accept] *)
Definition emm_cn_wrapper_attach_accept (emm_ctx : Z) (data : Z) : M Z :=
  _emm_attach_accept emm_ctx data.

(** [_emm_attach_t3450_handler]: T3450 timeout handler. *)
Definition _emm_attach_t3450_handler (args : Z) : M unit :=
  (* increment the retransmission counter *)
  let* _ := update_data args (fun d =>
              {| ad_ueid := ad_ueid d;
                 retransmission_count := uint32 (retransmission_count d + 1);
                 ad_esm_msg := ad_esm_msg d |}) in
  let* d := load_data args in
  let* emm_ctx := emm_data_context_get (ad_ueid d) in
  if retransmission_count d <? ATTACH_COUNTER_MAX then
    (* send attach accept message to the UE *)
    let* _ := _emm_attach_accept emm_ctx args in ret tt
  else
    (* abort the attach procedure *)
    let* _ := _emm_attach_abort args in ret tt.

(** The end of [_emm_attach]: the attach procedure failed when [rc] is not
    [RETURNok]. *)
Definition emm_attach_finish (args : Z) (rc : Z) : M Z :=
  if negb (rc =? RETURNok) then
    (* "Failed to respond to Attach Request" *)
    let* _ := update_ctx args (set_emm_cause EMM_CAUSE_PROTOCOL_ERROR) in
    _emm_attach_reject args
  else ret rc.

(** What [_emm_attach] does with the status of [_emm_attach_accept] (under
    [ORIGINAL_CODE]): on an implicit GUTI reallocation, EMM is told that a
    common procedure has been initiated. *)
Definition emm_attach_after_accept (args : Z) (data : Z) (rc : Z) : M Z :=
  let* rc :=
    if negb (rc =? RETURNerror) then
      let* c := load_ctx args in
      if nonzero (guti_is_new c) && bool_decide (old_guti c ≠ None) then
        let* d := load_data data in
        call_emm_sap_send (EMMREG_COMMON_PROC_REQ (ad_ueid d))
      else ret rc
    else ret rc in
  emm_attach_finish args rc.

(** The ESM message container of the retransmission data: a copy of
    [esm_sap.send], empty when [malloc] fails. *)
Definition esm_container (v : Z) (send : OctetString) : OctetString :=
  if nonzero v
  then {| os_length := os_length send;
          os_value := Some (octets_copy (os_length send) send) |}
  else {| os_length := 0; os_value := None |}.

(** The primitive by which [_emm_attach] notifies ESM that PDN
    connectivity is requested. *)
Definition pdn_connectivity_req (c : emm_data_context_t) (args : Z) : esm_sap_t :=
  {| primitive := ESM_PDN_CONNECTIVITY_REQ;
     is_standalone := Some FALSE;
     esm_ueid := ueid c; esm_ctx := args;
     recv := Some (esm_msg c) |}.

(** [_emm_attach]: the attach signalling procedure once the UE is
    identified, authenticated and secured. *)
Definition _emm_attach (args : Z) : M Z :=
  let* c := load_ctx args in
  (* notify ESM that PDN connectivity is requested *)
  let* (rc, err, send) := call_esm_sap_send (pdn_connectivity_req c args) in
  if negb (rc =? RETURNerror) && bool_decide (err = ESM_SAP_SUCCESS) then
    (* allocate the parameters of the retransmission timer callback *)
    let* data := malloc alloc_attach_data in
    if nonzero data then
      let* _ := modify_mem (upd_data_heap (insert data attach_data_zero)) in
      let* c := load_ctx args in
      (* set up the ongoing EMM procedure callback functions *)
      let* rc := call_api (emm_proc_common_initialize (ueid c)
                             CB_NULL CB_NULL CB_NULL CB_emm_attach_abort data) in
      if negb (rc =? RETURNok) then
        let* _ := free_data data in
        ret RETURNerror
      else
        (* set the UE identifier, reset the retransmission counter *)
        let* c := load_ctx args in
        let* _ := update_data data (fun d =>
                    {| ad_ueid := ueid c; retransmission_count := 0;
                       ad_esm_msg := ad_esm_msg d |}) in
        if ORIGINAL_CODE C then
          (* set up the ESM message container *)
          let* v := malloc (alloc_octets (os_length send)) in
          let* _ := update_data data (fun d =>
                      {| ad_ueid := ad_ueid d;
                         retransmission_count := retransmission_count d;
                         ad_esm_msg := esm_container v send |}) in
          (* send attach accept message to the UE *)
          let* rc := _emm_attach_accept args data in
          emm_attach_after_accept args data rc
        else emm_attach_finish args RETURNok
    else emm_attach_finish args rc
  else if negb (bool_decide (err = ESM_SAP_DISCARDED)) then
    (* the attach procedure failed due to an ESM procedure failure *)
    let* _ := update_ctx args (set_emm_cause EMM_CAUSE_ESM_FAILURE) in
    let* v := malloc (alloc_octets (os_length send)) in
    if nonzero v then
      let* _ := update_ctx args
                  (set_esm_msg {| os_length := os_length send;
                                  os_value := Some (octets_copy (os_length send) send) |}) in
      (* send Attach Reject message *)
      let* rc := _emm_attach_reject args in
      emm_attach_finish args rc
    else
      let* _ := update_ctx args (set_esm_msg {| os_length := 0; os_value := None |}) in
      emm_attach_finish args rc
  else
    (* the ESM message was discarded or a Status message was returned *)
    emm_attach_finish args RETURNok.

Definition security_zero : emm_security_context_t :=
  {| sc_type := 0; kasme := OctetString_empty; knas_enc := OctetString_empty;
     knas_int := OctetString_empty; sel_encryption := 0; sel_integrity := 0 |}.

(** [_emm_attach_security]: initiates the security mode control procedure. *)
Definition _emm_attach_security (args : Z) : M Z :=
  let* c := load_ctx args in
  (* create a new NAS security context *)
  let* _ :=
    if bool_decide (security c = None) then
      let* a := malloc alloc_security in
      when (nonzero a) (update_ctx args (set_security (Some security_zero)))
    else ret tt in
  let* c := load_ctx args in
  match security c with
  | Some _ =>
      let* _ := update_ctx args
                  (set_security (Some {| sc_type := EMM_KSI_NOT_AVAILABLE;
                                         kasme := OctetString_empty;
                                         knas_enc := OctetString_empty;
                                         knas_int := OctetString_empty;
                                         sel_encryption := NAS_SECURITY_ALGORITHMS_EEA0;
                                         sel_integrity := NAS_SECURITY_ALGORITHMS_EIA0 |})) in
      let* c := load_ctx args in
      (* initialize the security mode control procedure *)
      let* rc := call_api (emm_proc_security_mode_control (ueid c) 0
                             [eea c; eia c; ucs2 c; uea c; uia c; gea c;
                              umts_present c; gprs_present c]
                             CB_emm_attach CB_emm_attach_release CB_emm_attach_release) in
      if negb (rc =? RETURNok) then
        let* _ := update_ctx args (set_emm_cause EMM_CAUSE_ILLEGAL_UE) in
        _emm_attach_reject args
      else ret rc
  | None =>
      (* "Failed to create security context" *)
      let* _ := update_ctx args (set_emm_cause EMM_CAUSE_ILLEGAL_UE) in
      _emm_attach_reject args
  end.

(** [emm_attach_security] (with [NAS_BUILT_IN_EPC]). *)
Definition emm_attach_security (args : Z) : M Z := _emm_attach_security args.

(** The three stages of [_emm_attach_identify] after the identity has been
    looked at: GUTI reallocation, authentication, and the final reject. *)
Definition identify_guti_reallocation (args : Z) (rc : Z) (guti_reallocation : bool) : M Z :=
  if negb (rc =? RETURNerror) && guti_reallocation then
    (* save the GUTI previously used by the UE, allocate a new one *)
    let* a := malloc alloc_guti in
    let* _ := update_ctx args (fun c =>
                set_guti (if nonzero a then Some GUTI_zero else None)
                  (set_old_guti (guti c) c)) in
    let* c := load_ctx args in
    (* request the MME to assign a GUTI to the UE *)
    let* rc := call_api (mme_api_new_guti (imsi c) args) in
    if negb (rc =? RETURNok) then
      let* _ := update_ctx args (set_emm_cause EMM_CAUSE_ILLEGAL_UE) in ret rc
    else
      let* _ := update_ctx args (set_guti_is_new TRUE) in ret rc
  else ret rc.

Definition identify_authentication (args : Z) (rc : Z) : M Z :=
  if negb (rc =? RETURNerror) then
    let* c := load_ctx args in
    if bool_decide (security c ≠ None) then
      (* a security context exists: proceed with the attach procedure *)
      _emm_attach args
    else if nonzero (is_emergency c)
            && nonzero (Z.land (features C) MME_API_UNAUTHENTICATED_IMSI) then
      _emm_attach_security args
    else if negb (NAS_BUILT_IN_EPC C) then
      let* rc := call_api (emm_proc_authentication args (ueid c) 0 (vector c)
                             CB_emm_attach_security CB_emm_attach_release
                             CB_emm_attach_release) in
      if negb (rc =? RETURNok) then
        let* _ := update_ctx args (set_emm_cause EMM_CAUSE_ILLEGAL_UE) in ret rc
      else ret rc
    else ret rc
  else ret rc.

Definition identify_finish (args : Z) (rc : Z) : M Z :=
  if negb (rc =? RETURNok) then _emm_attach_reject args else ret rc.

(** [_emm_attach_identify]: performs the UE's identification. *)
Definition _emm_attach_identify (args : Z) : M Z :=
  let* c := load_ctx args in
  let continue (rc : Z) (guti_reallocation : bool) : M Z :=
    let* rc := identify_guti_reallocation args rc guti_reallocation in
    let* rc := identify_authentication args rc in
    identify_finish args rc in
  if bool_decide (imsi c ≠ None) then
    (* the UE identifies itself using an IMSI *)
    if NAS_BUILT_IN_EPC C && bool_decide (security c = None) then
      (* ask the upper layer to fetch a new security context *)
      let* _ := call_api (nas_itti_auth_info_req (ueid c) (imsi c) 1) in
      continue RETURNok false
    else
      let* rc := call_api (mme_api_identify_imsi (imsi c) args) in
      let* _ := when (negb (rc =? RETURNok))
                  (update_ctx args (set_emm_cause EMM_CAUSE_ILLEGAL_UE)) in
      continue rc true
  else if bool_decide (guti c ≠ None) then
    (* the UE identifies itself using a GUTI; identification is forced *)
    let* _ := call_api (mme_api_identify_guti (guti c) args) in
    let* c := load_ctx args in
    let* rc := call_api (emm_proc_identification (ueid c) args CB_emm_attach_identify
                           CB_emm_attach_release CB_emm_attach_release) in
    if negb (rc =? RETURNok) then
      let* _ := update_ctx args (set_emm_cause EMM_CAUSE_ILLEGAL_UE) in
      _emm_attach_reject args
    else ret rc
  else if bool_decide (imei c ≠ None) && nonzero (is_emergency c) then
    (* emergency attach using an IMEI *)
    let* rc := call_api (mme_api_identify_imei (imei c) args) in
    let* _ := when (negb (rc =? RETURNok))
                (update_ctx args (set_emm_cause EMM_CAUSE_IMEI_NOT_ACCEPTED)) in
    continue rc false
  else
    (* "UE's identity is not available" *)
    let* _ := update_ctx args (set_emm_cause EMM_CAUSE_ILLEGAL_UE) in
    continue RETURNerror false.

(** The parameters of an Attach Request, as [emm_proc_attach_request]
    receives them; pointers to identities are options, [tai] is reduced to
    the [tac] the code reads. *)
Record attach_request := {
  req_ueid : Z;
  req_type : emm_proc_attach_type_t;
  is_native_ksi : Z;
  req_ksi : Z;
  is_native_guti : Z;
  req_guti : option GUTI_t;
  req_imsi : option imsi_t;
  req_imei : option imei_t;
  req_tai : option Z;
  req_eea : Z; req_eia : Z; req_ucs2 : Z; req_uea : Z; req_uia : Z; req_gea : Z;
  req_umts_present : Z; req_gprs_present : Z;
  esm_msg_pP : OctetString
}.

(** [(type == EMM_ATTACH_TYPE_EMERGENCY)] as an [int]. *)
Definition is_emergency_type (t : emm_proc_attach_type_t) : Z :=
  if decide (t = EMM_ATTACH_TYPE_EMERGENCY) then 1 else 0.

(** [_emm_attach_have_changed]: do the attach parameters differ from those
    stored when the attach procedure was initiated? *)
Definition _emm_attach_have_changed (ctx : emm_data_context_t) (r : attach_request) : bool :=
  (* emergency bearer services indicator *)
  if negb (is_emergency_type (req_type r) =? is_emergency ctx) then true
  (* security key set identifier *)
  else if negb (req_ksi r =? ksi ctx) then true
  (* supported EPS encryption and integrity algorithms *)
  else if negb (req_eea r =? eea ctx) then true
  else if negb (req_eia r =? eia ctx) then true
  else if negb (req_umts_present r =? umts_present ctx) then true
  else if nonzero (umts_present ctx) && nonzero (req_umts_present r)
          && (negb (req_ucs2 r =? ucs2 ctx) || negb (req_uea r =? uea ctx)
              || negb (req_uia r =? uia ctx)) then true
  else if negb (req_gprs_present r =? gprs_present ctx) then true
  else if nonzero (gprs_present ctx) && nonzero (req_gprs_present r)
          && negb (req_gea r =? gea ctx) then true
  else
    (* the GUTI if provided by the UE *)
    let guti_changed :=
      match req_guti r, guti ctx with
      | Some _, None => true
      | None, Some _ => true
      | Some g, Some g' =>
          negb (m_tmsi g =? m_tmsi g')
          || (negb (MMEcode (gummei g) =? MMEcode (gummei g'))
              || negb (MMEgid (gummei g) =? MMEgid (gummei g'))
              || negb (MCCdigit1 (plmn (gummei g)) =? MCCdigit1 (plmn (gummei g')))
              || negb (MCCdigit2 (plmn (gummei g)) =? MCCdigit2 (plmn (gummei g')))
              || negb (MCCdigit3 (plmn (gummei g)) =? MCCdigit3 (plmn (gummei g')))
              || negb (MNCdigit1 (plmn (gummei g)) =? MNCdigit1 (plmn (gummei g')))
              || negb (MNCdigit2 (plmn (gummei g)) =? MNCdigit2 (plmn (gummei g')))
              || negb (MNCdigit3 (plmn (gummei g)) =? MNCdigit3 (plmn (gummei g'))))
      | None, None => false
      end in
    (* the IMSI if provided by the UE: [memcmp] over [sizeof (imsi_t)] *)
    let imsi_changed :=
      match req_imsi r, imsi ctx with
      | Some _, None => true
      | None, Some _ => true
      | Some i, Some i' => negb (bool_decide (i = i'))
      | None, None => false
      end in
    (* the IMEI if provided by the UE *)
    let imei_changed :=
      match req_imei r, imei ctx with
      | Some _, None => true
      | None, Some _ => true
      | Some i, Some i' => negb (bool_decide (i = i'))
      | None, None => false
      end in
    if guti_changed then true
    else if imsi_changed then true
    else imei_changed.

(** The GUTI that [_emm_attach_update] writes into [ctx->guti] when the UE
    gave none: MME code and group from the configuration, [m_tmsi] from the
    address of the context, PLMN digits from the first IMSI digits. *)
Definition guti_from_config (ctx : Z) (g : GUTI_t) : GUTI_t :=
  {| gummei := {| plmn := plmn (gummei g); MMEgid := mme_gid_0 C; MMEcode := mmec_0 C |};
     m_tmsi := uint32 ctx |}.

Definition guti_with_plmn (i : imsi_t) (mnc_length : Z) (g : GUTI_t) : GUTI_t :=
  {| gummei :=
       {| plmn :=
            if mnc_length =? 2 then
              {| MCCdigit1 := imsi_digit i 1; MCCdigit2 := imsi_digit i 2;
                 MCCdigit3 := imsi_digit i 3;
                 MNCdigit1 := imsi_digit i 4; MNCdigit2 := imsi_digit i 5;
                 MNCdigit3 := 15 |}
            else
              {| MCCdigit1 := imsi_digit i 1; MCCdigit2 := imsi_digit i 2;
                 MCCdigit3 := imsi_digit i 3;
                 MNCdigit1 := imsi_digit i 5; MNCdigit2 := imsi_digit i 6;
                 MNCdigit3 := imsi_digit i 4 |};
          MMEgid := MMEgid (gummei g); MMEcode := MMEcode (gummei g) |};
     m_tmsi := m_tmsi g |}.

(** The end of [_emm_attach_update]: the identities, the ESM message and
    the attachment indicator. *)
Definition update_identities_and_esm (ctx : Z) (r : attach_request) : M Z :=
  let esm_part : M Z :=
    let src := esm_msg_pP r in
    let tail : M Z :=
      let* _ := update_ctx ctx (fun c =>
                  set_esm_msg {| os_length := os_length src;
                                 os_value := os_value (esm_msg c) |} c) in
      (* attachment indicator *)
      let* _ := update_ctx ctx (set_is_attached FALSE) in
      ret RETURNok in
    if 0 <? os_length src then
      let* _ := update_ctx ctx (fun c =>
                  if bool_decide (os_value (esm_msg c) ≠ None)
                  then set_esm_msg OctetString_empty c else c) in
      let* v := malloc (alloc_octets (os_length src)) in
      if nonzero v then
        let* _ := update_ctx ctx (fun c =>
                    set_esm_msg {| os_length := os_length (esm_msg c);
                                   os_value := Some (octets_copy (os_length src) src) |} c) in
        tail
      else ret RETURNerror
    else tail in
  let imei_part : M Z :=
    match req_imei r with
    | Some i =>
        let* c := load_ctx ctx in
        let* ok :=
          if bool_decide (imei c = None) then
            let* a := malloc alloc_imei in ret (nonzero a)
          else ret true in
        if ok then let* _ := update_ctx ctx (set_imei (Some i)) in esm_part
        else ret RETURNerror
    | None => esm_part
    end in
  match req_imsi r with
  | Some i =>
      let* c := load_ctx ctx in
      let* ok :=
        if bool_decide (imsi c = None) then
          let* a := malloc alloc_imsi in ret (nonzero a)
        else ret true in
      if ok then let* _ := update_ctx ctx (set_imsi (Some i)) in imei_part
      else ret RETURNerror
  | None => imei_part
  end.

(** [_emm_attach_update]: updates the EMM context with the parameters of
    the attach procedure. *)
Definition _emm_attach_update (ctx : Z) (ue : Z) (r : attach_request) : M Z :=
  let* _ := update_ctx ctx (fun c =>
    Build_emm_data_context_t ue (is_dynamic c) (is_attached c)
      (is_emergency_type (req_type r)) (guti c) (old_guti c) (guti_is_new c)
      (imsi c) (imei c) (security c) (vector c)
      (req_ksi r) (req_eea r) (req_eia r) (req_ucs2 r) (req_uea r) (req_uia r) (req_gea r)
      (req_umts_present r) (req_gprs_present r)
      (tac c) (n_tacs c) (emm_cause c) (esm_msg c) (_emm_fsm_status c)
      (T3450 c) (T3460 c) (T3470 c)) in
  let* c := load_ctx ctx in
  match req_guti r with
  | Some g =>
      (* the GUTI provided by the UE *)
      let* _ :=
        if bool_decide (guti c = None) then
          let* a := malloc alloc_guti in
          let* _ := when (nonzero a) (update_ctx ctx (set_guti (Some GUTI_zero))) in
          obj_hashtable_insert g (ueid c)
        else ret tt in
      let* c := load_ctx ctx in
      if bool_decide (guti c ≠ None) then
        let* _ := update_ctx ctx (set_guti (Some g)) in
        update_identities_and_esm ctx r
      else ret RETURNerror
  | None =>
      let* _ :=
        match guti c with
        | None =>
            let* a := malloc alloc_guti in
            when (nonzero a) (update_ctx ctx (set_guti (Some GUTI_zero)))
        | Some g0 => obj_hashtable_remove g0
        end in
      let* c := load_ctx ctx in
      match guti c, req_imsi r with
      | Some g0, Some i =>
          let g1 := guti_from_config ctx g0 in
          let* _ := update_ctx ctx (fun c => set_guti (Some g1) (set_tac (plmn_tac_0 C) c)) in
          let mnc_length :=
            mme_config_find_mnc_length E (imsi_digit i 1) (imsi_digit i 2) (imsi_digit i 3)
              (imsi_digit i 4) (imsi_digit i 5) (imsi_digit i 6) in
          if (mnc_length =? 2) || (mnc_length =? 3) then
            let g2 := guti_with_plmn i mnc_length g1 in
            let* _ := update_ctx ctx (set_guti (Some g2)) in
            let* c := load_ctx ctx in
            let* _ := obj_hashtable_insert g2 (ueid c) in
            let* _ := update_ctx ctx (set_guti_is_new TRUE) in
            update_identities_and_esm ctx r
          else ret RETURNerror
      | _, _ => ret RETURNerror
      end
  end.

(** The automatic variable [ue_ctx] of [emm_proc_attach_request] and
    [emm_proc_attach_reject] is passed by address to [_emm_attach_reject]:
    it is kept in the context heap, at an address no allocation returns,
    for the time of that call. *)
Definition ue_ctx_addr : Z := -1.

Definition reject_ue_ctx (ue_ctx : emm_data_context_t) : M Z :=
  let* _ := modify_mem (upd_ctx_heap (insert ue_ctx_addr ue_ctx)) in
  let* rc := _emm_attach_reject ue_ctx_addr in
  let* _ := modify_mem (upd_ctx_heap (delete ue_ctx_addr)) in
  ret rc.

(** The temporary UE context: [memset] to zero, not dynamic. *)
Definition temporary_ue_ctx (ue : Z) (cause : Z) : emm_data_context_t :=
  set_emm_cause cause (set_ueid ue (set_is_dynamic FALSE emm_ctx_zero)).

(** The fields [emm_proc_attach_request] gives a context it has just
    obtained from [calloc]. *)
Definition emm_ctx_created (ue : Z) : emm_data_context_t :=
  set_T3470 {| id := NAS_TIMER_INACTIVE_ID; sec := T3470_DEFAULT_VALUE C |}
    (set_T3460 {| id := NAS_TIMER_INACTIVE_ID; sec := T3460_DEFAULT_VALUE C |}
       (set_T3450 {| id := NAS_TIMER_INACTIVE_ID; sec := T3450_DEFAULT_VALUE C |}
          (set_ueid ue
             (set_emm_fsm_status EMM_INVALID
                (set_emm_cause EMM_CAUSE_SUCCESS
                   (set_is_dynamic TRUE emm_ctx_zero)))))).

(** The look-up of a previous context by GUTI and its rebinding to the new
    UE identifier (with [NAS_BUILT_IN_EPC], when no context exists under
    the UE identifier).  Returns the new value of [temp] and of
    [previous_context_found]. *)
Definition rebind_by_guti (ue : Z) (temp : Z) (g : option GUTI_t) : M (Z * bool) :=
  if temp =? 0 then
    match g with
    | Some g =>
        let* temp := emm_data_context_get_by_guti g in
        if nonzero temp then
          let* c := load_ctx temp in
          let* _ := call_api (mme_api_notify_ue_id_changed (ueid c) ue) in
          (* ue_id has changed *)
          let* _ := emm_data_context_remove temp in
          let* _ := update_ctx temp (set_ueid ue) in
          (* put context with right key *)
          let* _ := emm_data_context_add temp in
          ret (temp, false)
        else ret (temp, false)
    | None => ret (temp, false)
    end
  else ret (temp, true).

(** The creation of the UE's EMM context; NULL when [calloc] fails.  With
    [NAS_BUILT_IN_EPC] off, [*emm_ctx] is the slot [_emm_data.ctx[ueid]]. *)
Definition create_context (ue : Z) : M Z :=
  let* p := malloc alloc_emm_ctx in
  let* _ := when (negb (NAS_BUILT_IN_EPC C))
              (modify_mem (upd_coll_ue_id (insert ue p))) in
  if nonzero p then
    let* _ := modify_mem (upd_ctx_heap (insert p (emm_ctx_created ue))) in
    let* _ := emm_fsm_set_status ue p EMM_DEREGISTERED in
    let* _ := when (NAS_BUILT_IN_EPC C) (emm_data_context_add p) in
    ret p
  else ret 0.

(** The end of [emm_proc_attach_request], from the capture of the TAI on:
    update of the context, then reject or identification. *)
Definition attach_update_and_identify (emm_ctx : Z) (r : attach_request) : M Z :=
  let* _ :=
    match req_tai r with
    | Some t => update_ctx emm_ctx (set_tac t)
    | None => ret tt
    end in
  (* update the EMM context with the current attach parameters *)
  let* rc := _emm_attach_update emm_ctx (req_ueid r) r in
  if negb (rc =? RETURNok) then
    (* "Failed to update EMM context" *)
    let* _ := update_ctx emm_ctx (set_emm_cause EMM_CAUSE_ILLEGAL_UE) in
    _emm_attach_reject emm_ctx
  else
    (* performs UE identification *)
    _emm_attach_identify emm_ctx.

(** [if (FALSE == previous_context_found) { ... }] and what follows. *)
Definition attach_with_context (temp : Z) (previous_context_found : bool)
    (r : attach_request) : M Z :=
  if negb previous_context_found then
    (* create UE's EMM context *)
    let* p := create_context (req_ueid r) in
    if nonzero p then attach_update_and_identify p r
    else
      (* "Failed to create EMM context" *)
      reject_ue_ctx (temporary_ue_ctx (req_ueid r) EMM_CAUSE_ILLEGAL_UE)
  else attach_update_and_identify temp r.

(** The body of [emm_proc_attach_request]; [self] stands for the function
    itself, which the body calls when the attach parameters have changed. *)
Definition emm_proc_attach_request_body (self : attach_request → M Z)
    (r : attach_request) : M Z :=
  let ue := req_ueid r in
  if negb (NAS_BUILT_IN_EPC C) && (EMM_DATA_NB_UE_MAX C <=? ue) then
    (* do not accept UE with invalid identifier *)
    reject_ue_ctx (temporary_ue_ctx ue EMM_CAUSE_ILLEGAL_UE)
  else if (Z.land (features C) MME_API_EMERGENCY_ATTACH =? 0)
          && bool_decide (req_type r = EMM_ATTACH_TYPE_EMERGENCY) then
    (* do not accept the UE to attach for emergency services *)
    reject_ue_ctx (temporary_ue_ctx ue EMM_CAUSE_IMEI_NOT_ACCEPTED)
  else
    (* get the UE's EMM context if it exists *)
    let* temp := emm_data_context_get ue in
    let* exists_above_deregistered :=
      if nonzero temp then
        let* st := emm_fsm_get_status ue temp in
        ret (fsm_rank EMM_DEREGISTERED <? fsm_rank st)
      else ret false in
    if exists_above_deregistered then
      (* an EMM context already exists for the UE in the network *)
      let* c := load_ctx temp in
      if _emm_attach_have_changed c r then
        (* notify EMM that the attach procedure is aborted *)
        let* rc := call_emm_sap_send (EMMREG_PROC_ABORT ue temp) in
        if negb (rc =? RETURNerror) then
          (* process new attach procedure *)
          self r
        else ret rc
      else
        (* "Received duplicated Attach Request" *)
        ret RETURNok
    else
      let* (temp, previous_context_found) :=
        if NAS_BUILT_IN_EPC C then rebind_by_guti ue temp (req_guti r)
        else ret (temp, false) in
      attach_with_context temp previous_context_found r.

(** [emm_proc_attach_request]: performs the UE requested attach procedure.
    [fuel] bounds the depth of the calls of the function to itself. *)
Fixpoint emm_proc_attach_request (fuel : nat) (r : attach_request) : M Z :=
  match fuel with
  | O => fun _ => OutOfFuel
  | S fuel' => emm_proc_attach_request_body (emm_proc_attach_request fuel') r
  end.

(** [emm_proc_attach_reject]: the protocol error abnormal case. *)
Definition emm_proc_attach_reject (ue : Z) (cause : Z) : M Z :=
  let valid := if NAS_BUILT_IN_EPC C then 0 <? ue else ue <? EMM_DATA_NB_UE_MAX C in
  reject_ue_ctx
    (temporary_ue_ctx ue (if valid then cause else EMM_CAUSE_ILLEGAL_UE)).

(** [emm_proc_attach_complete]: terminates the attach procedure upon
    receiving the Attach Complete message.  When no context is found,
    [esm_sap] has not been written when [esm_sap.err] is read. *)
Definition emm_proc_attach_complete (ue : Z) (esm : OctetString) : M Z :=
  (* release retransmission timer parameters *)
  let* data := call_api (emm_proc_common_get_args ue) in
  let* _ := when (nonzero data) (free_data data) in
  (* get the UE context *)
  let* emm_ctx :=
    if (if NAS_BUILT_IN_EPC C then 0 <? ue else ue <? EMM_DATA_NB_UE_MAX C)
    then emm_data_context_get ue
    else ret 0 in
  let* (rc, err) :=
    if nonzero emm_ctx then
      (* stop timer T3450 *)
      let* c := load_ctx emm_ctx in
      let* r := call_api (nas_timer_stop (id (T3450 c))) in
      let* _ := update_ctx emm_ctx (fun c' => set_T3450 (set_timer_id r (T3450 c')) c') in
      (* delete the old GUTI and consider the GUTI sent as valid *)
      let* _ := update_ctx emm_ctx (set_guti_is_new FALSE) in
      let* _ := update_ctx emm_ctx (set_old_guti None) in
      (* forward the Activate Default EPS Bearer Context Accept message *)
      let* (rc, err, _) := call_esm_sap_send
                             {| primitive := ESM_DEFAULT_EPS_BEARER_CONTEXT_ACTIVATE_CNF;
                                is_standalone := Some FALSE;
                                esm_ueid := ue; esm_ctx := emm_ctx;
                                recv := Some esm |} in
      ret (rc, err)
    else
      (* "No EMM context exists" *)
      ret (RETURNerror, stack_err E) in
  if negb (rc =? RETURNerror) && bool_decide (err = ESM_SAP_SUCCESS) then
    (* set the network attachment indicator *)
    let* _ := update_ctx emm_ctx (set_is_attached TRUE) in
    (* notify EMM that attach procedure has successfully completed *)
    call_emm_sap_send (EMMREG_ATTACH_CNF ue emm_ctx)
  else if negb (bool_decide (err = ESM_SAP_DISCARDED)) then
    (* notify EMM that attach procedure failed *)
    call_emm_sap_send (EMMREG_ATTACH_REJ ue emm_ctx)
  else
    (* ignore the ESM procedure failure *)
    ret RETURNok.

End Attach.

(** ** A reference environment

    Collaborators that answer with fixed values.  The timer service hands
    out the identifier [1]; [emm_proc_common_initialize] keeps the attach
    data in the private state, where [emm_proc_common_get_args] finds it;
    allocation returns an address above every live object.  [emm_rc] and
    [esm_answer] are the answers of the two SAPs; when [fsm] is set,
    [EMMREG_PROC_ABORT] brings the context back to [EMM_DEREGISTERED] and
    [EMMREG_ATTACH_CNF] to [EMM_REGISTERED], as the EMM state machine of
    §4.4 does. *)

Definition next_address {A} (h : gmap Z A) : Z :=
  1 + map_fold (fun k _ acc => Z.max k acc) 0 h.

Definition set_status_at (p : Z) (st : emm_fsm_state_t) (m : memory) : memory :=
  match ctx_heap m !! p with
  | Some c => upd_ctx_heap (insert p (set_emm_fsm_status st c)) m
  | None => m
  end.

Definition set_ext (l : list Z) (m : memory) : memory :=
  {| ctx_heap := ctx_heap m; data_heap := data_heap m;
     ctx_coll_ue_id := ctx_coll_ue_id m; ctx_coll_guti := ctx_coll_guti m; ext := l |}.

Definition reference_env (fsm : bool) (emm_rc : Z)
    (esm_answer : Z * esm_sap_error_t * OctetString) (mnc_length : Z)
    (alloc_ok : alloc_site → bool) : environment :=
  {| esm_sap_send := fun _ m => (esm_answer, m);
     emm_sap_send := fun p m =>
       (emm_rc,
        if fsm then
          match p with
          | EMMREG_PROC_ABORT _ ctx => set_status_at ctx EMM_DEREGISTERED m
          | EMMREG_ATTACH_CNF _ ctx => set_status_at ctx EMM_REGISTERED m
          | _ => m
          end
        else m);
     api := fun c m =>
       match c with
       | emm_proc_common_initialize _ _ _ _ _ args => (RETURNok, set_ext [args] m)
       | emm_proc_common_get_args _ => (hd 0 (ext m), m)
       | nas_timer_start _ _ _ => (1, m)
       | nas_timer_stop _ => (NAS_TIMER_INACTIVE_ID, m)
       | nas_timer_restart t => (t, m)
       | _ => (RETURNok, m)
       end;
     allocate := fun site m =>
       if alloc_ok site then
         match site with
         | alloc_emm_ctx => next_address (ctx_heap m)
         | alloc_attach_data => next_address (data_heap m)
         | _ => 1
         end
       else 0;
     mme_config_find_mnc_length := fun _ _ _ _ _ _ => mnc_length;
     stack_err := ESM_SAP_FAILED;
     stack_rc := RETURNerror |}.

Definition reference_config (epc original : bool) (feat : Z) : config :=
  {| NAS_BUILT_IN_EPC := epc; ORIGINAL_CODE := original;
     EMM_DATA_NB_UE_MAX := 16; features := feat;
     plmn_tac_0 := 1; mmec_0 := 2; mme_gid_0 := 3;
     T3450_DEFAULT_VALUE := 6; T3460_DEFAULT_VALUE := 6; T3470_DEFAULT_VALUE := 6 |}.

Definition empty_memory : memory :=
  {| ctx_heap := ∅; data_heap := ∅; ctx_coll_ue_id := ∅; ctx_coll_guti := []; ext := [] |}.

Definition empty_state : state := {| mem := empty_memory; trace := [] |}.

Definition imsi_001_01 : imsi_t :=
  {| imsi_length := 8; imsi_digits := [0; 0; 1; 0; 1; 0; 0; 0; 0; 0; 0; 0; 0; 0; 1] |}.

Definition pdn_connectivity_request : OctetString :=
  {| os_length := 3; os_value := Some [208; 1; 2] |}.

(** Scenario 1 of §8: [ue_id = 7], type EPS, an IMSI, an ESM container. *)
Definition request_imsi (ue : Z) : attach_request :=
  {| req_ueid := ue; req_type := EMM_ATTACH_TYPE_EPS; is_native_ksi := 0; req_ksi := 7;
     is_native_guti := 0; req_guti := None; req_imsi := Some imsi_001_01; req_imei := None;
     req_tai := None;
     req_eea := 240; req_eia := 240; req_ucs2 := 0; req_uea := 0; req_uia := 0; req_gea := 0;
     req_umts_present := 0; req_gprs_present := 0;
     esm_msg_pP := pdn_connectivity_request |}.

(** ** The claims' vocabulary *)

(** The parameter-change detector, in the words of §4.3: the GUTI is equal
    iff the [m_tmsi] and every digit of the embedded GUMMEI match. *)
Definition guti_equal (g g' : GUTI_t) : Prop :=
  m_tmsi g = m_tmsi g'
  ∧ MMEcode (gummei g) = MMEcode (gummei g')
  ∧ MMEgid (gummei g) = MMEgid (gummei g')
  ∧ MCCdigit1 (plmn (gummei g)) = MCCdigit1 (plmn (gummei g'))
  ∧ MCCdigit2 (plmn (gummei g)) = MCCdigit2 (plmn (gummei g'))
  ∧ MCCdigit3 (plmn (gummei g)) = MCCdigit3 (plmn (gummei g'))
  ∧ MNCdigit1 (plmn (gummei g)) = MNCdigit1 (plmn (gummei g'))
  ∧ MNCdigit2 (plmn (gummei g)) = MNCdigit2 (plmn (gummei g'))
  ∧ MNCdigit3 (plmn (gummei g)) = MNCdigit3 (plmn (gummei g')).

(** An identity differs when it is present on one side only, or present on
    both sides and not the same. *)
Definition identity_differs {A} (same : A → A → Prop) (new stored : option A) : Prop :=
  match new, stored with
  | Some a, Some b => ¬ same a b
  | None, None => False
  | _, _ => True
  end.

Definition attach_parameters_differ (ctx : emm_data_context_t) (r : attach_request) : Prop :=
  is_emergency_type (req_type r) ≠ is_emergency ctx
  ∨ req_ksi r ≠ ksi ctx
  ∨ req_eea r ≠ eea ctx
  ∨ req_eia r ≠ eia ctx
  ∨ req_umts_present r ≠ umts_present ctx
  ∨ req_gprs_present r ≠ gprs_present ctx
  ∨ (umts_present ctx ≠ 0 ∧ req_umts_present r ≠ 0
     ∧ (req_ucs2 r ≠ ucs2 ctx ∨ req_uea r ≠ uea ctx ∨ req_uia r ≠ uia ctx))
  ∨ (gprs_present ctx ≠ 0 ∧ req_gprs_present r ≠ 0 ∧ req_gea r ≠ gea ctx)
  ∨ identity_differs guti_equal (req_guti r) (guti ctx)
  ∨ identity_differs eq (req_imsi r) (imsi ctx)
  ∨ identity_differs eq (req_imei r) (imei ctx).

(** The GUTI of §4.4 step 5: MME code and MME group from the configuration,
    PLMN digits from the MCC and MNC of the IMSI; [m_tmsi] is what the code
    takes, the address of the context cut to 32 bits. *)
Definition synthesized_guti (C : config) (ctx : Z) (i : imsi_t) (mnc_length : Z) : GUTI_t :=
  {| gummei :=
       {| plmn :=
            {| MCCdigit1 := imsi_digit i 1;
               MCCdigit2 := imsi_digit i 2;
               MCCdigit3 := imsi_digit i 3;
               MNCdigit1 := if mnc_length =? 2 then imsi_digit i 4 else imsi_digit i 5;
               MNCdigit2 := if mnc_length =? 2 then imsi_digit i 5 else imsi_digit i 6;
               MNCdigit3 := if mnc_length =? 2 then 15 else imsi_digit i 4 |};
          MMEgid := mme_gid_0 C;
          MMEcode := mmec_0 C |};
     m_tmsi := uint32 ctx |}.

(** The PLMN to MNC-length lookup on the first six digits of an IMSI. *)
Definition imsi_mnc_length (E : environment) (i : imsi_t) : Z :=
  mme_config_find_mnc_length E (imsi_digit i 1) (imsi_digit i 2) (imsi_digit i 3)
    (imsi_digit i 4) (imsi_digit i 5) (imsi_digit i 6).

(** An [OctetString] whose length is the number of its octets. *)
Definition well_formed_octets (o : OctetString) : Prop :=
  ∃ bytes, os_value o = Some bytes ∧ os_length o = Z.of_nat (length bytes).

(** No [malloc] / [calloc] fails. *)
Definition allocation_succeeds (E : environment) : Prop :=
  ∀ site m, allocate E site m ≠ 0.

(** The collaborators leave the objects of the attach procedure alone: the
    two heaps and the index by UE identifier are the same after a call. *)
Definition same_objects (m m' : memory) : Prop :=
  ctx_heap m' = ctx_heap m
  ∧ data_heap m' = data_heap m
  ∧ ctx_coll_ue_id m' = ctx_coll_ue_id m.

Definition quiet (E : environment) : Prop :=
  (∀ p m, same_objects m (esm_sap_send E p m).2)
  ∧ (∀ p m, same_objects m (emm_sap_send E p m).2)
  ∧ (∀ c m, same_objects m (api E c m).2).

(** A weaker assumption, which lets the collaborators run the EMM state
    machine: a call leaves the retransmission buffers and the index by UE
    identifier alone and changes, in a context, at most its status. *)
Definition status_only (m m' : memory) : Prop :=
  data_heap m' = data_heap m
  ∧ ctx_coll_ue_id m' = ctx_coll_ue_id m
  ∧ ∀ p c, ctx_heap m !! p = Some c →
           ∃ st, ctx_heap m' !! p = Some (set_emm_fsm_status st c).

Definition fsm_only (E : environment) : Prop :=
  (∀ p m, status_only m (esm_sap_send E p m).2)
  ∧ (∀ p m, status_only m (emm_sap_send E p m).2)
  ∧ (∀ c m, status_only m (api E c m).2).

(** What the trace shows to have been handed to the access stratum: the
    ATTACH ACCEPT ([EMMAS_ESTABLISH_CNF]) and ATTACH REJECT
    ([EMMAS_ESTABLISH_REJ]) primitives, in order. *)
Definition to_as (e : event) : option emm_sap_t :=
  match e with
  | EmmSap (EMMAS_ESTABLISH_REJ a b c d) => Some (EMMAS_ESTABLISH_REJ a b c d)
  | EmmSap (EMMAS_ESTABLISH_CNF a b c d e f g h i) =>
      Some (EMMAS_ESTABLISH_CNF a b c d e f g h i)
  | _ => None
  end.

Definition sent_to_as (t : list event) : list emm_sap_t := omap to_as t.

Definition attach_accept_carrying (msg : OctetString) (p : emm_sap_t) : Prop :=
  match p with
  | EMMAS_ESTABLISH_CNF _ _ _ _ _ _ _ _ m => m = msg
  | _ => False
  end.

(** The primitive by which [_emm_attach_abort] tells ESM that the network
    locally refused PDN connectivity. *)
Definition pdn_connectivity_rej (ue p : Z) : esm_sap_t :=
  {| primitive := ESM_PDN_CONNECTIVITY_REJ; is_standalone := None;
     esm_ueid := ue; esm_ctx := p; recv := None |}.

(** The admission tests at the head of [emm_proc_attach_request]: the UE
    identifier is in range and the emergency policy lets the type in. *)
Definition admitted (C : config) (r : attach_request) : Prop :=
  (negb (NAS_BUILT_IN_EPC C) && (EMM_DATA_NB_UE_MAX C <=? req_ueid r)) = false
  ∧ ((Z.land (features C) MME_API_EMERGENCY_ATTACH =? 0)
     && bool_decide (req_type r = EMM_ATTACH_TYPE_EMERGENCY)) = false.

(** No attach procedure is under way for the UE: the context found under
    its identifier, if any, is not above [EMM_DEREGISTERED]. *)
Definition no_procedure_under_way (m : memory) (ue : Z) : Prop :=
  ∀ q c, ctx_coll_ue_id m !! ue = Some q → ctx_heap m !! q = Some c →
         fsm_rank (_emm_fsm_status c) ≤ fsm_rank EMM_DEREGISTERED.

(** A run does not stop for lack of recursion budget. *)
Definition never_out_of_fuel {A} (m : M A) : Prop := ∀ s, m s ≠ OutOfFuel.

(** The primitive by which [emm_proc_attach_complete] forwards the
    Activate Default EPS Bearer Context Accept message to ESM. *)
Definition complete_cnf (ue p : Z) (esm : OctetString) : esm_sap_t :=
  {| primitive := ESM_DEFAULT_EPS_BEARER_CONTEXT_ACTIVATE_CNF;
     is_standalone := Some FALSE; esm_ueid := ue; esm_ctx := p; recv := Some esm |}.

(** ** Concrete inputs *)

(** A memory with one context, stored at address [p] and indexed under its
    UE identifier. *)
Definition state_with_context (p : Z) (c : emm_data_context_t) : state :=
  {| mem := {| ctx_heap := {[ p := c ]}; data_heap := ∅;
               ctx_coll_ue_id := {[ ueid c := p ]};
               ctx_coll_guti := match guti c with Some g => [(g, ueid c)] | None => [] end;
               ext := [] |};
     trace := [] |}.

(** The build with [NAS_BUILT_IN_EPC] on and [ORIGINAL_CODE] off, emergency
    attach enabled or not. *)
Definition epc_config (feat : Z) : config := reference_config true false feat.

(** Collaborators that succeed and touch nothing but their own state. *)
Definition plain_env : environment :=
  reference_env false RETURNok (RETURNok, ESM_SAP_SUCCESS, pdn_connectivity_request) 2
    (fun _ => true).

(** A dynamic context for UE 7 as [emm_proc_attach_request] creates it. *)
Definition fresh_context : emm_data_context_t :=
  set_emm_fsm_status EMM_DEREGISTERED (emm_ctx_created (epc_config 0) 7).

(** The context of a UE whose attach failed in ESM and left no ESM PDU. *)
Definition esm_failed_context : emm_data_context_t :=
  set_emm_cause EMM_CAUSE_ESM_FAILURE fresh_context.

(** An emergency Attach Request that carries an IMEI only. *)
Definition imei_0 : imei_t :=
  {| imei_length := 8; imei_digits := [3; 5; 6; 9; 3; 8; 0; 3; 5; 6; 4; 3; 8; 0; 9] |}.

Definition request_emergency_imei (ue : Z) : attach_request :=
  {| req_ueid := ue; req_type := EMM_ATTACH_TYPE_EMERGENCY; is_native_ksi := 0; req_ksi := 7;
     is_native_guti := 0; req_guti := None; req_imsi := None; req_imei := Some imei_0;
     req_tai := None;
     req_eea := 240; req_eia := 240; req_ucs2 := 0; req_uea := 0; req_uia := 0; req_gea := 0;
     req_umts_present := 0; req_gprs_present := 0;
     esm_msg_pP := pdn_connectivity_request |}.

(** Two live contexts whose addresses differ by [2 ^ 32]. *)
Definition two_contexts_4GiB_apart : state :=
  {| mem := {| ctx_heap := {[ 4096 := fresh_context;
                              4096 + 2 ^ 32 := set_ueid 8 fresh_context ]};
               data_heap := ∅;
               ctx_coll_ue_id := {[ 7 := 4096; 8 := 4096 + 2 ^ 32 ]};
               ctx_coll_guti := []; ext := [] |};
     trace := [] |}.

(** The context of UE 7 once attached, and while its attach is under way
    (ATTACH ACCEPT sent, T3450 running, NAS security set up). *)
Definition attached_context : emm_data_context_t :=
  set_is_attached TRUE (set_emm_fsm_status EMM_REGISTERED fresh_context).

Definition attaching_context : emm_data_context_t :=
  set_T3450 {| id := 1; sec := 6 |}
    (set_security (Some security_zero)
       (set_emm_fsm_status EMM_REGISTERED_INITIATED fresh_context)).

Definition activate_default_bearer_accept : OctetString :=
  {| os_length := 2; os_value := Some [194; 0] |}.

(** The build with [ORIGINAL_CODE] on. *)
Definition original_config (feat : Z) : config := reference_config true true feat.

(** UE 7 identified, authenticated and secured, its PDN connectivity
    request stored in the context. *)
Definition secured_context : emm_data_context_t :=
  set_esm_msg pdn_connectivity_request
    (set_security (Some security_zero) fresh_context).

Definition activate_default_bearer_request : OctetString :=
  {| os_length := 4; os_value := Some [193; 0; 5; 1] |}.

(** Collaborators whose ESM answers success with an Activate Default EPS
    Bearer Context Request to put into the ATTACH ACCEPT. *)
Definition accepting_env : environment :=
  reference_env false RETURNok (RETURNok, ESM_SAP_SUCCESS, activate_default_bearer_request) 2
    (fun _ => true).

(** An Attach Request in which the UE identifies itself by a GUTI, and the
    same request with [eea] changed from [0xF0] to [0x70] (scenario 3 of
    §8). *)
Definition guti_G : GUTI_t := synthesized_guti (epc_config 0) 16 imsi_001_01 2.

Definition request_guti (ue : Z) (eea : Z) : attach_request :=
  {| req_ueid := ue; req_type := EMM_ATTACH_TYPE_EPS; is_native_ksi := 0; req_ksi := 7;
     is_native_guti := 1; req_guti := Some guti_G; req_imsi := None; req_imei := None;
     req_tai := None;
     req_eea := eea; req_eia := 240; req_ucs2 := 0; req_uea := 0; req_uia := 0; req_gea := 0;
     req_umts_present := 0; req_gprs_present := 0;
     esm_msg_pP := pdn_connectivity_request |}.

(** The context of UE 7 after [request_guti 7 240] has been taken in: the
    parameters of the request, the identification procedure under way. *)
Definition identifying_context : emm_data_context_t :=
  Build_emm_data_context_t 7 TRUE FALSE 0
    (Some guti_G) None FALSE
    None None None [] 7 240 240 0 0 0 0 0 0 0 0
    EMM_CAUSE_SUCCESS pdn_connectivity_request EMM_COMMON_PROCEDURE_INITIATED
    {| id := NAS_TIMER_INACTIVE_ID; sec := 6 |} {| id := NAS_TIMER_INACTIVE_ID; sec := 6 |}
    {| id := 1; sec := 6 |}.

(** Collaborators whose EMM-SAP fails. *)
Definition failing_emm_env : environment :=
  reference_env false RETURNerror (RETURNok, ESM_SAP_SUCCESS, pdn_connectivity_request) 2
    (fun _ => true).

(** Collaborators whose EMM state machine follows the primitives. *)
Definition fsm_env : environment :=
  reference_env true RETURNok (RETURNok, ESM_SAP_SUCCESS, pdn_connectivity_request) 2
    (fun _ => true).

(** UE 7 waiting for its ATTACH COMPLETE: the context at 16, the
    retransmission buffer at 1, no expiry of T3450 yet. *)
Definition retransmission_state : state :=
  {| mem := {| ctx_heap := {[ 16 := attaching_context ]};
               data_heap := {[ 1 := {| ad_ueid := 7; retransmission_count := 0;
                                       ad_esm_msg := activate_default_bearer_request |} ]};
               ctx_coll_ue_id := {[ 7 := 16 ]};
               ctx_coll_guti := []; ext := [1] |};
     trace := [] |}.

(** Collaborators with an EMM state machine and no memory left: every
    [malloc] and [calloc] fails. *)
Definition no_memory_env : environment :=
  reference_env true RETURNok (RETURNok, ESM_SAP_SUCCESS, pdn_connectivity_request) 2
    (fun _ => false).

(** The calls to [nas_timer_stop] that [_emm_attach_release] makes for a
    context: one for each of T3450, T3460, T3470 that is active, in that
    order. *)
Definition timer_stopped (t : nas_timer_t) : list event :=
  if id t =? NAS_TIMER_INACTIVE_ID then [] else [Api (nas_timer_stop (id t))].

Definition timers_stopped (c : emm_data_context_t) : list event :=
  timer_stopped (T3450 c) ++ timer_stopped (T3460 c) ++ timer_stopped (T3470 c).

(** Collaborators as in [accepting_env], but for the registration of the
    procedure callbacks, which fails. *)
Definition failing_registration_env : environment :=
  {| esm_sap_send := esm_sap_send accepting_env;
     emm_sap_send := emm_sap_send accepting_env;
     api := fun c m =>
       match c with
       | emm_proc_common_initialize _ _ _ _ _ _ => (RETURNerror, m)
       | _ => api accepting_env c m
       end;
     allocate := allocate accepting_env;
     mme_config_find_mnc_length := mme_config_find_mnc_length accepting_env;
     stack_err := stack_err accepting_env;
     stack_rc := stack_rc accepting_env |}.

(** Collaborators whose ESM refuses the PDN connectivity request with a PDN
    Connectivity Reject message. *)
Definition pdn_connectivity_reject : OctetString :=
  {| os_length := 3; os_value := Some [209; 0; 26] |}.

Definition esm_rejecting_env : environment :=
  reference_env true RETURNok (RETURNerror, ESM_SAP_FAILED, pdn_connectivity_reject) 2
    (fun _ => true).

(** The NAS security context as [_emm_attach_security] leaves it before the
    security mode control procedure: no key set, no keys, the null
    algorithms. *)
Definition security_reset : emm_security_context_t :=
  {| sc_type := EMM_KSI_NOT_AVAILABLE;
     kasme := OctetString_empty; knas_enc := OctetString_empty;
     knas_int := OctetString_empty;
     sel_encryption := NAS_SECURITY_ALGORITHMS_EEA0;
     sel_integrity := NAS_SECURITY_ALGORITHMS_EIA0 |}.

(** The call by which [_emm_attach_security] initiates the security mode
    control procedure for a context. *)
Definition security_mode_control_for (c : emm_data_context_t) : api_call :=
  emm_proc_security_mode_control (ueid c) 0
    [eea c; eia c; ucs2 c; uea c; uia c; gea c; umts_present c; gprs_present c]
    CB_emm_attach CB_emm_attach_release CB_emm_attach_release.

(** ** The attachment indicator *)

(** The context at [q], if there is one, is not marked attached. *)
Definition unattached (q : Z) (m : memory) : Prop :=
  ∀ c, ctx_heap m !! q = Some c → is_attached c = FALSE.

(** A run that ends does not raise the attachment indicator at [q]. *)
Definition keeps_unattached {A} (q : Z) (m : M A) : Prop :=
  ∀ s a s', unattached q (mem s) → m s = Done a s' → unattached q (mem s').

(** The collaborators do not raise the attachment indicator: it belongs to
    the attach procedure. *)
Definition leave_unattached (E : environment) : Prop :=
  ∀ q m, unattached q m →
    (∀ p, unattached q (esm_sap_send E p m).2)
    ∧ (∀ p, unattached q (emm_sap_send E p m).2)
    ∧ (∀ c, unattached q (api E c m).2).

(** ** The ATTACH ACCEPT and its timer *)

(** The ATTACH ACCEPT that [_emm_attach_accept] hands to the EMM-SAP for a
    context [c] whose security context is [sc], with the ESM message
    [esm]: the UE is addressed by its identifier and by the old GUTI when
    a new one has been assigned over an old one (implicit GUTI
    reallocation), by the GUTI of the context otherwise; the GUTI of the
    context goes as new GUTI in every case. *)
Definition attach_accept_for (c : emm_data_context_t) (sc : emm_security_context_t)
    (esm : OctetString) : emm_sap_t :=
  EMMAS_ESTABLISH_CNF (ueid c)
    (if nonzero (guti_is_new c) && bool_decide (old_guti c ≠ None)
     then old_guti c else guti c)
    (guti c) (n_tacs c) (tac c) (security c)
    (sel_encryption sc) (sel_integrity sc) esm.

(** The call by which [_emm_attach_accept] arms T3450 for the buffer
    [data]: the timer is restarted under its identifier when it is active,
    and started with [_emm_attach_t3450_handler] and the buffer as its
    argument otherwise. *)
Definition arm_T3450 (c : emm_data_context_t) (data : Z) : api_call :=
  if id (T3450 c) =? NAS_TIMER_INACTIVE_ID
  then nas_timer_start (sec (T3450 c)) CB_emm_attach_t3450_handler data
  else nas_timer_restart (id (T3450 c)).

(** [m1] is the memory [m] once T3450 of the context [c] at [p] has been
    stopped as [_emm_attach_abort] does it: nothing happens when the timer
    is not active; otherwise [nas_timer_stop] is called and the identifier
    it returns is stored in the context. *)
Definition T3450_stopped (E : environment) (p : Z) (c : emm_data_context_t)
    (m m1 : memory) : Prop :=
  if id (T3450 c) =? NAS_TIMER_INACTIVE_ID then m1 = m
  else ∃ tid m' c',
         api E (nas_timer_stop (id (T3450 c))) m = (tid, m')
         ∧ ctx_heap m' !! p = Some c'
         ∧ m1 = upd_ctx_heap (insert p (set_T3450 (set_timer_id tid (T3450 c')) c')) m'.

(** ** T3450 left to itself *)

(** The events by which T3450 is armed for the buffer [data]: a start with
    [_emm_attach_t3450_handler] and the buffer, or a restart. *)
Definition arms_T3450 (data : Z) (e : event) : bool :=
  match e with
  | Api (nas_timer_start _ CB_emm_attach_t3450_handler d) => d =? data
  | Api (nas_timer_restart _) => true
  | _ => false
  end.

(** Modelled from the spec: the timer service of §4.2, as far as T3450 is
    concerned.  A timer that has been started or restarted expires once
    and hands its argument to its handler; it expires again only if it has
    been armed again.  [t3450_left_running n data] is what happens when the
    UE stays silent and nothing but T3450 occurs, for at most [n]
    expiries: the handler runs on the buffer, and runs again exactly when
    its run has armed the timer.  The value is the number of expiries. *)
Fixpoint t3450_left_running (C : config) (E : environment) (n : nat) (data : Z) : M nat :=
  match n with
  | O => ret O
  | S n' => fun s =>
      match _emm_attach_t3450_handler C E data s with
      | Done _ s1 =>
          if existsb (arms_T3450 data) (drop (length (trace s)) (trace s1))
          then (let* k := t3450_left_running C E n' data in ret (S k)) s1
          else Done 1%nat s1
      | Undefined => Undefined
      | OutOfFuel => OutOfFuel
      end
  end.

(** [ck] is the context [c] but for its status and the identifier of
    T3450, which the state machine and the timer service write. *)
Definition same_ue (c ck : emm_data_context_t) : Prop :=
  ∃ st tid, ck = set_emm_fsm_status st (set_T3450 (set_timer_id tid (T3450 c)) c).

(** The retransmission phase of the attach of the UE of [c]: the buffer at
    [data] belongs to the UE, holds the ESM message [esm] of the ATTACH
    ACCEPT and has counted [n] expiries of T3450; the context of the UE is
    at [p], alive and found under its UE identifier. *)
Definition retransmitting (data p : Z) (c : emm_data_context_t) (esm : OctetString)
    (n : Z) (s : state) : Prop :=
  data ≠ 0 ∧ p ≠ 0
  ∧ ∃ d ck,
      data_heap (mem s) !! data = Some d
      ∧ retransmission_count d = n
      ∧ ad_esm_msg d = esm
      ∧ ad_ueid d = ueid c
      ∧ ctx_coll_ue_id (mem s) !! ueid c = Some p
      ∧ ctx_heap (mem s) !! p = Some ck
      ∧ same_ue c ck.

(** What one retransmission leaves in the trace: the observer is told the
    GUTI, the ATTACH ACCEPT goes to the access stratum, T3450 is armed by
    the call [timer]. *)
Definition retransmission (c : emm_data_context_t) (sc : emm_security_context_t)
    (esm : OctetString) (timer : api_call) : list event :=
  [Api (mme_api_notify_new_guti (ueid c) (guti c));
   EmmSap (attach_accept_for c sc esm);
   Api timer].

(** An event that hands nothing to the access stratum and does not arm
    T3450 for the buffer [data]. *)
Definition silent_for (data : Z) (e : event) : Prop :=
  to_as e = None ∧ arms_T3450 data e = false.

(** ** Symbolic execution of runs *)

Lemma nonzero_true z : nonzero z = true ↔ z ≠ 0.
Proof. unfold nonzero. destruct (Z.eqb_spec z 0); simpl; split; intros; congruence. Qed.

Lemma nonzero_false z : nonzero z = false ↔ z = 0.
Proof. unfold nonzero. destruct (Z.eqb_spec z 0); simpl; split; intros; congruence. Qed.

Lemma Z_eqb_false a b : a ≠ b → (a =? b) = false.
Proof. apply Z.eqb_neq. Qed.

Lemma not_true_iff (b : bool) (P : Prop) : (b = true ↔ P) → b = false → ¬ P.
Proof. intros H Hb HP. apply H in HP. congruence. Qed.

Ltac expose_state s :=
  let m := fresh "m" in let t := fresh "t" in
  destruct s as [m t]; destruct m as [ch dh ue_idx guti_idx ex].

Tactic Notation "mred" :=
  cbn [mem trace ctx_heap data_heap ctx_coll_ue_id ctx_coll_guti ext
       upd_ctx_heap upd_data_heap upd_coll_ue_id upd_coll_guti
       negb andb orb fst snd default from_option Datatypes.id
       ueid is_dynamic is_attached is_emergency guti old_guti guti_is_new
       imsi imei security vector ksi eea eia ucs2 uea uia gea umts_present
       gprs_present tac n_tacs emm_cause esm_msg _emm_fsm_status T3450 T3460 T3470
       set_ueid set_is_dynamic set_is_attached set_guti set_old_guti
       set_guti_is_new set_imsi set_imei set_security set_tac set_emm_cause
       set_esm_msg set_emm_fsm_status set_T3450 set_T3460 set_T3470
       set_timer_id id sec ad_ueid retransmission_count ad_esm_msg
       os_length os_value].
Tactic Notation "mred" "in" "*" :=
  cbn [mem trace ctx_heap data_heap ctx_coll_ue_id ctx_coll_guti ext
       upd_ctx_heap upd_data_heap upd_coll_ue_id upd_coll_guti
       negb andb orb fst snd default from_option Datatypes.id
       ueid is_dynamic is_attached is_emergency guti old_guti guti_is_new
       imsi imei security vector ksi eea eia ucs2 uea uia gea umts_present
       gprs_present tac n_tacs emm_cause esm_msg _emm_fsm_status T3450 T3460 T3470
       set_ueid set_is_dynamic set_is_attached set_guti set_old_guti
       set_guti_is_new set_imsi set_imei set_security set_tac set_emm_cause
       set_esm_msg set_emm_fsm_status set_T3450 set_T3460 set_T3470
       set_timer_id id sec ad_ueid retransmission_count ad_esm_msg
       os_length os_value] in *.

Tactic Notation "mred" "in" hyp(H) :=
  cbn [mem trace ctx_heap data_heap ctx_coll_ue_id ctx_coll_guti ext
       upd_ctx_heap upd_data_heap upd_coll_ue_id upd_coll_guti
       negb andb orb fst snd default from_option Datatypes.id
       ueid is_dynamic is_attached is_emergency guti old_guti guti_is_new
       imsi imei security vector ksi eea eia ucs2 uea uia gea umts_present
       gprs_present tac n_tacs emm_cause esm_msg _emm_fsm_status T3450 T3460 T3470
       set_ueid set_is_dynamic set_is_attached set_guti set_old_guti
       set_guti_is_new set_imsi set_imei set_security set_tac set_emm_cause
       set_esm_msg set_emm_fsm_status set_T3450 set_T3460 set_T3470
       set_timer_id id sec ad_ueid retransmission_count ad_esm_msg
       os_length os_value] in H.

(* Unfold the operations of the monad and the accesses to the store. *)
Ltac munfold :=
  unfold stop_timer_if_active, emm_fsm_get_status, emm_fsm_set_status,
    emm_data_context_add, emm_data_context_remove, emm_data_context_get_by_guti,
    emm_data_context_get, obj_hashtable_insert, obj_hashtable_remove,
    call_api, call_emm_sap_send, call_esm_sap_send, malloc, when,
    update_ctx, update_data, free_data;
  unfold load_ctx, load_data, modify_mem, get_mem, emit, run_ext, undefined,
    bind, ret;
  mred.

(* One step of a run: a look-up settled by a hypothesis, or a case analysis
   on the condition the run waits for. *)
Ltac mstep :=
  first
    [ rewrite lookup_insert_eq
    | match goal with
      | H : ?h !! ?p = _ |- context [?h !! ?p] => rewrite H
      end
    | match goal with
      | |- context [if ?b then _ else _] => destruct b eqn:?
      end
    | match goal with
      | |- context [match ?o with Some _ => _ | None => _ end] => destruct o eqn:?
      end ];
  mred.

(* Settle the look-ups and tests that the hypotheses decide. *)
Ltac msimp :=
  repeat first
    [ rewrite lookup_insert_eq
    | match goal with
      | H : ?h !! ?p = _ |- context [?h !! ?p] => rewrite H
      | H : nonzero ?p = _ |- context [nonzero ?p] => rewrite H
      | H : (?a =? ?b) = _ |- context [?a =? ?b] => rewrite H
      | H : bool_decide ?P = _ |- context [bool_decide ?P] => rewrite H
      end
    | progress mred ].

Ltac to_prop H :=
  repeat first
    [ rewrite andb_true_iff in H | rewrite orb_true_iff in H
    | rewrite andb_false_iff in H | rewrite orb_false_iff in H
    | rewrite negb_true_iff in H | rewrite negb_false_iff in H
    | rewrite Z.eqb_neq in H | rewrite Z.eqb_eq in H
    | rewrite nonzero_true in H | rewrite nonzero_false in H
    | rewrite bool_decide_eq_true in H | rewrite bool_decide_eq_false in H ].

(** ** The parameter-change detector *)

Lemma guti_changed_spec (new stored : option GUTI_t) :
  match new, stored with
  | Some _, None => true
  | None, Some _ => true
  | Some g, Some g' =>
      negb (m_tmsi g =? m_tmsi g')
      || (negb (MMEcode (gummei g) =? MMEcode (gummei g'))
          || negb (MMEgid (gummei g) =? MMEgid (gummei g'))
          || negb (MCCdigit1 (plmn (gummei g)) =? MCCdigit1 (plmn (gummei g')))
          || negb (MCCdigit2 (plmn (gummei g)) =? MCCdigit2 (plmn (gummei g')))
          || negb (MCCdigit3 (plmn (gummei g)) =? MCCdigit3 (plmn (gummei g')))
          || negb (MNCdigit1 (plmn (gummei g)) =? MNCdigit1 (plmn (gummei g')))
          || negb (MNCdigit2 (plmn (gummei g)) =? MNCdigit2 (plmn (gummei g')))
          || negb (MNCdigit3 (plmn (gummei g)) =? MNCdigit3 (plmn (gummei g'))))
  | None, None => false
  end = true ↔ identity_differs guti_equal new stored.
Proof.
  destruct new as [g|], stored as [g'|]; simpl; try tauto; try (split; [discriminate | tauto]).
  unfold guti_equal. split.
  - intros H. to_prop H. tauto.
  - intros H.
    repeat match goal with
           | |- context [?a =? ?b] => destruct (Z.eqb_spec a b); simpl; try reflexivity
           end.
    exfalso. tauto.
Qed.

Lemma identity_changed_spec {A} `{EqDecision A} (new stored : option A) :
  match new, stored with
  | Some _, None => true
  | None, Some _ => true
  | Some i, Some i' => negb (bool_decide (i = i'))
  | None, None => false
  end = true ↔ identity_differs eq new stored.
Proof.
  destruct new, stored; simpl; try tauto; try (split; [discriminate | tauto]).
  rewrite negb_true_iff, bool_decide_eq_false. tauto.
Qed.

Ltac changed_step :=
  match goal with
  | |- (if ?b then true else _) = true ↔ _ =>
      let Hb := fresh "Hb" in
      destruct b eqn:Hb;
      [ split; [ intros _ | reflexivity ] | ];
      to_prop Hb
  end.

(** C5. For every stored context and every new Attach Request, the
    parameter-change detector [_emm_attach_have_changed] answers CHANGED
    iff one of these differs: the emergency indicator derived from the
    attach type, [ksi], [eea], [eia], [umts_present], [gprs_present];
    [ucs2], [uea] or [uia] when [umts_present] is set on both sides; [gea]
    when [gprs_present] is set on both sides; the GUTI ([m_tmsi] and every
    digit of the GUMMEI), the IMSI or the IMEI, presence on one side only
    counting as a difference. *)
Theorem have_changed_iff_parameters_differ :
  ∀ ctx r, _emm_attach_have_changed ctx r = true ↔ attach_parameters_differ ctx r.
Proof.
  intros ctx r. unfold _emm_attach_have_changed, attach_parameters_differ.
  do 8 (changed_step; [ tauto | ]).
  changed_step;
    [ apply guti_changed_spec in Hb7; tauto
    | apply (not_true_iff _ _ (guti_changed_spec _ _)) in Hb7 ].
  changed_step;
    [ apply identity_changed_spec in Hb8; tauto
    | apply (not_true_iff _ _ (identity_changed_spec _ _)) in Hb8 ].
  rewrite identity_changed_spec. tauto.
Qed.

(** ** The reject of an attach: [_emm_attach_reject] *)

(** C7, where the code leaves the claim.  A context whose cause is
    [EMM_CAUSE_ESM_FAILURE] and whose ESM message is empty makes
    [_emm_attach_reject] return [RETURNerror] at once: nothing is emitted
    and the context, dynamic or not, is not released; the state is the one
    before the call. *)
Theorem reject_esm_failure_without_pdu (C : config) (E : environment) s p c :
  p ≠ 0 →
  ctx_heap (mem s) !! p = Some c →
  emm_cause c = EMM_CAUSE_ESM_FAILURE →
  os_length (esm_msg c) ≤ 0 →
  _emm_attach_reject C E p s = Done RETURNerror s.
Proof.
  intros Hp Hc Hcause Hlen. unfold _emm_attach_reject.
  rewrite (Z_eqb_false _ _ Hp). expose_state s. mred in *. munfold.
  rewrite Hc, Hcause. change (EMM_CAUSE_ESM_FAILURE =? EMM_CAUSE_SUCCESS) with false.
  mred. rewrite Hc, Hcause.
  change (EMM_CAUSE_ESM_FAILURE =? EMM_CAUSE_ESM_FAILURE) with true.
  mred.
  destruct (Z.ltb_spec 0 (os_length (esm_msg c))); [lia | reflexivity].
Qed.

Lemma reject_esm_failure_without_pdu_witness :
  is_dynamic esm_failed_context = TRUE
  ∧ _emm_attach_reject (epc_config 0) plain_env 16 (state_with_context 16 esm_failed_context)
    = Done RETURNerror (state_with_context 16 esm_failed_context).
Proof.
  split; [reflexivity|].
  apply (reject_esm_failure_without_pdu (epc_config 0) plain_env
           (state_with_context 16 esm_failed_context) 16 esm_failed_context).
  - discriminate.
  - vm_compute. reflexivity.
  - reflexivity.
  - vm_compute. discriminate.
Defined.

(** ** The update of the context: [_emm_attach_update] *)

Section Update.
Variables (C : config) (E : environment).

Lemma update_identities_and_esm_spec ctx r s c :
  ctx_heap (mem s) !! ctx = Some c →
  ∃ rc s' c',
    update_identities_and_esm E ctx r s = Done rc s'
    ∧ (rc = RETURNok ∨ rc = RETURNerror)
    ∧ ctx_heap (mem s') !! ctx = Some c'
    ∧ guti c' = guti c ∧ tac c' = tac c ∧ guti_is_new c' = guti_is_new c
    ∧ ueid c' = ueid c
    ∧ trace s' = trace s
    ∧ (rc = RETURNok → is_attached c' = FALSE)
    ∧ (allocation_succeeds E → rc = RETURNok).
Proof.
  intros Hc. expose_state s. mred in *.
  unfold update_identities_and_esm. munfold.
  repeat mstep;
    (do 3 eexists; split; [reflexivity|]; mred; rewrite ?lookup_insert_eq;
     split; [auto|]; split; [try reflexivity; eassumption|];
     cbn; repeat split; auto; try discriminate;
     intros Halloc;
     repeat match goal with
            | H : nonzero (allocate E ?site ?m) = false |- _ =>
                apply nonzero_false in H; destruct (Halloc site m H)
            end).
Qed.

Lemma synthesized_guti_eq ctx i len g0 :
  guti_with_plmn i len (guti_from_config C ctx g0) = synthesized_guti C ctx i len.
Proof.
  unfold guti_with_plmn, guti_from_config, synthesized_guti. cbn.
  destruct (len =? 2); reflexivity.
Qed.

Ltac use_tail :=
  match goal with
  | |- context [update_identities_and_esm _ ?p ?r0 ?s1] =>
      let H := fresh in
      eassert (H : ctx_heap (mem s1) !! p = Some _) by (mred; apply lookup_insert_eq);
      destruct (update_identities_and_esm_spec p r0 s1 _ H)
        as (rc & s' & c' & Hrun & Hrc & Hc' & Hguti & Htac & Hnew & Hue & Htr & Hatt & Hsucc);
      clear H; rewrite Hrun; mred in *
  end.

Ltac no_alloc_failure :=
  match goal with
  | Halloc : allocation_succeeds ?E, H : nonzero (allocate ?E ?site ?m) = false |- _ =>
      apply nonzero_false in H; destruct (Halloc site m H)
  end.

(** What a run of [_emm_attach_update] on a live context does: it ends,
    with [RETURNok] or [RETURNerror], emits nothing, and the context is
    still there. *)
Lemma emm_attach_update_spec ctx ue r s c :
  ctx_heap (mem s) !! ctx = Some c →
  ∃ rc s' c',
    _emm_attach_update C E ctx ue r s = Done rc s'
    ∧ (rc = RETURNok ∨ rc = RETURNerror)
    ∧ ctx_heap (mem s') !! ctx = Some c'
    ∧ trace s' = trace s
    ∧ (rc = RETURNok → is_attached c' = FALSE ∧ guti c' ≠ None ∧ ueid c' = ue)
    ∧ (req_guti r = None → req_imsi r = None → rc = RETURNerror)
    ∧ (req_guti r ≠ None → allocation_succeeds E → rc = RETURNok)
    ∧ (req_guti r = None → ∀ i, req_imsi r = Some i →
         (imsi_mnc_length E i ≠ 2 → imsi_mnc_length E i ≠ 3 → rc = RETURNerror)
         ∧ (rc = RETURNok →
              (imsi_mnc_length E i = 2 ∨ imsi_mnc_length E i = 3)
              ∧ guti c' = Some (synthesized_guti C ctx i (imsi_mnc_length E i))
              ∧ tac c' = plmn_tac_0 C
              ∧ guti_is_new c' = TRUE)
         ∧ (allocation_succeeds E →
              imsi_mnc_length E i = 2 ∨ imsi_mnc_length E i = 3 → rc = RETURNok)).
Proof.
  intros Hc. expose_state s. mred in *.
  unfold _emm_attach_update, imsi_mnc_length. munfold. rewrite Hc. mred.
  rewrite lookup_insert_eq. mred.
  destruct (req_guti r) as [g|] eqn:Hg.
  - repeat mstep; try use_tail;
      (do 3 eexists; split; [reflexivity|];
       split; [auto|]; split; [mred; rewrite ?lookup_insert_eq; try eassumption; reflexivity|];
       split; [assumption || reflexivity|];
       repeat match goal with H : bool_decide _ = _ |- _ => to_prop H end;
       repeat split; intros; try discriminate; try congruence; auto;
       try no_alloc_failure; try (exfalso; tauto);
       try (exfalso; match goal with H : ¬ (Some _ ≠ None) |- _ => apply H; discriminate end)).
  - repeat mstep; try use_tail;
      (do 3 eexists; split; [reflexivity|];
       split; [auto|]; split; [mred; rewrite ?lookup_insert_eq; try eassumption; reflexivity|];
       split; [assumption || reflexivity|];
       repeat match goal with H : bool_decide _ = _ |- _ => to_prop H end;
       repeat match goal with H : (_ || _) = _ |- _ => to_prop H end;
       repeat split; intros; try discriminate; try congruence; auto;
       try no_alloc_failure;
       repeat match goal with H : Some _ = Some _ |- _ => injection H as H; subst end;
       try tauto;
       try (rewrite Hguti, synthesized_guti_eq; reflexivity);
       try (exfalso; match goal with H : ¬ (Some _ ≠ None) |- _ => apply H; discriminate end)).
Qed.

End Update.

Lemma uint32_small z : 0 ≤ z < 2 ^ 32 → uint32 z = z.
Proof. intros H. unfold uint32. apply Z.mod_small. exact H. Qed.

(** C8, as the code has it.  When the UE gave no GUTI and an IMSI is
    present, [_emm_attach_update] on a live context ends; it returns
    [RETURNerror] when the MNC length found for the IMSI is neither 2 nor
    3; when it returns [RETURNok] the context holds the synthesized GUTI
    (MME code and group from the configuration, PLMN digits from the IMSI,
    [m_tmsi] the address of the context cut to 32 bits), its [tac] is
    [plmn_tac[0]] and [guti_is_new] is set; it does return [RETURNok] when
    no allocation fails and the length is 2 or 3.  The [m_tmsi] of two
    contexts differ as soon as their addresses fit in 32 bits and differ. *)
Theorem update_synthesizes_guti (C : config) (E : environment) ctx ue r s c i :
  ctx_heap (mem s) !! ctx = Some c →
  req_guti r = None →
  req_imsi r = Some i →
  (∃ rc s' c',
     _emm_attach_update C E ctx ue r s = Done rc s'
     ∧ ctx_heap (mem s') !! ctx = Some c'
     ∧ (imsi_mnc_length E i ≠ 2 → imsi_mnc_length E i ≠ 3 → rc = RETURNerror)
     ∧ (rc = RETURNok →
          guti c' = Some (synthesized_guti C ctx i (imsi_mnc_length E i))
          ∧ tac c' = plmn_tac_0 C
          ∧ guti_is_new c' = TRUE)
     ∧ (allocation_succeeds E →
          imsi_mnc_length E i = 2 ∨ imsi_mnc_length E i = 3 → rc = RETURNok))
  ∧ (∀ ctx' i' l l',
       0 ≤ ctx < 2 ^ 32 → 0 ≤ ctx' < 2 ^ 32 → ctx ≠ ctx' →
       m_tmsi (synthesized_guti C ctx i l) ≠ m_tmsi (synthesized_guti C ctx' i' l')).
Proof.
  intros Hc Hg Hi. split.
  - destruct (emm_attach_update_spec C E ctx ue r s c Hc)
      as (rc & s' & c' & Hrun & _ & Hc' & _ & _ & _ & _ & Hsyn).
    destruct (Hsyn Hg i Hi) as (Herr & Hok & Hsucc).
    exists rc, s', c'. repeat split; auto; apply Hok; assumption.
  - intros ctx' i' l l' H1 H2 Hne. cbn. rewrite !uint32_small by assumption. exact Hne.
Qed.

Lemma update_synthesizes_guti_witness :
  ∃ rc s' c',
    _emm_attach_update (epc_config 0) plain_env 16 7 (request_imsi 7)
      (state_with_context 16 fresh_context) = Done rc s'
    ∧ ctx_heap (mem s') !! 16 = Some c'
    ∧ (rc = RETURNok →
         guti c' = Some (synthesized_guti (epc_config 0) 16 imsi_001_01 2)
         ∧ tac c' = 1 ∧ guti_is_new c' = TRUE)
    ∧ (allocation_succeeds plain_env → rc = RETURNok).
Proof.
  destruct (update_synthesizes_guti (epc_config 0) plain_env 16 7 (request_imsi 7)
              (state_with_context 16 fresh_context) fresh_context imsi_001_01)
    as [(rc & s' & c' & Hrun & Hc' & _ & Hok & Hsucc) _].
  - vm_compute. reflexivity.
  - reflexivity.
  - reflexivity.
  - exists rc, s', c'. repeat split; try assumption; try (apply Hok; assumption).
    intros Ha. apply Hsucc; [assumption | left; reflexivity].
Defined.

(** C8 as stated fails: the [m_tmsi] is not unique in the process.  Two
    live contexts whose addresses differ by [2 ^ 32] are given the same
    [m_tmsi], indeed the same GUTI. *)
Lemma synthesized_m_tmsi_not_unique :
  ∃ s1 s2 c1 c2 g,
    _emm_attach_update (epc_config 0) plain_env 4096 7 (request_imsi 7)
      two_contexts_4GiB_apart = Done RETURNok s1
    ∧ _emm_attach_update (epc_config 0) plain_env (4096 + 2 ^ 32) 8 (request_imsi 8) s1
      = Done RETURNok s2
    ∧ ctx_heap (mem s2) !! 4096 = Some c1
    ∧ ctx_heap (mem s2) !! (4096 + 2 ^ 32) = Some c2
    ∧ ueid c1 = 7 ∧ ueid c2 = 8
    ∧ guti c1 = Some g ∧ guti c2 = Some g.
Proof.
  do 5 eexists. repeat split; vm_compute; reflexivity.
Qed.

(** ** Requests with neither GUTI nor IMSI *)

(** C9, where the code leaves the claim.  For an Attach Request that
    carries neither a GUTI nor an IMSI (an emergency attach with an IMEI
    only, say), the context update fails, so that what follows the
    resolution of the context is not the identification but the reject of
    the attach with cause [EMM_CAUSE_ILLEGAL_UE]: [_emm_attach_identify],
    and with it [mme_api_identify_imei], is never reached. *)
Theorem request_without_guti_and_imsi_is_rejected (C : config) (E : environment) p r s c :
  ctx_heap (mem s) !! p = Some c →
  req_guti r = None →
  req_imsi r = None →
  ∃ s1 c1,
    attach_update_and_identify C E p r s = _emm_attach_reject C E p s1
    ∧ ctx_heap (mem s1) !! p = Some c1
    ∧ emm_cause c1 = EMM_CAUSE_ILLEGAL_UE
    ∧ trace s1 = trace s.
Proof.
  intros Hc Hg Hi. unfold attach_update_and_identify.
  assert (∃ s0 c0, (match req_tai r with
                    | Some t => update_ctx p (set_tac t)
                    | None => ret tt
                    end) s = Done tt s0
                   ∧ ctx_heap (mem s0) !! p = Some c0 ∧ trace s0 = trace s)
    as (s0 & c0 & Hrun0 & Hc0 & Htr0).
  { destruct (req_tai r); munfold.
    - rewrite Hc. eexists _, _. split; [reflexivity|]. mred.
      rewrite lookup_insert_eq. auto.
    - eexists _, _. eauto. }
  unfold bind at 1. rewrite Hrun0.
  destruct (emm_attach_update_spec C E p (req_ueid r) r s0 c0 Hc0)
    as (rc & s' & c' & Hrun & _ & Hc' & Htr & _ & Herr & _).
  unfold bind at 1. rewrite Hrun. rewrite (Herr Hg Hi).
  change (negb (RETURNerror =? RETURNok)) with true. cbv iota.
  munfold. rewrite Hc'.
  eexists _, _. split; [reflexivity|]. mred. rewrite lookup_insert_eq.
  repeat split. congruence.
Qed.

(** ** ATTACH COMPLETE: [emm_proc_attach_complete] *)

(** C3, where the code leaves the claim.  When no context is found for the
    UE identifier, [emm_proc_attach_complete] goes on to test
    [esm_sap.err], which nothing has written; unless the value found there
    is [ESM_SAP_DISCARDED] it emits [EMMREG_ATTACH_REJ] with a NULL
    context.  ([data] is the retransmission buffer registered for the UE,
    freed first when there is one.) *)
Theorem attach_complete_without_context (C : config) (E : environment) ue esm s data m1 :
  api E (emm_proc_common_get_args ue) (mem s) = (data, m1) →
  data = 0 ∨ is_Some (data_heap m1 !! data) →
  ((if NAS_BUILT_IN_EPC C then 0 <? ue else ue <? EMM_DATA_NB_UE_MAX C) = true →
   default 0 (ctx_coll_ue_id m1 !! ue) = 0) →
  stack_err E ≠ ESM_SAP_DISCARDED →
  emm_proc_attach_complete C E ue esm s =
    let m1' := if nonzero data then upd_data_heap (delete data) m1 else m1 in
    let '(rc, m2) := emm_sap_send E (EMMREG_ATTACH_REJ ue 0) m1' in
    Done rc {| mem := m2;
               trace := trace s ++ [Api (emm_proc_common_get_args ue);
                                    EmmSap (EMMREG_ATTACH_REJ ue 0)] |}.
Proof.
  intros Hargs Hdata Hctx Herr. unfold emm_proc_attach_complete.
  expose_state s. mred in *. munfold. rewrite Hargs.
  assert (Hlook : (if (if NAS_BUILT_IN_EPC C then 0 <? ue else ue <? EMM_DATA_NB_UE_MAX C)
                   then default 0 (ctx_coll_ue_id m1 !! ue) else 0) = 0).
  { destruct (if NAS_BUILT_IN_EPC C then 0 <? ue else ue <? EMM_DATA_NB_UE_MAX C);
      [apply Hctx; reflexivity | reflexivity]. }
  destruct Hdata as [-> | [d Hd]];
    [ change (nonzero 0) with false
    | destruct (nonzero data) eqn:Hnz; mred; [rewrite Hd|] ];
    mred;
    (destruct (if NAS_BUILT_IN_EPC C then 0 <? ue else ue <? EMM_DATA_NB_UE_MAX C);
     mred; destruct m1; mred in *; rewrite ?Hlook;
     change (nonzero 0) with false; mred;
     change (RETURNerror =? RETURNerror) with true; mred;
     rewrite bool_decide_eq_false_2 by exact Herr; mred;
     match goal with
     | |- context [emm_sap_send E ?prim ?m] => destruct (emm_sap_send E prim m)
     end;
     rewrite <- app_assoc; reflexivity).
Qed.

(** ** Quiet collaborators *)

(* A call to a quiet collaborator: name its result, keep the objects. *)
Ltac env_call Hq :=
  match goal with
  | |- context [api ?E ?c ?m] =>
      let H := fresh "Hsame" in
      pose proof (proj2 (proj2 Hq) c m) as H;
      destruct (api E c m) as [? [? ? ? ? ?]];
      unfold same_objects in H; mred in H; destruct H as (-> & -> & ->)
  | |- context [emm_sap_send ?E ?c ?m] =>
      let H := fresh "Hsame" in
      pose proof (proj1 (proj2 Hq) c m) as H;
      destruct (emm_sap_send E c m) as [? [? ? ? ? ?]];
      unfold same_objects in H; mred in H; destruct H as (-> & -> & ->)
  | |- context [esm_sap_send ?E ?c ?m] =>
      let H := fresh "Hsame" in
      pose proof (proj1 Hq c m) as H;
      destruct (esm_sap_send E c m) as [[[? ?] ?] [? ? ? ? ?]] eqn:?;
      unfold same_objects in H; mred in H; destruct H as (-> & -> & ->)
  end;
  mred.

Lemma set_same_status c : set_emm_fsm_status (_emm_fsm_status c) c = c.
Proof. destruct c; reflexivity. Qed.

Lemma quiet_fsm_only E : quiet E → fsm_only E.
Proof.
  intros (Hesm & Hemm & Hapi).
  assert (Hsame : ∀ m m', same_objects m m' → status_only m m').
  { intros m m' (Hch & Hdh & Hidx). split; [exact Hdh|]. split; [exact Hidx|].
    intros p c Hc. exists (_emm_fsm_status c). rewrite Hch, set_same_status. exact Hc. }
  split; [|split]; intros; apply Hsame; auto.
Qed.

(* A call to a collaborator that may change the status of contexts: name
   its result, keep the buffers and the index, and follow the context at
   [p] into the new heap. *)
Ltac fsm_call Hw p :=
  let Hs := fresh "Hs" in
  let Hctx := fresh "Hctx" in
  match goal with
  | |- context [api ?E ?c ?m] =>
      pose proof (proj2 (proj2 Hw) c m) as Hs;
      destruct (api E c m) as [? [? ? ? ? ?]]
  | |- context [emm_sap_send ?E ?c ?m] =>
      pose proof (proj1 (proj2 Hw) c m) as Hs;
      destruct (emm_sap_send E c m) as [? [? ? ? ? ?]]
  | |- context [esm_sap_send ?E ?c ?m] =>
      pose proof (proj1 Hw c m) as Hs;
      destruct (esm_sap_send E c m) as [[[? ?] ?] [? ? ? ? ?]] eqn:?
  end;
  unfold status_only in Hs; mred in Hs; destruct Hs as (-> & -> & Hctx);
  let st := fresh "st" in
  let Hc := fresh "Hc" in
  first
    [ edestruct (Hctx p) as [st Hc];
      [ first [apply lookup_insert_eq | eassumption] | clear Hctx; mred in Hc ]
    | clear Hctx ];
  mred.

Lemma plain_env_quiet : quiet plain_env.
Proof.
  repeat split; try reflexivity;
    destruct c; reflexivity.
Qed.


Lemma request_without_guti_and_imsi_is_rejected_witness :
  ∃ s1 c1,
    attach_update_and_identify (epc_config 1) plain_env 16 (request_emergency_imei 7)
      (state_with_context 16 fresh_context)
    = _emm_attach_reject (epc_config 1) plain_env 16 s1
    ∧ ctx_heap (mem s1) !! 16 = Some c1
    ∧ emm_cause c1 = EMM_CAUSE_ILLEGAL_UE
    ∧ trace s1 = [].
Proof.
  apply (request_without_guti_and_imsi_is_rejected (epc_config 1) plain_env 16
           (request_emergency_imei 7) (state_with_context 16 fresh_context) fresh_context).
  - vm_compute. reflexivity.
  - reflexivity.
  - reflexivity.
Defined.

(** The whole of [emm_proc_attach_request] on such a request, emergency
    attach enabled and no context yet: a context is created, the UE gets
    an ATTACH REJECT with [EMM_CAUSE_ILLEGAL_UE], the context is released;
    [mme_api_identify_imei] is not called. *)
Example emergency_imei_attach_run :
  ∃ s',
    emm_proc_attach_request (epc_config MME_API_EMERGENCY_ATTACH) plain_env 1
      (request_emergency_imei 7) empty_state = Done RETURNok s'
    ∧ trace s' = [EmmSap (EMMAS_ESTABLISH_REJ 7 EMM_CAUSE_ILLEGAL_UE OctetString_empty None);
                  EmmSap (EMMREG_PROC_ABORT 7 1)]
    ∧ ctx_coll_ue_id (mem s') !! 7 = None.
Proof.
  eexists. repeat split; vm_compute; reflexivity.
Qed.

Lemma attach_complete_without_context_witness :
  emm_proc_attach_complete (epc_config 0) plain_env 7 activate_default_bearer_accept empty_state
  = Done RETURNok
      {| mem := empty_memory;
         trace := [Api (emm_proc_common_get_args 7); EmmSap (EMMREG_ATTACH_REJ 7 0)] |}.
Proof.
  apply (attach_complete_without_context (epc_config 0) plain_env 7
           activate_default_bearer_accept empty_state 0 empty_memory).
  - reflexivity.
  - left. reflexivity.
  - intros _. reflexivity.
  - discriminate.
Defined.

(** ** The ATTACH ACCEPT: [_emm_attach] *)

Lemma esm_container_well_formed v send :
  v ≠ 0 → well_formed_octets send → esm_container v send = send.
Proof.
  intros Hv (bytes & Hval & Hlen). unfold esm_container, octets_copy.
  apply nonzero_true in Hv. rewrite Hv, Hval, Hlen. cbn [default from_option Datatypes.id].
  rewrite Nat2Z.id, firstn_all. destruct send; cbn in *; subst. reflexivity.
Qed.

(** C1, as the code has it.  The context is identified, authenticated and
    secured; ESM answers [ESM_SAP_SUCCESS] to [ESM_PDN_CONNECTIVITY_REQ];
    the retransmission buffer is obtained at [data]; its registration with
    [_emm_attach_abort] as abort callback succeeds.  Then the buffer has
    the UE identifier and retransmission counter 0, and
    - without [ORIGINAL_CODE], [_emm_attach] returns [RETURNok] at once:
      the buffer keeps the container it had and no ATTACH ACCEPT is sent;
    - with [ORIGINAL_CODE], the buffer receives the copy of [esm_sap.send]
      (the very container when it is well formed and [malloc] succeeds)
      and [_emm_attach_accept] is called with the context and the
      buffer. *)
Theorem emm_attach_on_esm_success (C : config) (E : environment)
    p s c rc send m1 data c1 m2 c2 d2 :
  ctx_heap (mem s) !! p = Some c →
  esm_sap_send E (pdn_connectivity_req c p) (mem s) = ((rc, ESM_SAP_SUCCESS, send), m1) →
  rc ≠ RETURNerror →
  allocate E alloc_attach_data m1 = data →
  data ≠ 0 →
  ctx_heap m1 !! p = Some c1 →
  api E (emm_proc_common_initialize (ueid c1) CB_NULL CB_NULL CB_NULL CB_emm_attach_abort data)
    (upd_data_heap (insert data attach_data_zero) m1) = (RETURNok, m2) →
  ctx_heap m2 !! p = Some c2 →
  data_heap m2 !! data = Some d2 →
  let registered :=
    trace s ++ [EsmSap (pdn_connectivity_req c p);
                Api (emm_proc_common_initialize (ueid c1) CB_NULL CB_NULL CB_NULL
                       CB_emm_attach_abort data)] in
  let buffer esm := {| ad_ueid := ueid c2; retransmission_count := 0; ad_esm_msg := esm |} in
  let m3 := upd_data_heap (insert data (buffer (ad_esm_msg d2))) m2 in
  let v := allocate E (alloc_octets (os_length send)) m3 in
  (ORIGINAL_CODE C = false →
     _emm_attach C E p s = Done RETURNok {| mem := m3; trace := registered |})
  ∧ (ORIGINAL_CODE C = true →
     _emm_attach C E p s =
       (let* rc := _emm_attach_accept E p data in
        emm_attach_after_accept C E p data rc)
         {| mem := upd_data_heap (insert data (buffer (esm_container v send))) m3;
            trace := registered |})
  ∧ (v ≠ 0 → well_formed_octets send → esm_container v send = send).
Proof.
  intros Hc Hesm Hrc Hdata Hnz Hc1 Hinit Hc2 Hd2 registered buffer m3 v.
  apply nonzero_true in Hnz. apply Z.eqb_neq in Hrc.
  split; [|split].
  - intros Horig. unfold _emm_attach, emm_attach_finish. expose_state s. mred in *.
    munfold. rewrite Hc. mred. rewrite Hesm. mred. rewrite Hrc. mred.
    rewrite bool_decide_eq_true_2 by reflexivity. mred.
    destruct m1 as [ch1 dh1 idx1 gidx1 ex1]. mred in *.
    rewrite Hdata, Hnz. mred. rewrite Hc1. mred. rewrite Hinit.
    change (RETURNok =? RETURNok) with true. mred.
    destruct m2 as [ch2 dh2 idx2 gidx2 ex2]. mred in *.
    rewrite Hc2. mred. rewrite Hd2. mred. rewrite Horig.
    subst registered m3 buffer. mred. rewrite <- app_assoc. reflexivity.
  - intros Horig. unfold _emm_attach. expose_state s. mred in *.
    unfold bind at 1. unfold load_ctx at 1. mred. rewrite Hc.
    unfold bind at 1. unfold call_esm_sap_send, emit, run_ext, bind at 1. mred.
    rewrite Hesm. rewrite Hrc. mred.
    rewrite bool_decide_eq_true_2 by reflexivity. mred.
    destruct m1 as [ch1 dh1 idx1 gidx1 ex1]. mred in *.
    unfold bind at 1. unfold malloc, get_mem, ret, bind at 1. mred.
    rewrite Hdata, Hnz.
    unfold bind at 1. unfold modify_mem at 1. mred.
    unfold bind at 1. unfold load_ctx at 1. mred. rewrite Hc1.
    unfold bind at 1. unfold call_api, emit, run_ext, bind at 1. mred.
    rewrite Hinit. change (RETURNok =? RETURNok) with true. mred.
    destruct m2 as [ch2 dh2 idx2 gidx2 ex2]. mred in *.
    unfold bind at 1. unfold load_ctx at 1. mred. rewrite Hc2.
    unfold bind at 1. unfold update_data, load_data, modify_mem, bind at 1. mred.
    rewrite Hd2. rewrite Horig.
    unfold bind at 1. unfold malloc, get_mem, ret, bind at 1. mred.
    unfold bind at 1. unfold update_data, load_data, modify_mem, bind at 1. mred.
    rewrite lookup_insert_eq.
    subst registered m3 buffer v. mred. rewrite <- app_assoc.
    reflexivity.
  - apply esm_container_well_formed.
Qed.

Lemma emm_attach_on_esm_success_witness :
  ∃ s' accept,
    _emm_attach (original_config 0) accepting_env 16 (state_with_context 16 secured_context)
    = Done RETURNok s'
    ∧ sent_to_as (trace s') = [accept]
    ∧ attach_accept_carrying activate_default_bearer_request accept
    ∧ data_heap (mem s') !! 1 =
        Some {| ad_ueid := 7; retransmission_count := 0;
                ad_esm_msg := activate_default_bearer_request |}.
Proof.
  destruct (emm_attach_on_esm_success (original_config 0) accepting_env 16
              (state_with_context 16 secured_context) secured_context
              RETURNok activate_default_bearer_request
              (mem (state_with_context 16 secured_context)) 1 secured_context
              (set_ext [1] (upd_data_heap (insert 1 attach_data_zero)
                              (mem (state_with_context 16 secured_context))))
              secured_context attach_data_zero)
    as (_ & Horig & _).
  - vm_compute. reflexivity.
  - reflexivity.
  - discriminate.
  - reflexivity.
  - discriminate.
  - vm_compute. reflexivity.
  - reflexivity.
  - vm_compute. reflexivity.
  - vm_compute. reflexivity.
  - rewrite (Horig eq_refl). do 2 eexists. repeat split; vm_compute; reflexivity.
Defined.

(** C1 as stated fails in the build without [ORIGINAL_CODE]: ESM answers
    [ESM_SAP_SUCCESS] with a container, the buffer is allocated with
    counter 0 and registered with [_emm_attach_abort], but it does not
    hold the container and no ATTACH ACCEPT is sent. *)
Lemma attach_accept_not_sent_without_original_code :
  ∃ s',
    _emm_attach (epc_config 0) accepting_env 16 (state_with_context 16 secured_context)
    = Done RETURNok s'
    ∧ trace s' =
        [EsmSap (pdn_connectivity_req secured_context 16);
         Api (emm_proc_common_initialize 7 CB_NULL CB_NULL CB_NULL CB_emm_attach_abort 1)]
    ∧ sent_to_as (trace s') = []
    ∧ data_heap (mem s') !! 1 =
        Some {| ad_ueid := 7; retransmission_count := 0; ad_esm_msg := OctetString_empty |}
    ∧ (esm_sap_send accepting_env (pdn_connectivity_req secured_context 16)
         (mem (state_with_context 16 secured_context))).1
      = (RETURNok, ESM_SAP_SUCCESS, activate_default_bearer_request).
Proof.
  eexists. repeat split; vm_compute; reflexivity.
Qed.

(** ** Recursion budget *)

(** Only [emm_proc_attach_request] calls itself: every other function of
    the file runs to an end whatever the budget. *)

Lemma nof_ret {A} (a : A) : never_out_of_fuel (ret a).
Proof. intros s. discriminate. Qed.

Lemma nof_bind {A B} (m : M A) (k : A → M B) :
  never_out_of_fuel m → (∀ a, never_out_of_fuel (k a)) → never_out_of_fuel (bind m k).
Proof.
  intros Hm Hk s. unfold bind. specialize (Hm s).
  destruct (m s); [apply Hk | discriminate | contradiction].
Qed.

Lemma nof_undefined {A} : never_out_of_fuel (@undefined A).
Proof. intros s. discriminate. Qed.

Lemma nof_load_ctx p : never_out_of_fuel (load_ctx p).
Proof. intros s. unfold load_ctx. destruct (_ !! _); discriminate. Qed.

Lemma nof_load_data p : never_out_of_fuel (load_data p).
Proof. intros s. unfold load_data. destruct (_ !! _); discriminate. Qed.

Lemma nof_modify_mem f : never_out_of_fuel (modify_mem f).
Proof. intros s. discriminate. Qed.

Lemma nof_get_mem : never_out_of_fuel get_mem.
Proof. intros s. discriminate. Qed.

Lemma nof_emit e : never_out_of_fuel (emit e).
Proof. intros s. discriminate. Qed.

Lemma nof_run_ext {A} (f : memory → A * memory) : never_out_of_fuel (run_ext f).
Proof. intros s. unfold run_ext. destruct (f _). discriminate. Qed.

Lemma nof_when b m : never_out_of_fuel m → never_out_of_fuel (when b m).
Proof. intros H. unfold when. destruct b; [exact H | apply nof_ret]. Qed.

Create HintDb nof discriminated.
#[local] Hint Resolve nof_ret nof_undefined nof_load_ctx nof_load_data nof_modify_mem
  nof_get_mem nof_emit nof_run_ext : nof.

Ltac nof_step :=
  first
    [ solve [ auto with nof ]
    | apply nof_bind; [| intros ? ]
    | apply nof_when
    | progress cbv zeta
    | match goal with
      | |- never_out_of_fuel (if ?b then _ else _) => destruct b
      | |- never_out_of_fuel (match ?x with _ => _ end) => destruct x
      end
    | case_match ].

Ltac nof := repeat nof_step.

Section NeverOutOfFuel.
Variables (C : config) (E : environment).

Lemma nof_update_ctx p f : never_out_of_fuel (update_ctx p f).
Proof. unfold update_ctx. nof. Qed.

Lemma nof_update_data p f : never_out_of_fuel (update_data p f).
Proof. unfold update_data. nof. Qed.

Lemma nof_free_data p : never_out_of_fuel (free_data p).
Proof. unfold free_data. nof. Qed.

Lemma nof_call_api c : never_out_of_fuel (call_api E c).
Proof. unfold call_api. nof. Qed.

Lemma nof_call_emm_sap_send p : never_out_of_fuel (call_emm_sap_send E p).
Proof. unfold call_emm_sap_send. nof. Qed.

Lemma nof_call_esm_sap_send p : never_out_of_fuel (call_esm_sap_send E p).
Proof. unfold call_esm_sap_send. nof. Qed.

Lemma nof_malloc site : never_out_of_fuel (malloc E site).
Proof. unfold malloc. nof. Qed.

Hint Resolve nof_update_ctx nof_update_data nof_free_data nof_call_api
  nof_call_emm_sap_send nof_call_esm_sap_send nof_malloc : nof.

Lemma nof_obj_hashtable_insert g ue : never_out_of_fuel (obj_hashtable_insert g ue).
Proof. unfold obj_hashtable_insert. nof. Qed.

Lemma nof_obj_hashtable_remove g : never_out_of_fuel (obj_hashtable_remove g).
Proof. unfold obj_hashtable_remove. nof. Qed.

Lemma nof_emm_data_context_get ue : never_out_of_fuel (emm_data_context_get ue).
Proof. unfold emm_data_context_get. nof. Qed.

Lemma nof_emm_data_context_get_by_guti g : never_out_of_fuel (emm_data_context_get_by_guti g).
Proof. unfold emm_data_context_get_by_guti. nof. Qed.

Hint Resolve nof_obj_hashtable_insert nof_obj_hashtable_remove nof_emm_data_context_get
  nof_emm_data_context_get_by_guti : nof.

Lemma nof_emm_data_context_add p : never_out_of_fuel (emm_data_context_add p).
Proof. unfold emm_data_context_add. nof. Qed.

Lemma nof_emm_data_context_remove p : never_out_of_fuel (emm_data_context_remove p).
Proof. unfold emm_data_context_remove. nof. Qed.

Lemma nof_emm_fsm_get_status ue p : never_out_of_fuel (emm_fsm_get_status ue p).
Proof. unfold emm_fsm_get_status. nof. Qed.

Lemma nof_emm_fsm_set_status ue p st : never_out_of_fuel (emm_fsm_set_status ue p st).
Proof. unfold emm_fsm_set_status. nof. Qed.

Hint Resolve nof_emm_data_context_add nof_emm_data_context_remove nof_emm_fsm_get_status
  nof_emm_fsm_set_status : nof.

Lemma nof_stop_timer_if_active p get set :
  never_out_of_fuel (stop_timer_if_active E p get set).
Proof. unfold stop_timer_if_active. nof. Qed.

Hint Resolve nof_stop_timer_if_active : nof.

Lemma nof_emm_attach_release p : never_out_of_fuel (_emm_attach_release C E p).
Proof. unfold _emm_attach_release. nof. Qed.

Hint Resolve nof_emm_attach_release : nof.

Lemma nof_emm_attach_reject p : never_out_of_fuel (_emm_attach_reject C E p).
Proof. unfold _emm_attach_reject. nof. Qed.

Hint Resolve nof_emm_attach_reject : nof.

Lemma nof_emm_attach_abort p : never_out_of_fuel (_emm_attach_abort C E p).
Proof. unfold _emm_attach_abort. nof. Qed.

Lemma nof_emm_attach_accept p d : never_out_of_fuel (_emm_attach_accept E p d).
Proof. unfold _emm_attach_accept. nof. Qed.

Hint Resolve nof_emm_attach_abort nof_emm_attach_accept : nof.

Lemma nof_emm_attach_t3450_handler d : never_out_of_fuel (_emm_attach_t3450_handler C E d).
Proof. unfold _emm_attach_t3450_handler. nof. Qed.

Lemma nof_emm_attach_finish p rc : never_out_of_fuel (emm_attach_finish C E p rc).
Proof. unfold emm_attach_finish. nof. Qed.

Hint Resolve nof_emm_attach_finish : nof.

Lemma nof_emm_attach_after_accept p d rc :
  never_out_of_fuel (emm_attach_after_accept C E p d rc).
Proof. unfold emm_attach_after_accept. nof. Qed.

Hint Resolve nof_emm_attach_after_accept : nof.

Lemma nof_emm_attach p : never_out_of_fuel (_emm_attach C E p).
Proof. unfold _emm_attach. nof. Qed.

Hint Resolve nof_emm_attach : nof.

Lemma nof_emm_attach_security p : never_out_of_fuel (_emm_attach_security C E p).
Proof. unfold _emm_attach_security. nof. Qed.

Hint Resolve nof_emm_attach_security : nof.

Lemma nof_emm_attach_identify p : never_out_of_fuel (_emm_attach_identify C E p).
Proof.
  unfold _emm_attach_identify, identify_finish, identify_authentication,
    identify_guti_reallocation. nof.
Qed.

Lemma nof_emm_attach_update p ue r : never_out_of_fuel (_emm_attach_update C E p ue r).
Proof. unfold _emm_attach_update, update_identities_and_esm. nof. Qed.

Hint Resolve nof_emm_attach_identify nof_emm_attach_update : nof.

Lemma nof_reject_ue_ctx c : never_out_of_fuel (reject_ue_ctx C E c).
Proof. unfold reject_ue_ctx. nof. Qed.

Lemma nof_attach_update_and_identify p r :
  never_out_of_fuel (attach_update_and_identify C E p r).
Proof. unfold attach_update_and_identify. nof. Qed.

Lemma nof_create_context ue : never_out_of_fuel (create_context C E ue).
Proof. unfold create_context. nof. Qed.

Lemma nof_rebind_by_guti ue temp g : never_out_of_fuel (rebind_by_guti E ue temp g).
Proof. unfold rebind_by_guti. nof. Qed.

Hint Resolve nof_reject_ue_ctx nof_attach_update_and_identify nof_create_context
  nof_rebind_by_guti : nof.

Lemma nof_attach_with_context temp found r :
  never_out_of_fuel (attach_with_context C E temp found r).
Proof. unfold attach_with_context. nof. Qed.

End NeverOutOfFuel.

(** ** An Attach Request for a UE that has a context *)

Section ExistingContext.
Variables (C : config) (E : environment).

Lemma body_for_existing_context self r s p c :
  admitted C r →
  ctx_coll_ue_id (mem s) !! req_ueid r = Some p →
  p ≠ 0 →
  ctx_heap (mem s) !! p = Some c →
  fsm_rank EMM_DEREGISTERED < fsm_rank (_emm_fsm_status c) →
  emm_proc_attach_request_body C E self r s =
    (if _emm_attach_have_changed c r then
       let* rc := call_emm_sap_send E (EMMREG_PROC_ABORT (req_ueid r) p) in
       if negb (rc =? RETURNerror) then self r else ret rc
     else ret RETURNok) s.
Proof.
  intros [Hid Hem] Hidx Hp Hc Hst. unfold emm_proc_attach_request_body.
  rewrite Hid, Hem. cbv zeta.
  apply nonzero_true in Hp. apply Z.ltb_lt in Hst.
  expose_state s. mred in *. munfold. msimp. rewrite Hst. msimp. reflexivity.
Qed.

Lemma body_without_procedure self self' r s :
  no_procedure_under_way (mem s) (req_ueid r) →
  emm_proc_attach_request_body C E self r s = emm_proc_attach_request_body C E self' r s
  ∧ emm_proc_attach_request_body C E self r s ≠ OutOfFuel.
Proof.
  intros Hno. unfold emm_proc_attach_request_body. cbv zeta.
  destruct (negb (NAS_BUILT_IN_EPC C) && (EMM_DATA_NB_UE_MAX C <=? req_ueid r));
    [split; [reflexivity | apply nof_reject_ue_ctx]|].
  destruct ((Z.land (features C) MME_API_EMERGENCY_ATTACH =? 0)
            && bool_decide (req_type r = EMM_ATTACH_TYPE_EMERGENCY));
    [split; [reflexivity | apply nof_reject_ue_ctx]|].
  assert (Hrest : ∀ temp, never_out_of_fuel
            (let* (temp, previous_context_found) :=
               if NAS_BUILT_IN_EPC C then rebind_by_guti E (req_ueid r) temp (req_guti r)
               else ret (temp, false) in
             attach_with_context C E temp previous_context_found r)).
  { intros temp. apply nof_bind.
    - destruct (NAS_BUILT_IN_EPC C); [apply nof_rebind_by_guti | apply nof_ret].
    - intros [t f]. apply nof_attach_with_context. }
  unfold emm_data_context_get, emm_fsm_get_status, load_ctx, get_mem, bind, ret. mred.
  destruct (ctx_coll_ue_id (mem s) !! req_ueid r) as [q|] eqn:Hidx; mred.
  - destruct (nonzero q); [|split; [reflexivity | apply (Hrest q s)]].
    destruct (ctx_heap (mem s) !! q) as [c|] eqn:Hc; [|split; [reflexivity | discriminate]].
    specialize (Hno q c Hidx Hc). apply Z.ltb_ge in Hno. rewrite Hno.
    split; [reflexivity | apply (Hrest q s)].
  - change (nonzero 0) with false. split; [reflexivity | apply (Hrest 0 s)].
Qed.

End ExistingContext.

(** C4, as the code has it.  An Attach Request that passes the admission
    tests finds a context for its UE identifier with a status above
    [EMM_DEREGISTERED].  If the detector reports no change, the request is
    acknowledged with [RETURNok] and the state is the one before: nothing
    is emitted, the context and its timers are untouched.  If it reports a
    change, one [EMMREG_PROC_ABORT] is emitted; when that returns
    [RETURNerror] the request ends there with the error; otherwise the
    function is entered again with the same parameters, and when the abort
    has left no context above [EMM_DEREGISTERED] under the UE identifier,
    this second entry is the last: a budget of two activations is enough
    and a larger one gives the same result. *)
Theorem attach_request_for_existing_context (C : config) (E : environment) fuel r s p c :
  admitted C r →
  ctx_coll_ue_id (mem s) !! req_ueid r = Some p →
  p ≠ 0 →
  ctx_heap (mem s) !! p = Some c →
  fsm_rank EMM_DEREGISTERED < fsm_rank (_emm_fsm_status c) →
  (_emm_attach_have_changed c r = false →
     emm_proc_attach_request C E (S fuel) r s = Done RETURNok s)
  ∧ (_emm_attach_have_changed c r = true →
     ∀ rc m1,
       emm_sap_send E (EMMREG_PROC_ABORT (req_ueid r) p) (mem s) = (rc, m1) →
       let s1 := {| mem := m1;
                    trace := trace s ++ [EmmSap (EMMREG_PROC_ABORT (req_ueid r) p)] |} in
       (rc = RETURNerror →
          emm_proc_attach_request C E (S fuel) r s = Done RETURNerror s1)
       ∧ (rc ≠ RETURNerror →
            emm_proc_attach_request C E (S fuel) r s = emm_proc_attach_request C E fuel r s1
            ∧ (no_procedure_under_way m1 (req_ueid r) →
               ∀ n, emm_proc_attach_request C E (S (S n)) r s
                    = emm_proc_attach_request C E 2 r s
                    ∧ emm_proc_attach_request C E 2 r s ≠ OutOfFuel))).
Proof.
  intros Hadm Hidx Hp Hc Hst.
  assert (Hbody : ∀ self, emm_proc_attach_request_body C E self r s = _)
    by (intros self; exact (body_for_existing_context C E self r s p c Hadm Hidx Hp Hc Hst)).
  split.
  - intros Hsame. cbn [emm_proc_attach_request]. rewrite Hbody, Hsame. reflexivity.
  - intros Hchg rc m1 Hsend s1.
    assert (Hstep : ∀ self,
              emm_proc_attach_request_body C E self r s =
              if negb (rc =? RETURNerror) then self r s1 else Done rc s1).
    { intros self. rewrite Hbody, Hchg.
      unfold call_emm_sap_send, emit, run_ext, bind, ret. mred. rewrite Hsend.
      destruct (negb (rc =? RETURNerror)); reflexivity. }
    split.
    + intros ->. cbn [emm_proc_attach_request]. rewrite Hstep. reflexivity.
    + intros Hrc. apply Z.eqb_neq in Hrc.
      split.
      * cbn [emm_proc_attach_request]. rewrite Hstep, Hrc. reflexivity.
      * intros Hno n. cbn [emm_proc_attach_request]. rewrite !Hstep, Hrc. mred.
        destruct (body_without_procedure C E (emm_proc_attach_request C E n)
                    (fun _ _ => OutOfFuel) r s1 Hno) as [Heq Hnof].
        split; [exact Heq | rewrite <- Heq; exact Hnof].
Qed.

Lemma attach_request_for_existing_context_witness :
  (emm_proc_attach_request (epc_config 0) fsm_env 1 (request_guti 7 240)
     (state_with_context 16 identifying_context)
   = Done RETURNok (state_with_context 16 identifying_context))
  ∧ (∀ n, emm_proc_attach_request (epc_config 0) fsm_env (S (S n))
            (request_guti 7 112) (state_with_context 16 identifying_context)
          = emm_proc_attach_request (epc_config 0) fsm_env 2
              (request_guti 7 112) (state_with_context 16 identifying_context)
          ∧ emm_proc_attach_request (epc_config 0) fsm_env 2
              (request_guti 7 112) (state_with_context 16 identifying_context)
            ≠ OutOfFuel).
Proof.
  split.
  - apply (attach_request_for_existing_context (epc_config 0) fsm_env 0 (request_guti 7 240)
             (state_with_context 16 identifying_context) 16 identifying_context).
    + split; reflexivity.
    + vm_compute. reflexivity.
    + discriminate.
    + vm_compute. reflexivity.
    + vm_compute. reflexivity.
    + vm_compute. reflexivity.
  - destruct (attach_request_for_existing_context (epc_config 0) fsm_env 1
                (request_guti 7 112)
                (state_with_context 16 identifying_context) 16 identifying_context)
      as [_ Hchg].
    + split; reflexivity.
    + vm_compute. reflexivity.
    + discriminate.
    + vm_compute. reflexivity.
    + vm_compute. reflexivity.
    + destruct (Hchg eq_refl RETURNok
                  (set_status_at 16 EMM_DEREGISTERED
                     (mem (state_with_context 16 identifying_context))) eq_refl)
        as [_ Hre].
      destruct (Hre ltac:(discriminate)) as [_ Hbound].
      apply Hbound.
      intros q c Hq Hc. vm_compute in Hq. injection Hq as <-.
      vm_compute in Hc. injection Hc as <-. vm_compute. discriminate.
Defined.

(** C4 as stated fails.  (1) The parameters have changed and the abort
    notification returns [RETURNerror]: [EMMREG_PROC_ABORT] is emitted, the
    function is not entered again (one activation is enough to end) and
    the context keeps the old parameters.  (2) Emergency attach is not
    enabled and the changed request is of emergency type: it is rejected
    with [EMM_CAUSE_IMEI_NOT_ACCEPTED] before the context is looked at, and
    no [EMMREG_PROC_ABORT] is emitted. *)
Lemma changed_request_not_always_restarted :
  (_emm_attach_have_changed identifying_context (request_guti 7 112) = true
   ∧ ∃ s',
       emm_proc_attach_request (epc_config 0) failing_emm_env 1 (request_guti 7 112)
         (state_with_context 16 identifying_context) = Done RETURNerror s'
       ∧ trace s' = [EmmSap (EMMREG_PROC_ABORT 7 16)]
       ∧ ctx_heap (mem s') !! 16 = Some identifying_context)
  ∧ (_emm_attach_have_changed identifying_context (request_emergency_imei 7) = true
     ∧ ∃ s',
         emm_proc_attach_request (epc_config 0) plain_env 1 (request_emergency_imei 7)
           (state_with_context 16 identifying_context) = Done RETURNok s'
         ∧ trace s' = [EmmSap (EMMAS_ESTABLISH_REJ 7 EMM_CAUSE_IMEI_NOT_ACCEPTED
                                 OctetString_empty None)]).
Proof.
  split; (split; [vm_compute; reflexivity|]); eexists; repeat split; vm_compute; reflexivity.
Qed.

(** An aside on the detector in use: an Attach Request that carries an
    IMSI and no GUTI leaves a synthesized GUTI in the context, so that the
    very same request, were it to come again, is reported as changed. *)
Example identical_imsi_request_reported_changed :
  ∃ s' c',
    _emm_attach_update (epc_config 0) plain_env 16 7 (request_imsi 7)
      (state_with_context 16 fresh_context) = Done RETURNok s'
    ∧ ctx_heap (mem s') !! 16 = Some c'
    ∧ _emm_attach_have_changed c' (request_imsi 7) = true.
Proof.
  do 2 eexists. repeat split; vm_compute; reflexivity.
Qed.

(** ** Re-attach by GUTI on a new UE identifier *)

Lemma ueid_created C ue : ueid (emm_ctx_created C ue) = ue.
Proof. reflexivity. Qed.

Lemma guti_created C ue : guti (emm_ctx_created C ue) = None.
Proof. reflexivity. Qed.

(* Runs of the operations, as equations. *)
Lemma run_bind {A B} (m : M A) (k : A → M B) s a s' :
  m s = Done a s' → bind m k s = k a s'.
Proof. intros H. unfold bind. rewrite H. reflexivity. Qed.

Lemma run_load_ctx s p c :
  ctx_heap (mem s) !! p = Some c → load_ctx p s = Done c s.
Proof. intros H. unfold load_ctx. rewrite H. reflexivity. Qed.

Lemma run_update_ctx s p f c :
  ctx_heap (mem s) !! p = Some c →
  update_ctx p f s
  = Done tt {| mem := upd_ctx_heap (insert p (f c)) (mem s); trace := trace s |}.
Proof.
  intros H. unfold update_ctx. rewrite (run_bind _ _ _ _ _ (run_load_ctx s p c H)).
  reflexivity.
Qed.

Lemma run_malloc E site s : malloc E site s = Done (allocate E site (mem s)) s.
Proof. reflexivity. Qed.

Lemma run_emm_data_context_get ue s :
  emm_data_context_get ue s = Done (default 0 (ctx_coll_ue_id (mem s) !! ue)) s.
Proof. reflexivity. Qed.

(** The creation of a context for a UE identifier that is already in the
    index: the new context is at the fresh address and is not indexed. *)
Lemma create_context_indexed (C : config) (E : environment) ue s p t :
  NAS_BUILT_IN_EPC C = true →
  allocate E alloc_emm_ctx (mem s) = p →
  p ≠ 0 →
  ctx_coll_ue_id (mem s) !! ue = Some t →
  create_context C E ue s =
    Done p {| mem := upd_ctx_heap
                       (insert p (set_emm_fsm_status EMM_DEREGISTERED (emm_ctx_created C ue)))
                       (upd_ctx_heap (insert p (emm_ctx_created C ue)) (mem s));
              trace := trace s |}.
Proof.
  intros Hepc Hp Hnz Hidx. apply nonzero_true in Hnz.
  unfold create_context. rewrite Hepc. unfold when. cbn [negb].
  rewrite (run_bind _ _ _ _ _ (run_malloc E alloc_emm_ctx s)).
  rewrite (run_bind (ret tt) _ _ _ _ eq_refl).
  rewrite Hp, Hnz.
  rewrite (run_bind (modify_mem _) _ _ _ _ eq_refl).
  unfold emm_fsm_set_status.
  erewrite run_bind by (apply run_update_ctx; cbn [mem ctx_heap upd_ctx_heap];
                        apply lookup_insert_eq).
  unfold emm_data_context_add.
  erewrite (run_bind (bind _ _)); [reflexivity|].
  erewrite run_bind by (apply run_load_ctx; cbn [mem ctx_heap upd_ctx_heap];
                        apply lookup_insert_eq).
  rewrite (run_bind get_mem _ _ _ _ eq_refl).
  cbn [mem ctx_coll_ue_id upd_ctx_heap].
  replace (ueid (set_emm_fsm_status EMM_DEREGISTERED (emm_ctx_created C ue))) with ue
    by reflexivity.
  rewrite Hidx. reflexivity.
Qed.

Lemma attach_with_fresh_context (C : config) (E : environment) temp r s p t :
  NAS_BUILT_IN_EPC C = true →
  allocate E alloc_emm_ctx (mem s) = p →
  p ≠ 0 →
  ctx_coll_ue_id (mem s) !! req_ueid r = Some t →
  attach_with_context C E temp false r s =
    attach_update_and_identify C E p r
      {| mem := upd_ctx_heap
                  (insert p (set_emm_fsm_status EMM_DEREGISTERED
                               (emm_ctx_created C (req_ueid r))))
                  (upd_ctx_heap (insert p (emm_ctx_created C (req_ueid r))) (mem s));
         trace := trace s |}.
Proof.
  intros Hepc Hp Hnz Hidx.
  unfold attach_with_context. cbn [negb].
  rewrite (run_bind _ _ _ _ _ (create_context_indexed C E _ s p t Hepc Hp Hnz Hidx)).
  apply nonzero_true in Hnz. rewrite Hnz. reflexivity.
Qed.

(** C6, where the code leaves the claim.  [NAS_BUILT_IN_EPC] is on, the
    collaborators are quiet, no context exists under the UE identifier of
    the request and the GUTI of the request leads to the context at [t].
    The context is rebound: the observer is notified first, then the
    context is indexed under the new identifier, with no field changed but
    [ueid].  But [previous_context_found] is left [FALSE]: the function
    goes on as for an unknown UE, and as soon as [calloc] gives a fresh
    address [p] the attach proceeds with a new context at [p], which is
    not the one in the index. *)
Theorem guti_reattach_allocates_fresh_context (C : config) (E : environment)
    fuel r s g old_ue t c :
  NAS_BUILT_IN_EPC C = true →
  quiet E →
  admitted C r →
  ctx_coll_ue_id (mem s) !! req_ueid r = None →
  req_guti r = Some g →
  guti_lookup g (ctx_coll_guti (mem s)) = Some old_ue →
  ctx_coll_ue_id (mem s) !! old_ue = Some t →
  t ≠ 0 →
  ctx_heap (mem s) !! t = Some c →
  ∃ s2,
    emm_proc_attach_request C E (S fuel) r s = attach_with_context C E t false r s2
    ∧ trace s2 = trace s ++ [Api (mme_api_notify_ue_id_changed (ueid c) (req_ueid r))]
    ∧ ctx_heap (mem s2) = <[ t := set_ueid (req_ueid r) c ]> (ctx_heap (mem s))
    ∧ ctx_coll_ue_id (mem s2) !! req_ueid r = Some t
    ∧ ∀ p,
        allocate E alloc_emm_ctx (mem s2) = p →
        p ≠ 0 →
        ctx_heap (mem s2) !! p = None →
        ∃ s3,
          attach_with_context C E t false r s2 = attach_update_and_identify C E p r s3
          ∧ p ≠ t
          ∧ ctx_heap (mem s3) !! p
            = Some (set_emm_fsm_status EMM_DEREGISTERED (emm_ctx_created C (req_ueid r)))
          ∧ ctx_heap (mem s3) !! t = Some (set_ueid (req_ueid r) c)
          ∧ ctx_coll_ue_id (mem s3) !! req_ueid r = Some t
          ∧ trace s3 = trace s2.
Proof.
  intros Hepc Hq [Hid Hem] Hnone Hg Hguti Hold Ht Hc.
  apply nonzero_true in Ht.
  assert (Hrebind : ∃ s2,
    rebind_by_guti E (req_ueid r) 0 (Some g) s = Done (t, false) s2
    ∧ trace s2 = trace s ++ [Api (mme_api_notify_ue_id_changed (ueid c) (req_ueid r))]
    ∧ ctx_heap (mem s2) = <[ t := set_ueid (req_ueid r) c ]> (ctx_heap (mem s))
    ∧ ctx_coll_ue_id (mem s2) !! req_ueid r = Some t).
  { unfold rebind_by_guti. change (0 =? 0) with true. cbv iota.
    expose_state s. mred in *. munfold.
    rewrite Hguti, Hold. mred. rewrite Ht. mred. rewrite Hc. mred.
    env_call Hq. rewrite Hc. mred.
    assert (Hdel : delete (ueid c) ue_idx !! req_ueid r = None)
      by (apply lookup_delete_None; right; exact Hnone).
    destruct (guti c) as [g0|] eqn:Hgc; mred; msimp; rewrite ?Hgc; msimp;
      (eexists; split; [reflexivity|]; mred;
       split; [reflexivity|]; split; [reflexivity|]; apply lookup_insert_eq). }
  destruct Hrebind as (s2 & Hrun & Htr & Hheap & Hidx).
  exists s2. split; [|split; [exact Htr|split; [exact Hheap|split; [exact Hidx|]]]].
  - cbn [emm_proc_attach_request]. unfold emm_proc_attach_request_body.
    rewrite Hid, Hem, Hepc, Hg. cbv zeta.
    rewrite (run_bind _ _ _ _ _ (run_emm_data_context_get (req_ueid r) s)).
    rewrite Hnone. cbn [default from_option Datatypes.id].
    change (nonzero 0) with false. cbv iota.
    rewrite (run_bind (ret false) _ _ _ _ eq_refl).
    rewrite (run_bind _ _ _ _ _ Hrun). reflexivity.
  - intros p Hp Hnz Hnew.
    assert (Hpt : p ≠ t).
    { intros ->. rewrite Hheap, lookup_insert_eq in Hnew. discriminate. }
    eexists. split; [apply (attach_with_fresh_context C E t r s2 p t Hepc Hp Hnz Hidx)|].
    cbn [mem trace ctx_heap ctx_coll_ue_id upd_ctx_heap].
    split; [exact Hpt|]. split; [apply lookup_insert_eq|].
    rewrite !lookup_insert_ne by exact Hpt. rewrite Hheap, lookup_insert_eq.
    split; [reflexivity|]. split; [exact Hidx | reflexivity].
Qed.

Lemma guti_reattach_allocates_fresh_context_witness :
  ∃ s3,
    emm_proc_attach_request (epc_config 0) plain_env 1 (request_guti 12 240)
      (state_with_context 16 identifying_context)
    = attach_update_and_identify (epc_config 0) plain_env 17 (request_guti 12 240) s3
    ∧ ctx_heap (mem s3) !! 16 = Some (set_ueid 12 identifying_context)
    ∧ ctx_coll_ue_id (mem s3) !! 12 = Some 16.
Proof.
  destruct (guti_reattach_allocates_fresh_context (epc_config 0) plain_env 0
              (request_guti 12 240) (state_with_context 16 identifying_context)
              guti_G 7 16 identifying_context)
    as (s2 & Hrun & _ & Hheap & _ & Hnew).
  - reflexivity.
  - exact plain_env_quiet.
  - split; reflexivity.
  - reflexivity.
  - reflexivity.
  - vm_compute. reflexivity.
  - reflexivity.
  - discriminate.
  - reflexivity.
  - assert (Hp : allocate plain_env alloc_emm_ctx (mem s2) = 17).
    { change (next_address (ctx_heap (mem s2)) = 17). rewrite Hheap. vm_compute. reflexivity. }
    destruct (Hnew 17 Hp) as (s3 & Hgo & _ & _ & Hold & Hidx & _).
    + discriminate.
    + rewrite Hheap. vm_compute. reflexivity.
    + exists s3. rewrite Hrun, Hgo. repeat split; assumption.
Defined.

(** ** The retransmission of ATTACH ACCEPT: [_emm_attach_t3450_handler] *)

Lemma sent_to_as_app t e : sent_to_as (t ++ [e]) = sent_to_as t ++ from_option (λ x, [x]) [] (to_as e).
Proof.
  unfold sent_to_as. rewrite omap_app. cbn. destruct (to_as e); reflexivity.
Qed.

Ltac sent := rewrite ?sent_to_as_app; cbn [to_as from_option]; rewrite ?app_nil_r.

Lemma run_load_data s p d :
  data_heap (mem s) !! p = Some d → load_data p s = Done d s.
Proof. intros H. unfold load_data. rewrite H. reflexivity. Qed.

Lemma run_update_data s p f d :
  data_heap (mem s) !! p = Some d →
  update_data p f s
  = Done tt {| mem := upd_data_heap (insert p (f d)) (mem s); trace := trace s |}.
Proof.
  intros H. unfold update_data. rewrite (run_bind _ _ _ _ _ (run_load_data s p d H)).
  reflexivity.
Qed.

(* One expiry of T3450: the counter of the buffer goes up by one, as an
   [unsigned int] does, and the new value decides between
   [_emm_attach_accept] and [_emm_attach_abort]. *)
Lemma t3450_handler_step (C : config) (E : environment) data s d :
  data_heap (mem s) !! data = Some d →
  _emm_attach_t3450_handler C E data s =
    (if uint32 (retransmission_count d + 1) <? ATTACH_COUNTER_MAX
     then let* _ := _emm_attach_accept E (default 0 (ctx_coll_ue_id (mem s) !! ad_ueid d)) data
          in ret tt
     else let* _ := _emm_attach_abort C E data in ret tt)
      {| mem := upd_data_heap
                  (insert data {| ad_ueid := ad_ueid d;
                                  retransmission_count := uint32 (retransmission_count d + 1);
                                  ad_esm_msg := ad_esm_msg d |}) (mem s);
         trace := trace s |}.
Proof.
  intros Hd. unfold _emm_attach_t3450_handler.
  rewrite (run_bind _ _ _ _ _ (run_update_data s data _ d Hd)).
  erewrite run_bind
    by (apply run_load_data; destruct s as [[]]; cbn; apply lookup_insert_eq).
  cbn [retransmission_count ad_ueid].
  erewrite run_bind by apply run_emm_data_context_get.
  destruct s as [[]]; reflexivity.
Qed.

Lemma set_status_at_status_only p st m : status_only m (set_status_at p st m).
Proof.
  unfold set_status_at.
  assert (Hrefl : status_only m m).
  { split; [reflexivity|]. split; [reflexivity|]. intros q c Hc.
    exists (_emm_fsm_status c). rewrite set_same_status. exact Hc. }
  destruct (ctx_heap m !! p) as [c0|] eqn:Hp; [|exact Hrefl].
  destruct m as [ch dh idx gidx ex]. cbn in *.
  split; [reflexivity|]. split; [reflexivity|]. cbn. intros q c Hc.
  destruct (decide (q = p)) as [->|Hne].
  - exists st. rewrite lookup_insert_eq. congruence.
  - exists (_emm_fsm_status c). rewrite lookup_insert_ne by congruence.
    rewrite set_same_status. exact Hc.
Qed.

Lemma fsm_env_fsm_only : fsm_only fsm_env.
Proof.
  assert (Hrefl : ∀ m, status_only m m).
  { intros m. split; [reflexivity|]. split; [reflexivity|]. intros q c Hc.
    exists (_emm_fsm_status c). rewrite set_same_status. exact Hc. }
  split; [|split].
  - intros prim m. apply Hrefl.
  - intros prim m. destruct prim; cbn; first [apply set_status_at_status_only | apply Hrefl].
  - intros c m. destruct c; cbn; try apply Hrefl.
    split; [reflexivity|]. split; [reflexivity|]. apply (Hrefl m).
Qed.

(** ** More on the update of the context *)

(* The end of a run of the update: the heap of contexts is the one before
   but for the context at hand. *)
Ltac one_context :=
  mred; rewrite ?insert_insert_eq;
  first [ reflexivity
        | symmetry; apply insert_id; eassumption ].

(* What a run of [_emm_attach_update] leaves unchanged and what it stores,
   whether it succeeds or not. *)
Lemma emm_attach_update_effect (C : config) (E : environment) ctx ue r s c :
  ctx_heap (mem s) !! ctx = Some c →
  ∃ rc s' c',
    _emm_attach_update C E ctx ue r s = Done rc s'
    ∧ ctx_heap (mem s') = <[ ctx := c' ]> (ctx_heap (mem s))
    ∧ (data_heap (mem s') = data_heap (mem s)
       ∧ ctx_coll_ue_id (mem s') = ctx_coll_ue_id (mem s)
       ∧ ext (mem s') = ext (mem s)
       ∧ trace s' = trace s)
    ∧ (ueid c' = ue ∧ is_dynamic c' = is_dynamic c ∧ security c' = security c
       ∧ _emm_fsm_status c' = _emm_fsm_status c ∧ emm_cause c' = emm_cause c
       ∧ T3450 c' = T3450 c ∧ T3460 c' = T3460 c ∧ T3470 c' = T3470 c
       ∧ old_guti c' = old_guti c)
    ∧ (is_emergency c' = is_emergency_type (req_type r)
       ∧ ksi c' = req_ksi r ∧ eea c' = req_eea r ∧ eia c' = req_eia r
       ∧ ucs2 c' = req_ucs2 r ∧ uea c' = req_uea r ∧ uia c' = req_uia r
       ∧ gea c' = req_gea r
       ∧ umts_present c' = req_umts_present r ∧ gprs_present c' = req_gprs_present r)
    ∧ (rc = RETURNok →
         imsi c' = from_option Some (imsi c) (req_imsi r)
         ∧ imei c' = from_option Some (imei c) (req_imei r)
         ∧ is_attached c' = FALSE
         ∧ os_length (esm_msg c') = os_length (esm_msg_pP r))
    ∧ (∀ g, req_guti r = Some g →
         (rc = RETURNok → guti c' = Some g)
         ∧ (guti c ≠ None → ctx_coll_guti (mem s') = ctx_coll_guti (mem s))
         ∧ (guti c = None →
              ctx_coll_guti (mem s') = (g, ue) :: guti_delete g (ctx_coll_guti (mem s))))
    ∧ (req_guti r = None → rc = RETURNok →
         ∀ g, guti c' = Some g → guti_lookup g (ctx_coll_guti (mem s')) = Some ue).
Proof.
  intros Hc. expose_state s. mred in *.
  unfold _emm_attach_update, update_identities_and_esm. munfold. rewrite Hc. mred.
  rewrite lookup_insert_eq. mred.
  repeat mstep.
  all: do 3 eexists; split; [reflexivity|]; split; [one_context|].
  all: mred; split; [repeat split; reflexivity|].
  all: split; [repeat split; reflexivity|].
  all: split; [repeat split; reflexivity|].
  all: split; [intros Hrc; try discriminate Hrc; repeat split; reflexivity|].
  all: repeat match goal with H : bool_decide _ = _ |- _ => to_prop H end.
  all: split;
    [ intros g0 Hg0; try discriminate Hg0; injection Hg0 as ->;
      (split; [intros Hrc; try discriminate Hrc; reflexivity|]);
      split; intros Hgc; try reflexivity; try (exfalso; tauto); try congruence
    | intros Hnone Hrc g2 Hg2; try discriminate Hnone; try discriminate Hrc;
      injection Hg2 as <-; cbn [guti_lookup]; rewrite decide_True by reflexivity;
      reflexivity ].
Qed.

(** The update of a context is local and silent: whatever its result, it
    issues no primitive, leaves the retransmission buffers, the index by UE
    identifier and every other context as they were, and keeps the fields
    of the context that belong to the procedure (dynamic flag, security
    context, status, cause, timers).  The capabilities of the request are
    stored before any identity is looked at, hence also when the update
    fails. *)
Theorem update_is_local_and_stores_capabilities (C : config) (E : environment)
    ctx ue r s c :
  ctx_heap (mem s) !! ctx = Some c →
  ∃ rc s' c',
    _emm_attach_update C E ctx ue r s = Done rc s'
    ∧ ctx_heap (mem s') !! ctx = Some c'
    ∧ (∀ q, q ≠ ctx → ctx_heap (mem s') !! q = ctx_heap (mem s) !! q)
    ∧ data_heap (mem s') = data_heap (mem s)
    ∧ ctx_coll_ue_id (mem s') = ctx_coll_ue_id (mem s)
    ∧ trace s' = trace s
    ∧ (ueid c' = ue ∧ is_dynamic c' = is_dynamic c ∧ security c' = security c
       ∧ _emm_fsm_status c' = _emm_fsm_status c ∧ emm_cause c' = emm_cause c
       ∧ T3450 c' = T3450 c ∧ T3460 c' = T3460 c ∧ T3470 c' = T3470 c)
    ∧ (is_emergency c' = is_emergency_type (req_type r)
       ∧ ksi c' = req_ksi r ∧ eea c' = req_eea r ∧ eia c' = req_eia r
       ∧ ucs2 c' = req_ucs2 r ∧ uea c' = req_uea r ∧ uia c' = req_uia r
       ∧ gea c' = req_gea r
       ∧ umts_present c' = req_umts_present r ∧ gprs_present c' = req_gprs_present r).
Proof.
  intros Hc.
  destruct (emm_attach_update_effect C E ctx ue r s c Hc)
    as (rc & s' & c' & Hrun & Hheap & (Hdh & Hidx & _ & Htr) & Hkept & Hcaps & _).
  exists rc, s', c'. split; [exact Hrun|].
  split; [rewrite Hheap; apply lookup_insert_eq|].
  split; [intros q Hq; rewrite Hheap; apply lookup_insert_ne; congruence|].
  split; [exact Hdh|]. split; [exact Hidx|]. split; [exact Htr|].
  split; [tauto | exact Hcaps].
Qed.

Lemma update_is_local_and_stores_capabilities_witness :
  ∃ rc s' c',
    _emm_attach_update (epc_config 0) plain_env 4096 8 (request_guti 8 112)
      two_contexts_4GiB_apart = Done rc s'
    ∧ ctx_heap (mem s') !! 4096 = Some c'
    ∧ ctx_heap (mem s') !! (4096 + 2 ^ 32) = Some (set_ueid 8 fresh_context)
    ∧ ueid c' = 8 ∧ eea c' = 112.
Proof.
  destruct (update_is_local_and_stores_capabilities (epc_config 0) plain_env 4096 8
              (request_guti 8 112) two_contexts_4GiB_apart fresh_context)
    as (rc & s' & c' & Hrun & Hc' & Hothers & _ & _ & _ & Hkept & Hcaps).
  - reflexivity.
  - exists rc, s', c'. split; [exact Hrun|]. split; [exact Hc'|].
    split; [rewrite Hothers by discriminate; reflexivity|].
    split; [apply Hkept | apply Hcaps].
Defined.

(** Duplicate detection after an update with a GUTI.  When the request
    carries a GUTI and the context holds no IMSI (no IMEI) that the request
    does not bring, a successful update leaves a context against which the
    very same request is reported as unchanged. *)
Theorem guti_request_is_a_duplicate_after_update (C : config) (E : environment)
    ctx ue r s c g :
  ctx_heap (mem s) !! ctx = Some c →
  req_guti r = Some g →
  (req_imsi r = None → imsi c = None) →
  (req_imei r = None → imei c = None) →
  ∃ rc s' c',
    _emm_attach_update C E ctx ue r s = Done rc s'
    ∧ ctx_heap (mem s') !! ctx = Some c'
    ∧ (rc = RETURNok → _emm_attach_have_changed c' r = false).
Proof.
  intros Hc Hg Himsi Himei.
  destruct (emm_attach_update_effect C E ctx ue r s c Hc)
    as (rc & s' & c' & Hrun & Hheap & _ & _ & Hcaps & Hids & Hguti & _).
  exists rc, s', c'. split; [exact Hrun|].
  split; [rewrite Hheap; apply lookup_insert_eq|].
  intros Hrc. destruct (Hids Hrc) as (Hi & He & _).
  destruct (Hguti g Hg) as (Hg' & _). specialize (Hg' Hrc).
  destruct Hcaps as (H1 & H2 & H3 & H4 & H5 & H6 & H7 & H8 & H9 & H10).
  unfold _emm_attach_have_changed.
  rewrite H1, H2, H3, H4, H5, H6, H7, H8, H9, H10, Hg, Hg', Hi, He.
  rewrite !Z.eqb_refl. cbn [negb orb].
  rewrite !andb_false_r.
  destruct (req_imsi r) as [i|]; cbn [from_option];
    [rewrite bool_decide_eq_true_2 by reflexivity | rewrite Himsi by reflexivity];
    (destruct (req_imei r) as [e|]; cbn [from_option];
     [rewrite bool_decide_eq_true_2 by reflexivity | rewrite Himei by reflexivity]);
    reflexivity.
Qed.

Lemma guti_request_is_a_duplicate_after_update_witness :
  ∃ rc s' c',
    _emm_attach_update (epc_config 0) plain_env 16 7 (request_guti 7 240)
      (state_with_context 16 fresh_context) = Done rc s'
    ∧ ctx_heap (mem s') !! 16 = Some c'
    ∧ (rc = RETURNok → _emm_attach_have_changed c' (request_guti 7 240) = false).
Proof.
  apply (guti_request_is_a_duplicate_after_update (epc_config 0) plain_env 16 7
           (request_guti 7 240) (state_with_context 16 fresh_context) fresh_context guti_G).
  - reflexivity.
  - reflexivity.
  - reflexivity.
  - reflexivity.
Defined.

(** No duplicate detection after an update without GUTI.  When the request
    carries an IMSI and no GUTI, a successful update leaves a synthesized
    GUTI in the context, and the very same request is then reported as
    changed, whatever the context held before. *)
Theorem imsi_request_is_never_a_duplicate (C : config) (E : environment)
    ctx ue r s c i :
  ctx_heap (mem s) !! ctx = Some c →
  req_guti r = None →
  req_imsi r = Some i →
  ∃ rc s' c',
    _emm_attach_update C E ctx ue r s = Done rc s'
    ∧ ctx_heap (mem s') !! ctx = Some c'
    ∧ (rc = RETURNok → _emm_attach_have_changed c' r = true).
Proof.
  intros Hc Hg Hi.
  destruct (emm_attach_update_spec C E ctx ue r s c Hc)
    as (rc & s' & c' & Hrun & _ & Hc' & _ & Hok & _).
  exists rc, s', c'. split; [exact Hrun|]. split; [exact Hc'|].
  intros Hrc. destruct (Hok Hrc) as (_ & Hsome & _).
  unfold _emm_attach_have_changed. rewrite Hg.
  destruct (guti c') as [g'|]; [|congruence].
  repeat match goal with
         | |- context [if ?b then true else _] => destruct b
         end; reflexivity.
Qed.

Lemma imsi_request_is_never_a_duplicate_witness :
  ∃ rc s' c',
    _emm_attach_update (epc_config 0) plain_env 16 7 (request_imsi 7)
      (state_with_context 16 fresh_context) = Done rc s'
    ∧ ctx_heap (mem s') !! 16 = Some c'
    ∧ (rc = RETURNok → _emm_attach_have_changed c' (request_imsi 7) = true).
Proof.
  apply (imsi_request_is_never_a_duplicate (epc_config 0) plain_env 16 7
           (request_imsi 7) (state_with_context 16 fresh_context) fresh_context imsi_001_01).
  - reflexivity.
  - reflexivity.
  - reflexivity.
Defined.

(** The GUTI index is written only when the context had no GUTI.  An update
    with a GUTI on a context that already holds one overwrites the GUTI of
    the context and leaves the index as it was: a GUTI that was not in the
    index before still leads to no context. *)
Theorem update_with_guti_keeps_the_index (C : config) (E : environment)
    ctx ue r s c g g0 :
  ctx_heap (mem s) !! ctx = Some c →
  req_guti r = Some g →
  guti c = Some g0 →
  ∃ rc s' c',
    _emm_attach_update C E ctx ue r s = Done rc s'
    ∧ ctx_heap (mem s') !! ctx = Some c'
    ∧ (rc = RETURNok → guti c' = Some g)
    ∧ ctx_coll_guti (mem s') = ctx_coll_guti (mem s)
    ∧ (guti_lookup g (ctx_coll_guti (mem s)) = None →
       emm_data_context_get_by_guti g s' = Done 0 s').
Proof.
  intros Hc Hg Hg0.
  destruct (emm_attach_update_effect C E ctx ue r s c Hc)
    as (rc & s' & c' & Hrun & Hheap & _ & _ & _ & _ & Hguti & _).
  destruct (Hguti g Hg) as (Hnew & Hkeep & _).
  assert (Hidx : ctx_coll_guti (mem s') = ctx_coll_guti (mem s))
    by (apply Hkeep; congruence).
  exists rc, s', c'. split; [exact Hrun|].
  split; [rewrite Hheap; apply lookup_insert_eq|].
  split; [exact Hnew|]. split; [exact Hidx|].
  intros Hmiss. unfold emm_data_context_get_by_guti, bind, get_mem.
  rewrite Hidx, Hmiss. reflexivity.
Qed.

Lemma update_with_guti_keeps_the_index_witness :
  ∃ rc s' c',
    _emm_attach_update (epc_config 0) plain_env 16 7 (request_guti 7 240)
      (state_with_context 16 (set_guti (Some GUTI_zero) identifying_context)) = Done rc s'
    ∧ ctx_heap (mem s') !! 16 = Some c'
    ∧ (rc = RETURNok → guti c' = Some guti_G)
    ∧ ctx_coll_guti (mem s') = [(GUTI_zero, 7)]
    ∧ emm_data_context_get_by_guti guti_G s' = Done 0 s'.
Proof.
  destruct (update_with_guti_keeps_the_index (epc_config 0) plain_env 16 7
              (request_guti 7 240)
              (state_with_context 16 (set_guti (Some GUTI_zero) identifying_context))
              (set_guti (Some GUTI_zero) identifying_context) guti_G GUTI_zero)
    as (rc & s' & c' & Hrun & Hc' & Hnew & Hidx & Hmiss).
  - reflexivity.
  - reflexivity.
  - reflexivity.
  - exists rc, s', c'. split; [exact Hrun|]. split; [exact Hc'|]. split; [exact Hnew|].
    split; [exact Hidx|]. apply Hmiss. vm_compute. reflexivity.
Defined.

(** ** The reject of an attach through the temporary UE context *)

Lemma set_same_cause c : set_emm_cause (emm_cause c) c = c.
Proof. destruct c; reflexivity. Qed.

Ltac heap_simp :=
  repeat first [ rewrite lookup_insert_eq | rewrite insert_insert_eq | progress mred ].

(* The ATTACH REJECT that [_emm_attach_reject] sends for a context kept at
   the address of the temporary context: not dynamic, and not one whose
   cause asks for an ESM message. *)
Lemma reject_ue_ctx_sends (C : config) (E : environment) u s :
  fsm_only E →
  ctx_heap (mem s) !! ue_ctx_addr = None →
  is_dynamic u = FALSE →
  emm_cause u ≠ EMM_CAUSE_ESM_FAILURE →
  let cause' :=
    if emm_cause u =? EMM_CAUSE_SUCCESS then EMM_CAUSE_ILLEGAL_UE else emm_cause u in
  let reject := EMMAS_ESTABLISH_REJ (ueid u) cause' OctetString_empty (security u) in
  ∃ rc s',
    reject_ue_ctx C E u s = Done rc s'
    ∧ rc = (emm_sap_send E reject
              (upd_ctx_heap (insert ue_ctx_addr (set_emm_cause cause' u)) (mem s))).1
    ∧ trace s' = trace s ++ [EmmSap reject]
    ∧ data_heap (mem s') = data_heap (mem s)
    ∧ ctx_coll_ue_id (mem s') = ctx_coll_ue_id (mem s)
    ∧ ctx_heap (mem s') !! ue_ctx_addr = None
    ∧ ∀ p c, ctx_heap (mem s) !! p = Some c →
             ∃ st, ctx_heap (mem s') !! p = Some (set_emm_fsm_status st c).
Proof.
  intros Hw Hfree Hdyn Hcause cause' reject.
  assert (Hesm : (cause' =? EMM_CAUSE_ESM_FAILURE) = false).
  { subst cause'. destruct (emm_cause u =? EMM_CAUSE_SUCCESS); [reflexivity|].
    apply Z.eqb_neq. exact Hcause. }
  unfold reject_ue_ctx, _emm_attach_reject.
  change (ue_ctx_addr =? 0) with false. cbv iota.
  expose_state s. mred in *. munfold. rewrite lookup_insert_eq. mred.
  assert (Hrun : ∀ m0 : memory,
    ctx_heap m0 = <[ue_ctx_addr := set_emm_cause cause' u]> ch →
    data_heap m0 = dh → ctx_coll_ue_id m0 = ue_idx →
    ∃ rc m',
      emm_sap_send E reject m0 = (rc, m')
      ∧ data_heap m' = dh ∧ ctx_coll_ue_id m' = ue_idx
      ∧ (∃ st, ctx_heap m' !! ue_ctx_addr
               = Some (set_emm_fsm_status st (set_emm_cause cause' u)))
      ∧ ∀ p c, ch !! p = Some c →
               ∃ st, delete ue_ctx_addr (ctx_heap m') !! p = Some (set_emm_fsm_status st c)).
  { intros m0 H0 H1 H2.
    pose proof (proj1 (proj2 Hw) reject m0) as (Hdh & Hidx & Hctx).
    destruct (emm_sap_send E reject m0) as [rc m'] eqn:Hsend. cbn [snd] in *.
    exists rc, m'. split; [reflexivity|]. split; [congruence|]. split; [congruence|].
    split.
    - apply Hctx. rewrite H0. apply lookup_insert_eq.
    - intros p c Hp.
      assert (Hne : p ≠ ue_ctx_addr) by (intros ->; congruence).
      destruct (Hctx p c) as [st Hst].
      + rewrite H0, lookup_insert_ne by congruence. exact Hp.
      + exists st. rewrite lookup_delete_ne by congruence. exact Hst. }
  destruct (Hrun {| ctx_heap := <[ue_ctx_addr := set_emm_cause cause' u]> ch;
                    data_heap := dh; ctx_coll_ue_id := ue_idx;
                    ctx_coll_guti := guti_idx; ext := ex |} eq_refl eq_refl eq_refl)
    as (rc & m' & Hsend & Hdh & Hidx & (st & Htmp) & Hothers).
  clear Hrun.
  exists rc, {| mem := upd_ctx_heap (delete ue_ctx_addr) m'; trace := t ++ [EmmSap reject] |}.
  subst cause' reject. cbn zeta in *.
  destruct (emm_cause u =? EMM_CAUSE_SUCCESS) eqn:Hsucc; mred.
  - unfold upd_ctx_heap. heap_simp.
    change (EMM_CAUSE_ILLEGAL_UE =? EMM_CAUSE_ESM_FAILURE) with false. heap_simp.
    rewrite Hsend. mred.
    rewrite Htmp. mred. rewrite Hdyn. change (nonzero FALSE) with false. cbv iota.
    destruct m'. mred in *.
    split; [reflexivity|]. split; [reflexivity|]. split; [reflexivity|].
    split; [exact Hdh|]. split; [exact Hidx|].
    split; [apply lookup_delete_eq | exact Hothers].
  - unfold upd_ctx_heap. heap_simp.
    rewrite Hesm. heap_simp. rewrite set_same_cause in Hsend, Htmp.
    rewrite set_same_cause, Hsend. mred.
    rewrite Htmp. mred. rewrite Hdyn. change (nonzero FALSE) with false. cbv iota.
    destruct m'. mred in *.
    split; [reflexivity|]. split; [reflexivity|].
    split; [reflexivity|].
    split; [exact Hdh|]. split; [exact Hidx|].
    split; [apply lookup_delete_eq | exact Hothers].
Qed.

(** The admission tests of [emm_proc_attach_request].  A request that
    fails them (UE identifier out of range in a build without
    [NAS_BUILT_IN_EPC]: cause [EMM_CAUSE_ILLEGAL_UE]; emergency type while
    emergency attach is not enabled: cause [EMM_CAUSE_IMEI_NOT_ACCEPTED])
    is answered by one ATTACH REJECT with that cause, no ESM message and no
    security context, and by nothing else: the status returned is that of
    the EMM-SAP, no context is created, looked up or released, whatever
    the UE already has in the store. *)
Theorem unadmitted_request_is_rejected (C : config) (E : environment) fuel r s :
  fsm_only E →
  ctx_heap (mem s) !! ue_ctx_addr = None →
  ¬ admitted C r →
  let cause :=
    if negb (NAS_BUILT_IN_EPC C) && (EMM_DATA_NB_UE_MAX C <=? req_ueid r)
    then EMM_CAUSE_ILLEGAL_UE else EMM_CAUSE_IMEI_NOT_ACCEPTED in
  let reject := EMMAS_ESTABLISH_REJ (req_ueid r) cause OctetString_empty None in
  ∃ rc s',
    emm_proc_attach_request C E (S fuel) r s = Done rc s'
    ∧ rc = (emm_sap_send E reject
              (upd_ctx_heap (insert ue_ctx_addr (temporary_ue_ctx (req_ueid r) cause))
                 (mem s))).1
    ∧ trace s' = trace s ++ [EmmSap reject]
    ∧ data_heap (mem s') = data_heap (mem s)
    ∧ ctx_coll_ue_id (mem s') = ctx_coll_ue_id (mem s)
    ∧ ∀ p c, ctx_heap (mem s) !! p = Some c →
             ∃ st, ctx_heap (mem s') !! p = Some (set_emm_fsm_status st c).
Proof.
  intros Hw Hfree Hno cause reject.
  assert (Hguard :
    (negb (NAS_BUILT_IN_EPC C) && (EMM_DATA_NB_UE_MAX C <=? req_ueid r)) = true
    ∨ ((negb (NAS_BUILT_IN_EPC C) && (EMM_DATA_NB_UE_MAX C <=? req_ueid r)) = false
       ∧ ((Z.land (features C) MME_API_EMERGENCY_ATTACH =? 0)
          && bool_decide (req_type r = EMM_ATTACH_TYPE_EMERGENCY)) = true)).
  { unfold admitted in Hno.
    destruct (negb (NAS_BUILT_IN_EPC C) && (EMM_DATA_NB_UE_MAX C <=? req_ueid r));
      [left; reflexivity|].
    destruct ((Z.land (features C) MME_API_EMERGENCY_ATTACH =? 0)
              && bool_decide (req_type r = EMM_ATTACH_TYPE_EMERGENCY));
      [right; split; reflexivity | exfalso; apply Hno; split; reflexivity]. }
  assert (Hbody : emm_proc_attach_request C E (S fuel) r s
                  = reject_ue_ctx C E (temporary_ue_ctx (req_ueid r) cause) s).
  { cbn [emm_proc_attach_request]. unfold emm_proc_attach_request_body. cbv zeta.
    subst cause. destruct Hguard as [-> | [-> ->]]; reflexivity. }
  assert (Hne : cause ≠ EMM_CAUSE_ESM_FAILURE ∧ (cause =? EMM_CAUSE_SUCCESS) = false).
  { subst cause.
    destruct (negb (NAS_BUILT_IN_EPC C) && (EMM_DATA_NB_UE_MAX C <=? req_ueid r));
      split; (discriminate || reflexivity). }
  destruct Hne as [Hesm Hsucc].
  destruct (reject_ue_ctx_sends C E (temporary_ue_ctx (req_ueid r) cause) s Hw Hfree
              eq_refl Hesm)
    as (rc & s' & Hrun & Hrc & Htr & Hdh & Hidx & _ & Hctx).
  cbn [emm_cause ueid security temporary_ue_ctx set_emm_cause set_ueid set_is_dynamic
       emm_ctx_zero] in Hrc, Htr.
  rewrite Hsucc in Hrc, Htr.
  exists rc, s'. rewrite Hbody. split; [exact Hrun|]. split; [exact Hrc|].
  split; [exact Htr|]. split; [exact Hdh|]. split; [exact Hidx | exact Hctx].
Qed.

Lemma unadmitted_request_is_rejected_witness :
  ∃ rc s' st,
    emm_proc_attach_request (epc_config 0) fsm_env 1 (request_emergency_imei 7)
      (state_with_context 16 attached_context) = Done rc s'
    ∧ trace s' = [EmmSap (EMMAS_ESTABLISH_REJ 7 EMM_CAUSE_IMEI_NOT_ACCEPTED
                            OctetString_empty None)]
    ∧ ctx_heap (mem s') !! 16 = Some (set_emm_fsm_status st attached_context).
Proof.
  destruct (unadmitted_request_is_rejected (epc_config 0) fsm_env 0
              (request_emergency_imei 7) (state_with_context 16 attached_context))
    as (rc & s' & Hrun & _ & Htr & _ & _ & Hctx).
  - exact fsm_env_fsm_only.
  - reflexivity.
  - intros [_ H]. vm_compute in H. discriminate H.
  - destruct (Hctx 16 attached_context eq_refl) as [st Hst].
    exists rc, s', st. split; [exact Hrun|]. split; [exact Htr | exact Hst].
Defined.

(** [emm_proc_attach_reject]: the protocol error abnormal case.  One ATTACH
    REJECT is sent with the cause given, where [EMM_CAUSE_ILLEGAL_UE]
    stands in when the UE identifier is not valid or when the cause given
    is the sentinel [EMM_CAUSE_SUCCESS]; the status is that of the EMM-SAP
    and no context is created or released.  The cause
    [EMM_CAUSE_ESM_FAILURE] is the exception: the temporary context has no
    ESM message, so nothing is sent, the state is as before and the status
    is [RETURNerror]. *)
Theorem attach_reject_reports_the_cause (C : config) (E : environment) ue cause s :
  fsm_only E →
  ctx_heap (mem s) !! ue_ctx_addr = None →
  let valid := if NAS_BUILT_IN_EPC C then 0 <? ue else ue <? EMM_DATA_NB_UE_MAX C in
  let reported :=
    if valid && negb (cause =? EMM_CAUSE_SUCCESS) then cause else EMM_CAUSE_ILLEGAL_UE in
  let reject := EMMAS_ESTABLISH_REJ ue reported OctetString_empty None in
  (valid = true ∧ cause = EMM_CAUSE_ESM_FAILURE →
     emm_proc_attach_reject C E ue cause s = Done RETURNerror s)
  ∧ (¬ (valid = true ∧ cause = EMM_CAUSE_ESM_FAILURE) →
     ∃ rc s',
       emm_proc_attach_reject C E ue cause s = Done rc s'
       ∧ rc = (emm_sap_send E reject
                 (upd_ctx_heap (insert ue_ctx_addr (temporary_ue_ctx ue reported)) (mem s))).1
       ∧ trace s' = trace s ++ [EmmSap reject]
       ∧ data_heap (mem s') = data_heap (mem s)
       ∧ ctx_coll_ue_id (mem s') = ctx_coll_ue_id (mem s)
       ∧ ∀ p c, ctx_heap (mem s) !! p = Some c →
                ∃ st, ctx_heap (mem s') !! p = Some (set_emm_fsm_status st c)).
Proof.
  intros Hw Hfree valid reported reject. unfold emm_proc_attach_reject. fold valid.
  split.
  - intros [-> ->]. unfold reject_ue_ctx, _emm_attach_reject.
    change (ue_ctx_addr =? 0) with false. cbv iota.
    expose_state s. mred in *. munfold. unfold upd_ctx_heap, temporary_ue_ctx, emm_ctx_zero.
    heap_simp. change (EMM_CAUSE_ESM_FAILURE =? EMM_CAUSE_SUCCESS) with false. heap_simp.
    change (EMM_CAUSE_ESM_FAILURE =? EMM_CAUSE_ESM_FAILURE) with true. heap_simp.
    change (0 <? os_length OctetString_empty) with false. heap_simp.
    rewrite delete_insert_id by exact Hfree. reflexivity.
  - intros Hgood.
    set (c0 := if valid then cause else EMM_CAUSE_ILLEGAL_UE).
    assert (Hesm : c0 ≠ EMM_CAUSE_ESM_FAILURE).
    { subst c0. destruct valid; [|discriminate]. intros ->. apply Hgood. split; reflexivity. }
    assert (Hrep : (if c0 =? EMM_CAUSE_SUCCESS then EMM_CAUSE_ILLEGAL_UE else c0) = reported).
    { subst c0 reported. destruct valid; cbn [andb]; [|reflexivity].
      destruct (cause =? EMM_CAUSE_SUCCESS); reflexivity. }
    destruct (reject_ue_ctx_sends C E (temporary_ue_ctx ue c0) s Hw Hfree eq_refl Hesm)
      as (rc & s' & Hrun & Hrc & Htr & Hdh & Hidx & _ & Hctx).
    cbn [emm_cause ueid security temporary_ue_ctx set_emm_cause set_ueid set_is_dynamic
         emm_ctx_zero] in Hrc, Htr.
    rewrite Hrep in Hrc, Htr.
    exists rc, s'. split; [exact Hrun|]. split; [exact Hrc|].
    split; [exact Htr|]. split; [exact Hdh|]. split; [exact Hidx | exact Hctx].
Qed.

Lemma attach_reject_reports_the_cause_witness :
  emm_proc_attach_reject (epc_config 0) fsm_env 7 EMM_CAUSE_ESM_FAILURE empty_state
  = Done RETURNerror empty_state
  ∧ ∃ rc s',
      emm_proc_attach_reject (epc_config 0) fsm_env 7 EMM_CAUSE_SUCCESS empty_state
      = Done rc s'
      ∧ trace s' = [EmmSap (EMMAS_ESTABLISH_REJ 7 EMM_CAUSE_ILLEGAL_UE
                              OctetString_empty None)].
Proof.
  split.
  - apply (attach_reject_reports_the_cause (epc_config 0) fsm_env 7 EMM_CAUSE_ESM_FAILURE
             empty_state fsm_env_fsm_only eq_refl).
    split; reflexivity.
  - destruct (proj2 (attach_reject_reports_the_cause (epc_config 0) fsm_env 7
                       EMM_CAUSE_SUCCESS empty_state fsm_env_fsm_only eq_refl))
      as (rc & s' & Hrun & _ & Htr & _).
    + intros [_ H]. discriminate H.
    + exists rc, s'. split; [exact Hrun | exact Htr].
Defined.

(** When [calloc] gives no memory for the context of an unknown UE (build
    with [NAS_BUILT_IN_EPC]; no context under the UE identifier nor under
    the GUTI of the request), the request is answered by one ATTACH REJECT
    with cause [EMM_CAUSE_ILLEGAL_UE]; nothing is stored for the UE. *)
Theorem attach_request_without_memory_is_rejected (C : config) (E : environment)
    fuel r s :
  fsm_only E →
  ctx_heap (mem s) !! ue_ctx_addr = None →
  NAS_BUILT_IN_EPC C = true →
  admitted C r →
  ctx_coll_ue_id (mem s) !! req_ueid r = None →
  (∀ g, req_guti r = Some g → guti_lookup g (ctx_coll_guti (mem s)) = None) →
  allocate E alloc_emm_ctx (mem s) = 0 →
  let reject := EMMAS_ESTABLISH_REJ (req_ueid r) EMM_CAUSE_ILLEGAL_UE OctetString_empty None in
  ∃ rc s',
    emm_proc_attach_request C E (S fuel) r s = Done rc s'
    ∧ trace s' = trace s ++ [EmmSap reject]
    ∧ data_heap (mem s') = data_heap (mem s)
    ∧ ctx_coll_ue_id (mem s') = ctx_coll_ue_id (mem s)
    ∧ ∀ p c, ctx_heap (mem s) !! p = Some c →
             ∃ st, ctx_heap (mem s') !! p = Some (set_emm_fsm_status st c).
Proof.
  intros Hw Hfree Hepc [Hid Hem] Hnone Hguti Halloc reject.
  assert (Hbody : emm_proc_attach_request C E (S fuel) r s
                  = reject_ue_ctx C E
                      (temporary_ue_ctx (req_ueid r) EMM_CAUSE_ILLEGAL_UE) s).
  { cbn [emm_proc_attach_request]. unfold emm_proc_attach_request_body.
    rewrite Hid, Hem, Hepc. cbv zeta.
    rewrite (run_bind _ _ _ _ _ (run_emm_data_context_get (req_ueid r) s)).
    rewrite Hnone. cbn [default from_option Datatypes.id].
    change (nonzero 0) with false. cbv iota.
    rewrite (run_bind (ret false) _ _ _ _ eq_refl).
    assert (Hrebind : rebind_by_guti E (req_ueid r) 0 (req_guti r) s = Done (0, false) s).
    { unfold rebind_by_guti. change (0 =? 0) with true. cbv iota.
      destruct (req_guti r) as [g|] eqn:Hg; [|reflexivity].
      unfold emm_data_context_get_by_guti, bind, get_mem.
      rewrite (Hguti g eq_refl). reflexivity. }
    rewrite (run_bind _ _ _ _ _ Hrebind).
    unfold attach_with_context. cbn [negb].
    assert (Hcreate : create_context C E (req_ueid r) s = Done 0 s).
    { unfold create_context. rewrite Hepc.
      rewrite (run_bind _ _ _ _ _ (run_malloc E alloc_emm_ctx s)), Halloc.
      reflexivity. }
    rewrite (run_bind _ _ _ _ _ Hcreate). reflexivity. }
  destruct (reject_ue_ctx_sends C E (temporary_ue_ctx (req_ueid r) EMM_CAUSE_ILLEGAL_UE) s
              Hw Hfree eq_refl)
    as (rc & s' & Hrun & _ & Htr & Hdh & Hidx & _ & Hctx); [discriminate|].
  exists rc, s'. rewrite Hbody. split; [exact Hrun|]. split; [exact Htr|].
  split; [exact Hdh|]. split; [exact Hidx | exact Hctx].
Qed.

Lemma reference_env_fsm_only fsm rc answer len ok :
  fsm_only (reference_env fsm rc answer len ok).
Proof.
  assert (Hrefl : ∀ m, status_only m m).
  { intros m. split; [reflexivity|]. split; [reflexivity|]. intros q c Hc.
    exists (_emm_fsm_status c). rewrite set_same_status. exact Hc. }
  split; [|split].
  - intros prim m. apply Hrefl.
  - intros prim m. destruct fsm; [|apply Hrefl].
    destruct prim; cbn; first [apply set_status_at_status_only | apply Hrefl].
  - intros c m. destruct c; cbn; try apply Hrefl.
    split; [reflexivity|]. split; [reflexivity|]. apply (Hrefl m).
Qed.

Lemma attach_request_without_memory_is_rejected_witness :
  ∃ rc s',
    emm_proc_attach_request (epc_config 0) no_memory_env 1 (request_imsi 7) empty_state
    = Done rc s'
    ∧ trace s' = [EmmSap (EMMAS_ESTABLISH_REJ 7 EMM_CAUSE_ILLEGAL_UE OctetString_empty None)]
    ∧ ctx_coll_ue_id (mem s') = ∅.
Proof.
  destruct (attach_request_without_memory_is_rejected (epc_config 0) no_memory_env 0
              (request_imsi 7) empty_state)
    as (rc & s' & Hrun & Htr & _ & Hidx & _).
  - apply reference_env_fsm_only.
  - reflexivity.
  - reflexivity.
  - split; reflexivity.
  - reflexivity.
  - intros g Hg. discriminate Hg.
  - reflexivity.
  - exists rc, s'. split; [exact Hrun|]. split; [exact Htr | exact Hidx].
Defined.

(** ** The release of a context: [_emm_attach_release] *)

(* Settle the tests on the timers by the cases at hand. *)
Ltac timers :=
  unfold timers_stopped, timer_stopped;
  repeat match goal with
         | H : negb (?a =? ?b) = true |- _ => apply negb_true_iff in H
         | H : negb (?a =? ?b) = false |- _ => apply negb_false_iff in H
         end;
  repeat match goal with
         | H : (?a =? ?b) = _ |- context [?a =? ?b] => rewrite H
         end;
  cbn [app]; rewrite <- ?app_assoc; cbn [app].

(* As [fsm_call], keeping the equation of a call to the EMM-SAP. *)
Ltac fsm_call_eq Hw p :=
  let Hs := fresh "Hs" in
  let Hctx := fresh "Hctx" in
  match goal with
  | |- context [api ?E ?c ?m] =>
      pose proof (proj2 (proj2 Hw) c m) as Hs;
      destruct (api E c m) as [? [? ? ? ? ?]]
  | |- context [emm_sap_send ?E ?c ?m] =>
      pose proof (proj1 (proj2 Hw) c m) as Hs;
      destruct (emm_sap_send E c m) as [? [? ? ? ? ?]] eqn:Hsend
  | |- context [esm_sap_send ?E ?c ?m] =>
      pose proof (proj1 Hw c m) as Hs;
      destruct (esm_sap_send E c m) as [[[? ?] ?] [? ? ? ? ?]] eqn:?
  end;
  unfold status_only in Hs; mred in Hs; destruct Hs as (-> & -> & Hctx);
  let st := fresh "st" in
  let Hc := fresh "Hc" in
  first
    [ edestruct (Hctx p) as [st Hc];
      [ first [apply lookup_insert_eq | eassumption] | clear Hctx; mred in Hc ]
    | clear Hctx ];
  mred.

Lemma emm_attach_release_effect (C : config) (E : environment) p s c :
  fsm_only E →
  p ≠ 0 →
  ctx_heap (mem s) !! p = Some c →
  ctx_coll_ue_id (mem s) !! ueid c = Some p →
  ∃ rc s',
    _emm_attach_release C E p s = Done rc s'
    ∧ trace s' = trace s ++ timers_stopped c ++ [EmmSap (EMMREG_PROC_ABORT (ueid c) p)]
    ∧ data_heap (mem s') = data_heap (mem s)
    ∧ ctx_coll_ue_id (mem s') = delete (ueid c) (ctx_coll_ue_id (mem s))
    ∧ (∃ prim m, rc = (emm_sap_send E prim m).1)
    ∧ (if NAS_BUILT_IN_EPC C
       then ∃ c', ctx_heap (mem s') !! p = Some c'
                  ∧ guti c' = None ∧ imsi c' = None ∧ imei c' = None
                  ∧ security c' = None
       else ∃ m, ctx_heap m !! p = None
                 ∧ emm_sap_send E (EMMREG_PROC_ABORT (ueid c) p) m = (rc, mem s')).
Proof.
  intros Hq Hp Hc Hidx. unfold _emm_attach_release.
  rewrite (Z_eqb_false _ _ Hp). apply nonzero_true in Hp.
  expose_state s. mred in *. munfold.
  repeat first [ progress msimp | fsm_call_eq Hq p | mstep ].
  all: repeat match goal with
              | H : context [if 0 <? ?x then _ else _] |- _ => destruct (0 <? x)
              end; mred in *.
  all: eexists _, _; split; [reflexivity|]; mred.
  all: split; [timers; reflexivity|].
  all: split; [reflexivity|].
  all: split; [reflexivity|].
  all: split; [eexists _, _; rewrite Hsend; reflexivity|].
  all: first [ eexists; split; [eassumption|]; mred; repeat split; reflexivity
             | eexists; split; [|exact Hsend]; mred; apply lookup_delete_eq ].
Qed.

(** What the release of a context does.  Called on NULL it returns
    [RETURNerror] and does nothing.  Called on a live context that the
    index has under its UE identifier, with collaborators that change at
    most the status of a context, it ends: it stops each of T3450, T3460,
    T3470 that is active, and no other timer; takes the UE identifier out
    of the index; notifies EMM with [EMMREG_PROC_ABORT] as the last thing
    it does; leaves the retransmission buffers alone.  With
    [NAS_BUILT_IN_EPC] the context object stays, without GUTI, IMSI, IMEI
    and security context; without it the object is freed before the
    notification, which still carries its address. *)
Theorem release_stops_timers_and_unindexes (C : config) (E : environment) p s c :
  fsm_only E →
  p ≠ 0 →
  ctx_heap (mem s) !! p = Some c →
  ctx_coll_ue_id (mem s) !! ueid c = Some p →
  _emm_attach_release C E 0 s = Done RETURNerror s
  ∧ ∃ rc s',
      _emm_attach_release C E p s = Done rc s'
      ∧ trace s' = trace s ++ timers_stopped c ++ [EmmSap (EMMREG_PROC_ABORT (ueid c) p)]
      ∧ data_heap (mem s') = data_heap (mem s)
      ∧ ctx_coll_ue_id (mem s') !! ueid c = None
      ∧ (∀ ue, ue ≠ ueid c → ctx_coll_ue_id (mem s') !! ue = ctx_coll_ue_id (mem s) !! ue)
      ∧ (if NAS_BUILT_IN_EPC C
         then ∃ c', ctx_heap (mem s') !! p = Some c'
                    ∧ guti c' = None ∧ imsi c' = None ∧ imei c' = None
                    ∧ security c' = None
         else ∃ m, ctx_heap m !! p = None
                   ∧ emm_sap_send E (EMMREG_PROC_ABORT (ueid c) p) m = (rc, mem s')).
Proof.
  intros Hw Hp Hc Hidx. split; [reflexivity|].
  destruct (emm_attach_release_effect C E p s c Hw Hp Hc Hidx)
    as (rc & s' & Hrun & Htr & Hdh & Hix & _ & Hobj).
  exists rc, s'. split; [exact Hrun|]. split; [exact Htr|]. split; [exact Hdh|].
  split; [rewrite Hix; apply lookup_delete_eq|].
  split; [intros ue Hue; rewrite Hix; apply lookup_delete_ne; congruence | exact Hobj].
Qed.

Lemma release_stops_timers_and_unindexes_witness :
  ∃ rc s',
    _emm_attach_release (epc_config 0) fsm_env 16 (state_with_context 16 attaching_context)
    = Done rc s'
    ∧ trace s' = [Api (nas_timer_stop 1); EmmSap (EMMREG_PROC_ABORT 7 16)]
    ∧ ctx_coll_ue_id (mem s') !! 7 = None.
Proof.
  destruct (release_stops_timers_and_unindexes (epc_config 0) fsm_env 16
              (state_with_context 16 attaching_context) attaching_context)
    as (_ & rc & s' & Hrun & Htr & _ & Hidx & _).
  - exact fsm_env_fsm_only.
  - discriminate.
  - reflexivity.
  - reflexivity.
  - exists rc, s'. split; [exact Hrun|]. split; [exact Htr | exact Hidx].
Defined.

(** ** The reject of an attach on a context of the store *)

(* The run of [_emm_attach_reject] when it gets to sending the reject. *)
Lemma emm_attach_reject_effect (C : config) (E : environment) p s c :
  fsm_only E →
  p ≠ 0 →
  ctx_heap (mem s) !! p = Some c →
  ctx_coll_ue_id (mem s) !! ueid c = Some p →
  ¬ (emm_cause c = EMM_CAUSE_ESM_FAILURE ∧ os_length (esm_msg c) ≤ 0) →
  let cause :=
    if emm_cause c =? EMM_CAUSE_SUCCESS then EMM_CAUSE_ILLEGAL_UE else emm_cause c in
  let payload :=
    if cause =? EMM_CAUSE_ESM_FAILURE then esm_msg c else OctetString_empty in
  let reject := EMMAS_ESTABLISH_REJ (ueid c) cause payload (security c) in
  ∃ rc s',
    _emm_attach_reject C E p s = Done rc s'
    ∧ trace s' =
        trace s ++ EmmSap reject ::
          (if nonzero (is_dynamic c)
           then timers_stopped c ++ [EmmSap (EMMREG_PROC_ABORT (ueid c) p)]
           else [])
    ∧ data_heap (mem s') = data_heap (mem s)
    ∧ ctx_coll_ue_id (mem s') =
        (if nonzero (is_dynamic c) then delete (ueid c) (ctx_coll_ue_id (mem s))
         else ctx_coll_ue_id (mem s))
    ∧ ∃ prim m, rc = (emm_sap_send E prim m).1.
Proof.
  intros Hw Hp Hc Hidx Hpdu cause payload reject.
  unfold _emm_attach_reject. rewrite (Z_eqb_false _ _ Hp).
  expose_state s. mred in *. munfold. rewrite Hc. mred.
  assert (Hrelease : ∀ st tr ch' gi' ex' c0,
    ch' !! p = Some (set_emm_fsm_status st (set_emm_cause c0 c)) →
    ∃ rc s',
      _emm_attach_release C E p
        {| mem := {| ctx_heap := ch'; data_heap := dh; ctx_coll_ue_id := ue_idx;
                     ctx_coll_guti := gi'; ext := ex' |};
           trace := tr |} = Done rc s'
      ∧ trace s' = tr ++ timers_stopped c ++ [EmmSap (EMMREG_PROC_ABORT (ueid c) p)]
      ∧ data_heap (mem s') = dh
      ∧ ctx_coll_ue_id (mem s') = delete (ueid c) ue_idx
      ∧ ∃ prim m, rc = (emm_sap_send E prim m).1).
  { intros st tr ch' gi' ex' c0 Hlive.
    destruct (emm_attach_release_effect C E p
                {| mem := {| ctx_heap := ch'; data_heap := dh; ctx_coll_ue_id := ue_idx;
                             ctx_coll_guti := gi'; ext := ex' |};
                   trace := tr |}
                (set_emm_fsm_status st (set_emm_cause c0 c)) Hw Hp Hlive Hidx)
      as (rc & s' & Hrun & Htr & Hdh & Hix & Hrc & _).
    exists rc, s'. split; [exact Hrun|]. split; [exact Htr|]. split; [exact Hdh|].
    split; [exact Hix | exact Hrc]. }
  apply nonzero_true in Hp.
  subst cause payload reject. cbv zeta.
  destruct (emm_cause c =? EMM_CAUSE_SUCCESS) eqn:Hsucc; mred.
  - msimp.
    change (EMM_CAUSE_ILLEGAL_UE =? EMM_CAUSE_ESM_FAILURE) with false. msimp.
    fsm_call_eq Hw p.
    rewrite Hc0. mred.
    destruct (nonzero (is_dynamic c)); mred.
    + edestruct Hrelease as (rc & s' & Hrun & Htr & Hdh & Hix & Hrc); [exact Hc0|].
      exists rc, s'. rewrite Hrun, Htr, <- app_assoc. auto 6.
    + eexists _, _. split; [reflexivity|]. mred.
      do 3 (split; [reflexivity|]). eexists _, _. rewrite Hsend. reflexivity.
  - msimp. destruct (emm_cause c =? EMM_CAUSE_ESM_FAILURE) eqn:Hesm; mred.
    + destruct (Z.ltb_spec 0 (os_length (esm_msg c))) as [Hlen|Hlen];
        [|exfalso; apply Hpdu; split; [apply Z.eqb_eq; exact Hesm | exact Hlen]].
      msimp. fsm_call_eq Hw p. rewrite Hc0. mred.
      rewrite <- (set_same_cause c) in Hc0.
      destruct (nonzero (is_dynamic c)); mred.
      * edestruct Hrelease as (rc & s' & Hrun & Htr & Hdh & Hix & Hrc); [exact Hc0|].
        exists rc, s'. rewrite Hrun, Htr, <- app_assoc. auto 6.
      * eexists _, _. split; [reflexivity|]. mred.
      do 3 (split; [reflexivity|]). eexists _, _. rewrite Hsend. reflexivity.
    + msimp. fsm_call_eq Hw p. rewrite Hc0. mred.
      rewrite <- (set_same_cause c) in Hc0.
      destruct (nonzero (is_dynamic c)); mred.
      * edestruct Hrelease as (rc & s' & Hrun & Htr & Hdh & Hix & Hrc); [exact Hc0|].
        exists rc, s'. rewrite Hrun, Htr, <- app_assoc. auto 6.
      * eexists _, _. split; [reflexivity|]. mred.
      do 3 (split; [reflexivity|]). eexists _, _. rewrite Hsend. reflexivity.
Qed.

(** [_emm_attach_reject] on a live context, but for the case of an ESM
    failure without ESM message: the cause [EMM_CAUSE_SUCCESS] is replaced
    by [EMM_CAUSE_ILLEGAL_UE]; one ATTACH REJECT is sent with the cause and
    the security context of the context, and with the stored ESM message
    exactly when the cause is [EMM_CAUSE_ESM_FAILURE]; then a dynamic
    context is released (timers stopped, UE identifier out of the index,
    [EMMREG_PROC_ABORT]) whatever the EMM-SAP answered to the reject, and a
    context that is not dynamic is left in the store. *)
Theorem attach_reject_sends_and_releases (C : config) (E : environment) p s c :
  fsm_only E →
  p ≠ 0 →
  ctx_heap (mem s) !! p = Some c →
  ctx_coll_ue_id (mem s) !! ueid c = Some p →
  ¬ (emm_cause c = EMM_CAUSE_ESM_FAILURE ∧ os_length (esm_msg c) ≤ 0) →
  let cause :=
    if emm_cause c =? EMM_CAUSE_SUCCESS then EMM_CAUSE_ILLEGAL_UE else emm_cause c in
  let payload :=
    if cause =? EMM_CAUSE_ESM_FAILURE then esm_msg c else OctetString_empty in
  let reject := EMMAS_ESTABLISH_REJ (ueid c) cause payload (security c) in
  ∃ rc s',
    _emm_attach_reject C E p s = Done rc s'
    ∧ trace s' =
        trace s ++ EmmSap reject ::
          (if nonzero (is_dynamic c)
           then timers_stopped c ++ [EmmSap (EMMREG_PROC_ABORT (ueid c) p)]
           else [])
    ∧ data_heap (mem s') = data_heap (mem s)
    ∧ ctx_coll_ue_id (mem s') =
        (if nonzero (is_dynamic c) then delete (ueid c) (ctx_coll_ue_id (mem s))
         else ctx_coll_ue_id (mem s)).
Proof.
  intros Hw Hp Hc Hidx Hpdu cause payload reject.
  destruct (emm_attach_reject_effect C E p s c Hw Hp Hc Hidx Hpdu)
    as (rc & s' & Hrun & Htr & Hdh & Hix & _).
  exists rc, s'. split; [exact Hrun|]. split; [exact Htr|]. split; [exact Hdh | exact Hix].
Qed.

Lemma attach_reject_sends_and_releases_witness :
  ∃ rc s',
    _emm_attach_reject (epc_config 0) fsm_env 16
      (state_with_context 16 (set_esm_msg pdn_connectivity_request esm_failed_context))
    = Done rc s'
    ∧ trace s' = [EmmSap (EMMAS_ESTABLISH_REJ 7 EMM_CAUSE_ESM_FAILURE
                            pdn_connectivity_request None);
                  EmmSap (EMMREG_PROC_ABORT 7 16)]
    ∧ ctx_coll_ue_id (mem s') = ∅.
Proof.
  destruct (attach_reject_sends_and_releases (epc_config 0) fsm_env 16
              (state_with_context 16 (set_esm_msg pdn_connectivity_request esm_failed_context))
              (set_esm_msg pdn_connectivity_request esm_failed_context))
    as (rc & s' & Hrun & Htr & _ & Hidx).
  - exact fsm_env_fsm_only.
  - discriminate.
  - reflexivity.
  - reflexivity.
  - intros [_ Hlen]. vm_compute in Hlen. apply Hlen. reflexivity.
  - exists rc, s'. split; [exact Hrun|]. split; [exact Htr|].
    rewrite Hidx. vm_compute. reflexivity.
Defined.

(** ** The ATTACH ACCEPT and its timer: [_emm_attach_accept] *)

(** An expiry of T3450 for a UE whose context is no longer in the index
    (the timer was not stopped when the context went away): below the
    bound the handler only counts.  It sends nothing, calls no
    collaborator and therefore does not start the timer again. *)
Theorem t3450_expiry_without_context (C : config) (E : environment) data s d :
  data_heap (mem s) !! data = Some d →
  ctx_coll_ue_id (mem s) !! ad_ueid d = None →
  0 ≤ retransmission_count d < ATTACH_COUNTER_MAX - 1 →
  _emm_attach_t3450_handler C E data s =
    Done tt {| mem := upd_data_heap
                        (insert data {| ad_ueid := ad_ueid d;
                                        retransmission_count := retransmission_count d + 1;
                                        ad_esm_msg := ad_esm_msg d |}) (mem s);
               trace := trace s |}.
Proof.
  intros Hd Hidx Hn. unfold ATTACH_COUNTER_MAX in Hn.
  rewrite (t3450_handler_step C E data s d Hd), Hidx.
  rewrite uint32_small by lia.
  replace (retransmission_count d + 1 <? ATTACH_COUNTER_MAX) with true
    by (symmetry; apply Z.ltb_lt; unfold ATTACH_COUNTER_MAX; lia).
  reflexivity.
Qed.

Lemma t3450_expiry_without_context_witness :
  ∃ s',
    _emm_attach_t3450_handler (epc_config 0) fsm_env 1
      {| mem := upd_coll_ue_id (delete 7) (mem retransmission_state); trace := [] |}
    = Done tt s'
    ∧ trace s' = []
    ∧ data_heap (mem s') !! 1 =
        Some {| ad_ueid := 7; retransmission_count := 1;
                ad_esm_msg := activate_default_bearer_request |}.
Proof.
  eexists. split.
  - apply (t3450_expiry_without_context (epc_config 0) fsm_env 1
             {| mem := upd_coll_ue_id (delete 7) (mem retransmission_state); trace := [] |}
             {| ad_ueid := 7; retransmission_count := 0;
                ad_esm_msg := activate_default_bearer_request |}).
    + reflexivity.
    + reflexivity.
    + unfold ATTACH_COUNTER_MAX. cbn. lia.
  - split; reflexivity.
Defined.

(** ** The identification of the UE: [_emm_attach_identify] *)

(** A UE that identifies itself by a GUTI (its context has no IMSI) is
    always asked for its identity: the answer of [mme_api_identify_guti] is
    not looked at, and the identification procedure is initiated with
    [_emm_attach_identify] as the callback of its success.  When the
    initiation succeeds the function returns [RETURNok] and nothing is
    sent on behalf of the attach; when it fails the cause becomes
    [EMM_CAUSE_ILLEGAL_UE] and the attach is rejected. *)
Theorem guti_attach_always_asks_for_identity (C : config) (E : environment)
    p s c r1 m1 c1 rc m2 :
  ctx_heap (mem s) !! p = Some c →
  imsi c = None →
  guti c ≠ None →
  api E (mme_api_identify_guti (guti c) p) (mem s) = (r1, m1) →
  ctx_heap m1 !! p = Some c1 →
  api E (emm_proc_identification (ueid c1) p CB_emm_attach_identify
           CB_emm_attach_release CB_emm_attach_release) m1 = (rc, m2) →
  let s2 :=
    {| mem := m2;
       trace := trace s ++
                  [Api (mme_api_identify_guti (guti c) p);
                   Api (emm_proc_identification (ueid c1) p CB_emm_attach_identify
                          CB_emm_attach_release CB_emm_attach_release)] |} in
  _emm_attach_identify C E p s =
    if rc =? RETURNok then Done RETURNok s2
    else (let* _ := update_ctx p (set_emm_cause EMM_CAUSE_ILLEGAL_UE) in
          _emm_attach_reject C E p) s2.
Proof.
  intros Hc Hi Hg Hapi1 Hc1 Hapi2 s2. subst s2.
  unfold _emm_attach_identify.
  rewrite (run_bind _ _ _ _ _ (run_load_ctx s p c Hc)).
  rewrite Hi. rewrite bool_decide_eq_false_2 by (intros H; apply H; reflexivity).
  rewrite bool_decide_eq_true_2 by exact Hg.
  unfold call_api at 1. unfold bind at 1. unfold bind at 1. unfold emit at 1.
  unfold run_ext at 1. cbn [mem trace]. rewrite Hapi1.
  unfold bind at 1. unfold load_ctx at 1. cbn [mem trace]. rewrite Hc1.
  unfold call_api at 1. unfold bind at 1. unfold bind at 1. unfold emit at 1.
  unfold run_ext at 1. cbn [mem trace]. rewrite Hapi2. rewrite <- app_assoc. cbn [app].
  destruct (Z.eqb_spec rc RETURNok) as [->|Hrc]; reflexivity.
Qed.

Lemma guti_attach_always_asks_for_identity_witness :
  _emm_attach_identify (epc_config 0) fsm_env 16 (state_with_context 16 identifying_context)
  = Done RETURNok
      {| mem := mem (state_with_context 16 identifying_context);
         trace := [Api (mme_api_identify_guti (Some guti_G) 16);
                   Api (emm_proc_identification 7 16 CB_emm_attach_identify
                          CB_emm_attach_release CB_emm_attach_release)] |}.
Proof.
  apply (guti_attach_always_asks_for_identity (epc_config 0) fsm_env 16
           (state_with_context 16 identifying_context) identifying_context
           RETURNok (mem (state_with_context 16 identifying_context)) identifying_context
           RETURNok (mem (state_with_context 16 identifying_context))).
  - reflexivity.
  - reflexivity.
  - discriminate.
  - reflexivity.
  - reflexivity.
  - reflexivity.
Defined.

(* The context has an IMSI and no security context, in a build with
   [NAS_BUILT_IN_EPC]: the upper layer is asked for authentication vectors
   and the function is over, unless the attach is an emergency one and
   unauthenticated IMSIs are let in. *)
Lemma identify_asks_for_vectors (C : config) (E : environment) p s c r1 m1 c1 :
  NAS_BUILT_IN_EPC C = true →
  ctx_heap (mem s) !! p = Some c →
  imsi c ≠ None →
  security c = None →
  api E (nas_itti_auth_info_req (ueid c) (imsi c) 1) (mem s) = (r1, m1) →
  ctx_heap m1 !! p = Some c1 →
  security c1 = None →
  let s1 := {| mem := m1;
               trace := trace s ++ [Api (nas_itti_auth_info_req (ueid c) (imsi c) 1)] |} in
  _emm_attach_identify C E p s =
    if nonzero (is_emergency c1)
       && nonzero (Z.land (features C) MME_API_UNAUTHENTICATED_IMSI)
    then (let* rc := _emm_attach_security C E p in identify_finish C E p rc) s1
    else Done RETURNok s1.
Proof.
  intros Hepc Hc Hi Hsec Hapi Hc1 Hsec1 s1. subst s1.
  unfold _emm_attach_identify.
  rewrite (run_bind _ _ _ _ _ (run_load_ctx s p c Hc)).
  rewrite bool_decide_eq_true_2 by exact Hi.
  rewrite Hepc, Hsec. rewrite bool_decide_eq_true_2 by reflexivity. cbn [andb].
  unfold call_api at 1. unfold bind at 1. unfold bind at 1. unfold emit at 1.
  unfold run_ext at 1. cbn [mem trace]. rewrite Hapi.
  unfold identify_guti_reallocation. change (negb (RETURNok =? RETURNerror)) with true.
  cbn [andb]. rewrite (run_bind (ret RETURNok) _ _ _ _ eq_refl).
  unfold identify_authentication. change (negb (RETURNok =? RETURNerror)) with true.
  cbv iota.
  set (s1 := {| mem := m1; trace := _ |}).
  assert (Hl : load_ctx p s1 = Done c1 s1) by (apply run_load_ctx; exact Hc1).
  unfold bind at 1. rewrite (run_bind _ _ _ _ _ Hl), Hsec1.
  rewrite bool_decide_eq_false_2 by (intros H; apply H; reflexivity).
  rewrite Hepc. cbn [negb].
  destruct (nonzero (is_emergency c1)
            && nonzero (Z.land (features C) MME_API_UNAUTHENTICATED_IMSI)); reflexivity.
Qed.

(** ** The first Attach Request of a UE *)

(* The creation of the context of a UE that the index does not know. *)
Lemma create_context_fresh (C : config) (E : environment) ue s p :
  NAS_BUILT_IN_EPC C = true →
  allocate E alloc_emm_ctx (mem s) = p →
  p ≠ 0 →
  ctx_coll_ue_id (mem s) !! ue = None →
  create_context C E ue s =
    Done p {| mem := upd_coll_ue_id (insert ue p)
                       (upd_ctx_heap
                          (insert p (set_emm_fsm_status EMM_DEREGISTERED
                                       (emm_ctx_created C ue)))
                          (upd_ctx_heap (insert p (emm_ctx_created C ue)) (mem s)));
              trace := trace s |}.
Proof.
  intros Hepc Hp Hnz Hidx. apply nonzero_true in Hnz.
  unfold create_context. rewrite Hepc. unfold when. cbn [negb].
  rewrite (run_bind _ _ _ _ _ (run_malloc E alloc_emm_ctx s)).
  rewrite (run_bind (ret tt) _ _ _ _ eq_refl).
  rewrite Hp, Hnz.
  rewrite (run_bind (modify_mem _) _ _ _ _ eq_refl).
  unfold emm_fsm_set_status.
  erewrite run_bind by (apply run_update_ctx; cbn [mem ctx_heap upd_ctx_heap];
                        apply lookup_insert_eq).
  unfold emm_data_context_add.
  erewrite (run_bind (bind _ _)); [reflexivity|].
  erewrite run_bind by (apply run_load_ctx; cbn [mem ctx_heap upd_ctx_heap];
                        apply lookup_insert_eq).
  rewrite (run_bind get_mem _ _ _ _ eq_refl).
  cbn [mem ctx_coll_ue_id upd_ctx_heap].
  replace (ueid (set_emm_fsm_status EMM_DEREGISTERED (emm_ctx_created C ue))) with ue
    by reflexivity.
  rewrite Hidx.
  rewrite (run_bind (modify_mem _) _ _ _ _ eq_refl).
  replace (guti (set_emm_fsm_status EMM_DEREGISTERED (emm_ctx_created C ue)))
    with (@None GUTI_t) by reflexivity.
  reflexivity.
Qed.

(** The first Attach Request of a UE, build with [NAS_BUILT_IN_EPC].  The
    request is admitted, carries an IMSI and no GUTI, and is not for
    emergency services; the index has nothing under its UE identifier; no
    allocation fails, and the MNC of the IMSI has 2 or 3 digits.  Then the
    request returns [RETURNok] and all it has asked of the outside is
    authentication vectors for the IMSI: nothing is sent to the UE yet.
    It leaves, at the address [calloc] gave and under the UE identifier in
    the index, a dynamic context that is not attached, holds the IMSI and
    the GUTI synthesized from it, marked as new, and has no security
    context. *)
Theorem first_imsi_attach_asks_for_vectors (C : config) (E : environment)
    fuel r s i p :
  fsm_only E →
  allocation_succeeds E →
  NAS_BUILT_IN_EPC C = true →
  admitted C r →
  req_guti r = None →
  req_imsi r = Some i →
  req_type r ≠ EMM_ATTACH_TYPE_EMERGENCY →
  imsi_mnc_length E i = 2 ∨ imsi_mnc_length E i = 3 →
  ctx_coll_ue_id (mem s) !! req_ueid r = None →
  allocate E alloc_emm_ctx (mem s) = p →
  ∃ s' c',
    emm_proc_attach_request C E (S fuel) r s = Done RETURNok s'
    ∧ trace s' = trace s ++ [Api (nas_itti_auth_info_req (req_ueid r) (Some i) 1)]
    ∧ ctx_coll_ue_id (mem s') = <[ req_ueid r := p ]> (ctx_coll_ue_id (mem s))
    ∧ data_heap (mem s') = data_heap (mem s)
    ∧ ctx_heap (mem s') !! p = Some c'
    ∧ ueid c' = req_ueid r
    ∧ is_dynamic c' = TRUE ∧ is_attached c' = FALSE
    ∧ imsi c' = Some i
    ∧ guti c' = Some (synthesized_guti C p i (imsi_mnc_length E i))
    ∧ guti_is_new c' = TRUE
    ∧ security c' = None.
Proof.
  intros Hw Halloc Hepc [Hid Hem] Hg Hi Htype Hlen Hnone Hp.
  assert (Hnz : p ≠ 0) by (rewrite <- Hp; apply Halloc).
  pose proof (create_context_fresh C E (req_ueid r) s p Hepc Hp Hnz Hnone) as Hcreate.
  set (s1 := {| mem := upd_coll_ue_id (insert (req_ueid r) p) _; trace := trace s |})
    in Hcreate.
  assert (Hch1 : ctx_heap (mem s1)
                 = <[ p := set_emm_fsm_status EMM_DEREGISTERED
                             (emm_ctx_created C (req_ueid r)) ]> (ctx_heap (mem s)))
    by (destruct s as [[]]; cbn; apply insert_insert_eq).
  assert (Hidx1 : ctx_coll_ue_id (mem s1) = <[ req_ueid r := p ]> (ctx_coll_ue_id (mem s)))
    by (destruct s as [[]]; reflexivity).
  assert (Hdh1 : data_heap (mem s1) = data_heap (mem s)) by (destruct s as [[]]; reflexivity).
  assert (Htr1 : trace s1 = trace s) by reflexivity.
  clearbody s1.
  assert (Hbody : emm_proc_attach_request C E (S fuel) r s
                  = attach_update_and_identify C E p r s1).
  { cbn [emm_proc_attach_request]. unfold emm_proc_attach_request_body.
    rewrite Hid, Hem, Hepc, Hg. cbv zeta.
    rewrite (run_bind _ _ _ _ _ (run_emm_data_context_get (req_ueid r) s)).
    rewrite Hnone. cbn [default from_option Datatypes.id].
    change (nonzero 0) with false. cbv iota.
    rewrite (run_bind (ret false) _ _ _ _ eq_refl).
    change (rebind_by_guti E (req_ueid r) 0 None) with (@ret (Z * bool) (0, false)).
    rewrite (run_bind (ret (0, false)) _ _ _ _ eq_refl).
    unfold attach_with_context. cbn [negb].
    rewrite (run_bind _ _ _ _ _ Hcreate).
    apply nonzero_true in Hnz. rewrite Hnz. reflexivity. }
  set (c0 := set_emm_fsm_status EMM_DEREGISTERED (emm_ctx_created C (req_ueid r))) in *.
  (* the tracking area of the request *)
  assert (Htai : ∃ s2 c2,
    (match req_tai r with
     | Some t => update_ctx p (set_tac t)
     | None => ret tt
     end) s1 = Done tt s2
    ∧ ctx_heap (mem s2) !! p = Some c2
    ∧ ctx_coll_ue_id (mem s2) = ctx_coll_ue_id (mem s1)
    ∧ data_heap (mem s2) = data_heap (mem s1)
    ∧ trace s2 = trace s1
    ∧ is_dynamic c2 = TRUE ∧ security c2 = None).
  { assert (Hc0 : ctx_heap (mem s1) !! p = Some c0)
      by (rewrite Hch1; apply lookup_insert_eq).
    destruct (req_tai r) as [t|].
    - rewrite (run_update_ctx s1 p _ c0 Hc0). eexists _, _. split; [reflexivity|].
      destruct s1 as [[]]. cbn. rewrite lookup_insert_eq. auto 10.
    - exists s1, c0. auto 10. }
  destruct Htai as (s2 & c2 & Hrun2 & Hc2 & Hidx2 & Hdh2 & Htr2 & Hdyn2 & Hsec2).
  (* the update of the context *)
  destruct (emm_attach_update_effect C E p (req_ueid r) r s2 c2 Hc2)
    as (rc & s3 & c3 & Hrun3 & Hch3 & (Hdh3 & Hidx3 & _ & Htr3) & Hkept & Hcaps & Hids & _).
  destruct (emm_attach_update_spec C E p (req_ueid r) r s2 c2 Hc2)
    as (rc' & s3' & c3' & Hrun3' & _ & Hc3' & _ & _ & _ & _ & Hsyn).
  rewrite Hrun3 in Hrun3'. injection Hrun3' as <- <-.
  assert (Hc3 : ctx_heap (mem s3) !! p = Some c3) by (rewrite Hch3; apply lookup_insert_eq).
  rewrite Hc3 in Hc3'. injection Hc3' as <-.
  destruct (Hsyn Hg i Hi) as (_ & Hok & Hsucc).
  assert (Hrc : rc = RETURNok) by (apply Hsucc; assumption). subst rc.
  destruct (Hok eq_refl) as (_ & Hguti3 & _ & Hnew3).
  destruct (Hids eq_refl) as (Himsi3 & _ & Hatt3 & _).
  rewrite Hi in Himsi3. cbn [from_option] in Himsi3.
  destruct Hkept as (Hue3 & Hdyn3 & Hsec3 & _).
  destruct Hcaps as (Hem3 & _).
  (* the identification *)
  destruct (api E (nas_itti_auth_info_req (ueid c3) (imsi c3) 1) (mem s3))
    as [r1 m1] eqn:Hapi.
  pose proof (proj2 (proj2 Hw) (nas_itti_auth_info_req (ueid c3) (imsi c3) 1) (mem s3))
    as (Hdh4 & Hidx4 & Hctx4).
  rewrite Hapi in Hdh4, Hidx4, Hctx4. cbn [snd] in Hdh4, Hidx4, Hctx4.
  destruct (Hctx4 p c3 Hc3) as (st & Hc4).
  assert (Hidentify :
    _emm_attach_identify C E p s3 =
      Done RETURNok
        {| mem := m1;
           trace := trace s3 ++ [Api (nas_itti_auth_info_req (ueid c3) (imsi c3) 1)] |}).
  { rewrite (identify_asks_for_vectors C E p s3 c3 r1 m1 (set_emm_fsm_status st c3)
               Hepc Hc3); try assumption.
    - cbn [is_emergency set_emm_fsm_status]. rewrite Hem3. unfold is_emergency_type.
      rewrite decide_False by exact Htype. reflexivity.
    - rewrite Himsi3. discriminate.
    - rewrite Hsec3. exact Hsec2.
    - cbn [security set_emm_fsm_status]. rewrite Hsec3. exact Hsec2. }
  eexists _, (set_emm_fsm_status st c3). rewrite Hbody. unfold attach_update_and_identify.
  rewrite (run_bind _ _ _ _ _ Hrun2), (run_bind _ _ _ _ _ Hrun3).
  change (negb (RETURNok =? RETURNok)) with false. cbv iota.
  rewrite Hidentify. split; [reflexivity|]. cbn [mem trace].
  rewrite Htr3, Htr2, Htr1, Hue3, Himsi3.
  split; [reflexivity|].
  split; [rewrite Hidx4, Hidx3, Hidx2, Hidx1; reflexivity|].
  split; [rewrite Hdh4, Hdh3, Hdh2, Hdh1; reflexivity|].
  split; [exact Hc4|].
  cbn [ueid is_dynamic is_attached imsi guti guti_is_new security set_emm_fsm_status].
  rewrite Hdyn3, Hsec3. auto 12.
Qed.

Lemma next_address_positive {A} (h : gmap Z A) : 0 < next_address h.
Proof.
  unfold next_address.
  assert (H : 0 ≤ map_fold (λ k (_ : A) acc, Z.max k acc) 0 h); [|lia].
  apply (map_fold_weak_ind (λ r _, 0 ≤ r)); [lia|]. intros; lia.
Qed.

Lemma reference_env_allocates fsm rc answer len :
  allocation_succeeds (reference_env fsm rc answer len (λ _, true)).
Proof.
  intros site m. cbn. destruct site;
    first [ pose proof (next_address_positive (ctx_heap m)); lia
          | pose proof (next_address_positive (data_heap m)); lia
          | discriminate ].
Qed.

Lemma first_imsi_attach_asks_for_vectors_witness :
  ∃ s' c',
    emm_proc_attach_request (epc_config 0) fsm_env 1 (request_imsi 7) empty_state
    = Done RETURNok s'
    ∧ trace s' = [Api (nas_itti_auth_info_req 7 (Some imsi_001_01) 1)]
    ∧ ctx_coll_ue_id (mem s') !! 7 = Some 1
    ∧ ctx_heap (mem s') !! 1 = Some c'
    ∧ guti c' = Some (synthesized_guti (epc_config 0) 1 imsi_001_01 2)
    ∧ security c' = None.
Proof.
  destruct (first_imsi_attach_asks_for_vectors (epc_config 0) fsm_env 0 (request_imsi 7)
              empty_state imsi_001_01 1)
    as (s' & c' & Hrun & Htr & Hidx & _ & Hc' & _ & _ & _ & _ & Hguti & _ & Hsec).
  - exact fsm_env_fsm_only.
  - apply reference_env_allocates.
  - reflexivity.
  - split; reflexivity.
  - reflexivity.
  - reflexivity.
  - discriminate.
  - left. reflexivity.
  - reflexivity.
  - reflexivity.
  - exists s', c'. split; [exact Hrun|]. split; [exact Htr|].
    split; [rewrite Hidx; reflexivity|]. split; [exact Hc'|].
    split; [exact Hguti | exact Hsec].
Defined.

(** ** A changed request with a state machine that does not follow *)

(** The restart of the attach procedure relies on the EMM state machine:
    [emm_proc_attach_request] calls itself after [EMMREG_PROC_ABORT] and
    expects to find the context no longer above [EMM_DEREGISTERED].  With
    collaborators that leave the contexts as they are and an EMM-SAP that
    does not return [RETURNerror], a changed request for a context above
    [EMM_DEREGISTERED] meets the same context at each activation: the
    recursion does not end, whatever the number of activations allowed. *)
Theorem changed_request_recurs_for_ever (C : config) (E : environment) r p c :
  quiet E →
  (∀ prim m, (emm_sap_send E prim m).1 ≠ RETURNerror) →
  admitted C r →
  p ≠ 0 →
  fsm_rank EMM_DEREGISTERED < fsm_rank (_emm_fsm_status c) →
  _emm_attach_have_changed c r = true →
  ∀ fuel s,
    ctx_coll_ue_id (mem s) !! req_ueid r = Some p →
    ctx_heap (mem s) !! p = Some c →
    emm_proc_attach_request C E fuel r s = OutOfFuel.
Proof.
  intros Hq Hok Hadm Hp Hst Hchg fuel.
  induction fuel as [|fuel IH]; intros s Hidx Hc; [reflexivity|].
  cbn [emm_proc_attach_request].
  rewrite (body_for_existing_context C E _ r s p c Hadm Hidx Hp Hc Hst), Hchg.
  unfold call_emm_sap_send, emit, run_ext, bind. cbn [mem trace].
  pose proof (Hok (EMMREG_PROC_ABORT (req_ueid r) p) (mem s)) as Hrc.
  pose proof (proj1 (proj2 Hq) (EMMREG_PROC_ABORT (req_ueid r) p) (mem s))
    as (Hch & _ & Hix).
  destruct (emm_sap_send E (EMMREG_PROC_ABORT (req_ueid r) p) (mem s)) as [rc m1].
  cbn [fst snd] in *.
  apply Z.eqb_neq in Hrc. rewrite Hrc. cbn [negb].
  apply IH; cbn [mem]; [rewrite Hix | rewrite Hch]; assumption.
Qed.

Lemma changed_request_recurs_for_ever_witness :
  emm_proc_attach_request (epc_config 0) plain_env 1000 (request_guti 7 112)
    (state_with_context 16 identifying_context) = OutOfFuel.
Proof.
  apply (changed_request_recurs_for_ever (epc_config 0) plain_env (request_guti 7 112)
           16 identifying_context).
  - exact plain_env_quiet.
  - intros prim m. discriminate.
  - split; reflexivity.
  - discriminate.
  - cbn. lia.
  - reflexivity.
  - reflexivity.
  - reflexivity.
Defined.

(** ** The attach once the UE is secured: [_emm_attach] *)

(** When ESM discards the PDN connectivity request (or answers it with a
    status message), [_emm_attach] returns [RETURNok] whatever status came
    with the answer: no buffer is allocated, nothing is sent to the UE and
    the context is not touched. *)
Theorem discarded_esm_request_ends_attach_quietly (C : config) (E : environment)
    p s c rc send m1 :
  ctx_heap (mem s) !! p = Some c →
  esm_sap_send E (pdn_connectivity_req c p) (mem s) = ((rc, ESM_SAP_DISCARDED, send), m1) →
  _emm_attach C E p s =
    Done RETURNok {| mem := m1; trace := trace s ++ [EsmSap (pdn_connectivity_req c p)] |}.
Proof.
  intros Hc Hsend. unfold _emm_attach.
  expose_state s. mred in *. munfold. rewrite Hc. mred. rewrite Hsend. mred.
  rewrite andb_false_r. reflexivity.
Qed.

Lemma discarded_esm_request_ends_attach_quietly_witness :
  _emm_attach (epc_config 0)
    (reference_env true RETURNok (RETURNerror, ESM_SAP_DISCARDED, OctetString_empty) 2
       (λ _, true))
    16 (state_with_context 16 secured_context)
  = Done RETURNok
      {| mem := mem (state_with_context 16 secured_context);
         trace := [EsmSap (pdn_connectivity_req secured_context 16)] |}.
Proof.
  apply (discarded_esm_request_ends_attach_quietly (epc_config 0) _ 16
           (state_with_context 16 secured_context) secured_context
           RETURNerror OctetString_empty).
  - reflexivity.
  - reflexivity.
Defined.

(** When ESM accepts the request and [calloc] has no memory for the
    retransmission buffer, [_emm_attach] does nothing more: with the status
    [RETURNok] from ESM it returns [RETURNok], although no ATTACH ACCEPT
    has been sent, no abort callback registered and no ATTACH REJECT
    issued. *)
Theorem attach_without_buffer_memory_is_silent (C : config) (E : environment)
    p s c send m1 :
  ctx_heap (mem s) !! p = Some c →
  esm_sap_send E (pdn_connectivity_req c p) (mem s)
    = ((RETURNok, ESM_SAP_SUCCESS, send), m1) →
  allocate E alloc_attach_data m1 = 0 →
  _emm_attach C E p s =
    Done RETURNok {| mem := m1; trace := trace s ++ [EsmSap (pdn_connectivity_req c p)] |}.
Proof.
  intros Hc Hsend Halloc. unfold _emm_attach.
  expose_state s. mred in *. munfold. rewrite Hc. mred. rewrite Hsend. mred.
  rewrite bool_decide_eq_true_2 by reflexivity.
  change (negb (RETURNok =? RETURNerror) && true) with true. cbv iota. mred.
  rewrite Halloc. reflexivity.
Qed.

Lemma attach_without_buffer_memory_is_silent_witness :
  _emm_attach (epc_config 0) no_memory_env 16 (state_with_context 16 secured_context)
  = Done RETURNok
      {| mem := mem (state_with_context 16 secured_context);
         trace := [EsmSap (pdn_connectivity_req secured_context 16)] |}.
Proof.
  apply (attach_without_buffer_memory_is_silent (epc_config 0) no_memory_env 16
           (state_with_context 16 secured_context) secured_context
           pdn_connectivity_request).
  - reflexivity.
  - reflexivity.
  - reflexivity.
Defined.

(** When the registration of the abort callback fails
    ([emm_proc_common_initialize] does not return [RETURNok]), the buffer
    just allocated is freed and [_emm_attach] returns [RETURNerror] at
    once: the UE gets neither ATTACH ACCEPT nor ATTACH REJECT. *)
Theorem failed_registration_ends_attach_without_reject (C : config) (E : environment)
    p s c rc send m1 data c1 rc2 m2 :
  ctx_heap (mem s) !! p = Some c →
  esm_sap_send E (pdn_connectivity_req c p) (mem s) = ((rc, ESM_SAP_SUCCESS, send), m1) →
  rc ≠ RETURNerror →
  allocate E alloc_attach_data m1 = data →
  data ≠ 0 →
  ctx_heap m1 !! p = Some c1 →
  api E (emm_proc_common_initialize (ueid c1) CB_NULL CB_NULL CB_NULL
           CB_emm_attach_abort data)
    (upd_data_heap (insert data attach_data_zero) m1) = (rc2, m2) →
  rc2 ≠ RETURNok →
  is_Some (data_heap m2 !! data) →
  _emm_attach C E p s =
    Done RETURNerror
      {| mem := upd_data_heap (delete data) m2;
         trace := trace s ++
                    [EsmSap (pdn_connectivity_req c p);
                     Api (emm_proc_common_initialize (ueid c1) CB_NULL CB_NULL CB_NULL
                            CB_emm_attach_abort data)] |}.
Proof.
  intros Hc Hsend Hrc Halloc Hdata Hc1 Hinit Hrc2 [d Hd]. unfold _emm_attach.
  apply Z.eqb_neq in Hrc, Hrc2. apply nonzero_true in Hdata.
  expose_state s. mred in *. munfold. rewrite Hc. mred. rewrite Hsend. mred.
  rewrite Hrc. rewrite bool_decide_eq_true_2 by reflexivity. mred.
  rewrite Halloc, Hdata. mred.
  destruct m1 as [ch1 dh1 idx1 gidx1 ex1]. unfold upd_data_heap in *. mred in *.
  rewrite Hc1. mred. rewrite Hinit. mred.
  rewrite Hrc2. mred. rewrite Hd. rewrite <- app_assoc. reflexivity.
Qed.

Lemma failed_registration_ends_attach_without_reject_witness :
  _emm_attach (original_config 0) failing_registration_env 16
    (state_with_context 16 secured_context)
  = Done RETURNerror
      {| mem := mem (state_with_context 16 secured_context);
         trace := [EsmSap (pdn_connectivity_req secured_context 16);
                   Api (emm_proc_common_initialize 7 CB_NULL CB_NULL CB_NULL
                          CB_emm_attach_abort 1)] |}.
Proof.
  rewrite (failed_registration_ends_attach_without_reject (original_config 0)
             failing_registration_env 16 (state_with_context 16 secured_context)
             secured_context RETURNok activate_default_bearer_request
             (mem (state_with_context 16 secured_context)) 1 secured_context RETURNerror
             (upd_data_heap (insert 1 attach_data_zero)
                (mem (state_with_context 16 secured_context)))).
  - reflexivity.
  - reflexivity.
  - reflexivity.
  - discriminate.
  - reflexivity.
  - discriminate.
  - reflexivity.
  - reflexivity.
  - discriminate.
  - eexists. reflexivity.
Defined.

Lemma run_call_esm_sap_send E prim s a m' :
  esm_sap_send E prim (mem s) = (a, m') →
  call_esm_sap_send E prim s = Done a {| mem := m'; trace := trace s ++ [EsmSap prim] |}.
Proof.
  intros H. unfold call_esm_sap_send, bind, emit, run_ext. cbn [mem trace].
  rewrite H. reflexivity.
Qed.

(** An ESM failure is reported to the UE.  ESM answers the PDN
    connectivity request with a failure (not a discard) and an ESM
    message; the EMM-SAP returns [RETURNok] to whatever it is given, no
    allocation fails and the collaborators change at most the status of a
    context.  Then [_emm_attach] returns [RETURNok] after one ATTACH REJECT
    with cause [EMM_CAUSE_ESM_FAILURE] that carries the ESM message of the
    answer; a dynamic context is released after it.  No retransmission
    buffer is allocated. *)
Theorem esm_failure_is_reported_to_the_ue (C : config) (E : environment)
    p s c rc err send m1 :
  fsm_only E →
  (∀ prim m, (emm_sap_send E prim m).1 = RETURNok) →
  allocation_succeeds E →
  p ≠ 0 →
  ctx_heap (mem s) !! p = Some c →
  ctx_coll_ue_id (mem s) !! ueid c = Some p →
  esm_sap_send E (pdn_connectivity_req c p) (mem s) = ((rc, err, send), m1) →
  ¬ (rc ≠ RETURNerror ∧ err = ESM_SAP_SUCCESS) →
  err ≠ ESM_SAP_DISCARDED →
  well_formed_octets send →
  0 < os_length send →
  ∃ s',
    _emm_attach C E p s = Done RETURNok s'
    ∧ trace s' =
        trace s ++ EsmSap (pdn_connectivity_req c p) ::
          EmmSap (EMMAS_ESTABLISH_REJ (ueid c) EMM_CAUSE_ESM_FAILURE send (security c)) ::
          (if nonzero (is_dynamic c)
           then timers_stopped c ++ [EmmSap (EMMREG_PROC_ABORT (ueid c) p)]
           else [])
    ∧ data_heap (mem s') = data_heap (mem s).
Proof.
  intros Hw Hok Halloc Hp Hc Hidx Hsend Hfail Hdisc Hwf Hlen.
  pose proof (proj1 Hw (pdn_connectivity_req c p) (mem s)) as (Hdh1 & Hidx1 & Hctx1).
  rewrite Hsend in Hdh1, Hidx1, Hctx1. cbn [snd] in Hdh1, Hidx1, Hctx1.
  destruct (Hctx1 p c Hc) as (st & Hc1).
  assert (Hcond : (negb (rc =? RETURNerror) && bool_decide (err = ESM_SAP_SUCCESS)) = false).
  { destruct (Z.eqb_spec rc RETURNerror) as [|Hrc]; [reflexivity|]. cbn [negb andb].
    apply bool_decide_eq_false_2. intros Herr. apply Hfail. split; assumption. }
  unfold _emm_attach.
  rewrite (run_bind _ _ _ _ _ (run_load_ctx s p c Hc)).
  rewrite (run_bind _ _ _ _ _ (run_call_esm_sap_send E _ s _ m1 Hsend)).
  cbv beta iota. rewrite Hcond.
  rewrite (bool_decide_eq_false_2 _ Hdisc). cbn [negb].
  set (s1 := {| mem := m1; trace := trace s ++ [EsmSap (pdn_connectivity_req c p)] |}).
  rewrite (run_bind _ _ _ _ _
             (run_update_ctx s1 p (set_emm_cause EMM_CAUSE_ESM_FAILURE) _ Hc1)).
  set (s2 := {| mem := upd_ctx_heap _ (mem s1); trace := trace s1 |}).
  rewrite (run_bind _ _ _ _ _ (run_malloc E (alloc_octets (os_length send)) s2)).
  assert (Hv : allocate E (alloc_octets (os_length send)) (mem s2) ≠ 0) by apply Halloc.
  rewrite (proj2 (nonzero_true _) Hv).
  set (c2 := set_emm_cause EMM_CAUSE_ESM_FAILURE (set_emm_fsm_status st c)) in *.
  assert (Hc2 : ctx_heap (mem s2) !! p = Some c2)
    by (subst s2; cbn [mem ctx_heap upd_ctx_heap]; apply lookup_insert_eq).
  rewrite (run_bind _ _ _ _ _ (run_update_ctx s2 p _ c2 Hc2)).
  set (c3 := set_esm_msg _ c2).
  set (s3 := {| mem := upd_ctx_heap _ (mem s2); trace := trace s2 |}).
  assert (Hc3 : ctx_heap (mem s3) !! p = Some c3)
    by (subst s3; cbn [mem ctx_heap upd_ctx_heap]; apply lookup_insert_eq).
  assert (Hidx3 : ctx_coll_ue_id (mem s3) !! ueid c3 = Some p).
  { subst s3 s2 s1. cbn [mem ctx_coll_ue_id upd_ctx_heap]. rewrite Hidx1. exact Hidx. }
  assert (Hpdu : ¬ (emm_cause c3 = EMM_CAUSE_ESM_FAILURE ∧ os_length (esm_msg c3) ≤ 0)).
  { intros [_ H]. subst c3. cbn [esm_msg set_esm_msg os_length] in H. lia. }
  destruct (emm_attach_reject_effect C E p s3 c3 Hw Hp Hc3 Hidx3 Hpdu)
    as (rc3 & s4 & Hrun & Htr & Hdh4 & _ & prim & m0 & Hrc3).
  rewrite Hok in Hrc3. subst rc3.
  rewrite (run_bind _ _ _ _ _ Hrun).
  exists s4. split; [reflexivity|]. split.
  - rewrite Htr. subst s3 s2 s1. cbn [trace]. rewrite <- app_assoc. cbn [app].
    destruct Hwf as (bytes & Hval & Hbytes).
    assert (Hcopy : {| os_length := os_length send;
                       os_value := Some (octets_copy (os_length send) send) |} = send).
    { unfold octets_copy. rewrite Hval, Hbytes. cbn [default from_option Datatypes.id].
      rewrite Nat2Z.id, firstn_all. destruct send; cbn in *; subst. reflexivity. }
    subst c3 c2.
    cbn [emm_cause esm_msg ueid security is_dynamic set_esm_msg set_emm_cause
         set_emm_fsm_status].
    change (EMM_CAUSE_ESM_FAILURE =? EMM_CAUSE_SUCCESS) with false.
    change (EMM_CAUSE_ESM_FAILURE =? EMM_CAUSE_ESM_FAILURE) with true.
    cbv iota. rewrite Hcopy. reflexivity.
  - rewrite Hdh4. subst s3 s2 s1. cbn [mem data_heap upd_ctx_heap]. exact Hdh1.
Qed.

Lemma esm_failure_is_reported_to_the_ue_witness :
  ∃ s',
    _emm_attach (epc_config 0) esm_rejecting_env 16 (state_with_context 16 secured_context)
    = Done RETURNok s'
    ∧ trace s' =
        [EsmSap (pdn_connectivity_req secured_context 16);
         EmmSap (EMMAS_ESTABLISH_REJ 7 EMM_CAUSE_ESM_FAILURE pdn_connectivity_reject
                   (Some security_zero));
         EmmSap (EMMREG_PROC_ABORT 7 16)].
Proof.
  destruct (esm_failure_is_reported_to_the_ue (epc_config 0) esm_rejecting_env 16
              (state_with_context 16 secured_context) secured_context
              RETURNerror ESM_SAP_FAILED pdn_connectivity_reject
              (mem (state_with_context 16 secured_context)))
    as (s' & Hrun & Htr & _).
  - apply reference_env_fsm_only.
  - intros prim m. reflexivity.
  - apply reference_env_allocates.
  - discriminate.
  - reflexivity.
  - reflexivity.
  - reflexivity.
  - intros [H _]. apply H. reflexivity.
  - discriminate.
  - exists [209; 0; 26]. split; reflexivity.
  - reflexivity.
  - exists s'. split; [exact Hrun | exact Htr].
Defined.

(** ** The set-up of NAS security: [_emm_attach_security] *)

(** [_emm_attach_security] starts from a blank security context: when the
    context has one already it is overwritten (type "no key is available",
    no key, algorithms EEA0 and EIA0), when it has none one is allocated.
    The security mode control procedure is then initiated with the
    capabilities of the UE and [_emm_attach] as the callback of its
    success; if the initiation fails the cause becomes
    [EMM_CAUSE_ILLEGAL_UE] and the attach is rejected. *)
Theorem security_setup_starts_from_a_blank_context (C : config) (E : environment)
    p s c rc m2 :
  ctx_heap (mem s) !! p = Some c →
  (security c = None → allocate E alloc_security (mem s) ≠ 0) →
  api E (security_mode_control_for c)
    (upd_ctx_heap (insert p (set_security (Some security_reset) c)) (mem s)) = (rc, m2) →
  let s2 := {| mem := m2; trace := trace s ++ [Api (security_mode_control_for c)] |} in
  _emm_attach_security C E p s =
    if rc =? RETURNok then Done RETURNok s2
    else (let* _ := update_ctx p (set_emm_cause EMM_CAUSE_ILLEGAL_UE) in
          _emm_attach_reject C E p) s2.
Proof.
  intros Hc Halloc Hapi s2. subst s2. unfold _emm_attach_security.
  unfold security_mode_control_for, security_reset in *.
  expose_state s. unfold upd_ctx_heap in *. mred in *. munfold. rewrite Hc. mred.
  destruct (security c) as [sc|] eqn:Hsec.
  - rewrite bool_decide_eq_false_2 by discriminate.
    repeat first [ rewrite Hc | rewrite Hsec | rewrite lookup_insert_eq
                 | rewrite insert_insert_eq | progress unfold upd_ctx_heap
                 | progress mred ].
    rewrite Hapi. mred.
    destruct (Z.eqb_spec rc RETURNok) as [->|Hrc]; reflexivity.
  - rewrite bool_decide_eq_true_2 by reflexivity. mred.
    rewrite (proj2 (nonzero_true _) (Halloc eq_refl)).
    repeat first [ rewrite Hc | rewrite lookup_insert_eq
                 | rewrite insert_insert_eq | progress unfold upd_ctx_heap
                 | progress mred ].
    match goal with
    | |- context [set_security ?a (set_security ?b c)] =>
        change (set_security a (set_security b c)) with (set_security a c)
    end.
    rewrite Hapi. mred.
    destruct (Z.eqb_spec rc RETURNok) as [->|Hrc]; reflexivity.
Qed.

Lemma security_setup_starts_from_a_blank_context_witness :
  _emm_attach_security (epc_config 0) fsm_env 16 (state_with_context 16 fresh_context)
  = Done RETURNok
      {| mem := upd_ctx_heap (insert 16 (set_security (Some security_reset) fresh_context))
                  (mem (state_with_context 16 fresh_context));
         trace := [Api (security_mode_control_for fresh_context)] |}.
Proof.
  apply (security_setup_starts_from_a_blank_context (epc_config 0) fsm_env 16
           (state_with_context 16 fresh_context) fresh_context RETURNok).
  - reflexivity.
  - intros _. discriminate.
  - reflexivity.
Defined.

(** ** The GUTI index after an update *)

(** A context is found by its GUTI after a successful update, provided the
    update had to write the GUTI index: the request carries no GUTI (one is
    synthesized from the IMSI), or the context held no GUTI yet.  Then the
    look-up of the GUTI that the context now holds gives the context the
    UE identifier is indexed to. *)
Theorem updated_context_is_found_by_its_guti (C : config) (E : environment)
    ctx ue r s c :
  ctx_heap (mem s) !! ctx = Some c →
  ctx_coll_ue_id (mem s) !! ue = Some ctx →
  req_guti r = None ∨ guti c = None →
  ∃ rc s' c',
    _emm_attach_update C E ctx ue r s = Done rc s'
    ∧ ctx_heap (mem s') !! ctx = Some c'
    ∧ (rc = RETURNok →
         ∃ g, guti c' = Some g ∧ emm_data_context_get_by_guti g s' = Done ctx s').
Proof.
  intros Hc Hidx Hcase.
  destruct (emm_attach_update_effect C E ctx ue r s c Hc)
    as (rc & s' & c' & Hrun & Hheap & (_ & Hix & _) & _ & _ & _ & Hguti & Hsyn).
  destruct (emm_attach_update_spec C E ctx ue r s c Hc)
    as (rc2 & s2 & c2 & Hrun2 & _ & Hc2 & _ & Hok & _).
  rewrite Hrun in Hrun2. injection Hrun2 as <- <-.
  rewrite Hheap, lookup_insert_eq in Hc2. injection Hc2 as <-.
  exists rc, s', c'. split; [exact Hrun|].
  split; [rewrite Hheap; apply lookup_insert_eq|].
  intros Hrc. destruct (Hok Hrc) as (_ & Hsome & _).
  destruct (guti c') as [g|] eqn:Hg; [|congruence].
  exists g. split; [reflexivity|].
  assert (Hfound : guti_lookup g (ctx_coll_guti (mem s')) = Some ue).
  { destruct (req_guti r) as [g0|] eqn:Hreq.
    - destruct Hcase as [Hnone|Hnone]; [discriminate|].
      destruct (Hguti g0 eq_refl) as (Hnew & _ & Hins).
      specialize (Hnew Hrc). injection Hnew as <-.
      rewrite (Hins Hnone). cbn [guti_lookup].
      rewrite decide_True by reflexivity. reflexivity.
    - exact (Hsyn eq_refl Hrc g eq_refl). }
  unfold emm_data_context_get_by_guti, bind, get_mem, ret.
  rewrite Hfound, Hix, Hidx. reflexivity.
Qed.

Lemma updated_context_is_found_by_its_guti_witness :
  ∃ rc s' c',
    _emm_attach_update (epc_config 0) plain_env 16 7 (request_guti 7 240)
      (state_with_context 16 fresh_context) = Done rc s'
    ∧ ctx_heap (mem s') !! 16 = Some c'
    ∧ (rc = RETURNok →
         ∃ g, guti c' = Some g ∧ emm_data_context_get_by_guti g s' = Done 16 s').
Proof.
  apply (updated_context_is_found_by_its_guti (epc_config 0) plain_env 16 7
           (request_guti 7 240) (state_with_context 16 fresh_context) fresh_context).
  - reflexivity.
  - reflexivity.
  - right. reflexivity.
Defined.

(** ** An Attach Request for a UE whose context is deregistered *)

(** An Attach Request that passes the admission tests and finds, under its
    UE identifier, a context that is not above [EMM_DEREGISTERED].  With
    [NAS_BUILT_IN_EPC] the context is taken as it is: nothing is allocated
    and the request goes on with the update of that context.  Without it a
    new context is allocated and written into the slot of the UE, and the
    request goes on with the new one: the old object is not freed, and the
    slot does not lead to it any more. *)
Theorem deregistered_context_is_reused_or_replaced (C : config) (E : environment)
    fuel r s p c :
  admitted C r →
  ctx_coll_ue_id (mem s) !! req_ueid r = Some p →
  p ≠ 0 →
  ctx_heap (mem s) !! p = Some c →
  fsm_rank (_emm_fsm_status c) ≤ fsm_rank EMM_DEREGISTERED →
  if NAS_BUILT_IN_EPC C
  then emm_proc_attach_request C E (S fuel) r s = attach_update_and_identify C E p r s
  else ∀ q,
    allocate E alloc_emm_ctx (mem s) = q → q ≠ 0 → q ≠ p →
    ∃ s1,
      emm_proc_attach_request C E (S fuel) r s = attach_update_and_identify C E q r s1
      ∧ ctx_coll_ue_id (mem s1) = <[ req_ueid r := q ]> (ctx_coll_ue_id (mem s))
      ∧ ctx_heap (mem s1) !! q =
          Some (set_emm_fsm_status EMM_DEREGISTERED (emm_ctx_created C (req_ueid r)))
      ∧ ctx_heap (mem s1) !! p = Some c
      ∧ data_heap (mem s1) = data_heap (mem s)
      ∧ trace s1 = trace s.
Proof.
  intros [Hid Hem] Hidx Hp Hc Hst. cbn [emm_proc_attach_request].
  unfold emm_proc_attach_request_body. rewrite Hid, Hem. cbv zeta.
  pose proof Hp as Hnz. apply nonzero_true in Hnz. apply Z.ltb_ge in Hst.
  destruct (NAS_BUILT_IN_EPC C) eqn:Hepc.
  - expose_state s. mred in *. munfold. msimp. rewrite Hst. msimp.
    unfold rebind_by_guti. rewrite (Z_eqb_false _ _ Hp). munfold.
    unfold attach_with_context. mred. reflexivity.
  - intros q Hq Hqnz Hqp. apply nonzero_true in Hqnz.
    expose_state s. mred in *. munfold. msimp. rewrite Hst. msimp.
    unfold attach_with_context, create_context. rewrite Hepc. munfold.
    rewrite Hq, Hqnz. msimp.
    eexists. split; [reflexivity|]. mred.
    split; [reflexivity|]. split; [apply lookup_insert_eq|].
    split; [rewrite !lookup_insert_ne by congruence; exact Hc|].
    split; reflexivity.
Qed.

Lemma deregistered_context_is_reused_or_replaced_witness :
  emm_proc_attach_request (epc_config 0) fsm_env 1 (request_imsi 7)
    (state_with_context 16 fresh_context)
  = attach_update_and_identify (epc_config 0) fsm_env 16 (request_imsi 7)
      (state_with_context 16 fresh_context)
  ∧ ∃ s1,
      emm_proc_attach_request (reference_config false false 0) fsm_env 1 (request_imsi 7)
        (state_with_context 16 fresh_context)
      = attach_update_and_identify (reference_config false false 0) fsm_env 17
          (request_imsi 7) s1
      ∧ ctx_coll_ue_id (mem s1) !! 7 = Some 17
      ∧ ctx_heap (mem s1) !! 16 = Some fresh_context.
Proof.
  split.
  - apply (deregistered_context_is_reused_or_replaced (epc_config 0) fsm_env 0
             (request_imsi 7) (state_with_context 16 fresh_context) 16 fresh_context).
    + split; reflexivity.
    + reflexivity.
    + discriminate.
    + reflexivity.
    + cbn. lia.
  - destruct (deregistered_context_is_reused_or_replaced (reference_config false false 0)
                fsm_env 0 (request_imsi 7) (state_with_context 16 fresh_context) 16
                fresh_context) with (q := 17)
      as (s1 & Hrun & Hidx & _ & Hold & _).
    + split; reflexivity.
    + reflexivity.
    + discriminate.
    + reflexivity.
    + cbn. lia.
    + vm_compute. reflexivity.
    + discriminate.
    + discriminate.
    + exists s1. split; [exact Hrun|].
      split; [rewrite Hidx; apply lookup_insert_eq | exact Hold].
Defined.

(** ** Who raises the attachment indicator *)

Lemma keeps_ret {A} q (a : A) : keeps_unattached q (ret a).
Proof. intros s a' s' H Hrun. injection Hrun as _ <-. exact H. Qed.

Lemma keeps_bind {A B} q (m : M A) (k : A → M B) :
  keeps_unattached q m → (∀ a, keeps_unattached q (k a)) → keeps_unattached q (bind m k).
Proof.
  intros Hm Hk s b s' H Hrun. unfold bind in Hrun.
  destruct (m s) as [a s1| |] eqn:Hms; try discriminate.
  exact (Hk a s1 b s' (Hm s a s1 H Hms) Hrun).
Qed.

Lemma keeps_undefined {A} q : keeps_unattached q (@undefined A).
Proof. intros s a s' _ Hrun. discriminate. Qed.

Lemma keeps_out_of_fuel {A} q : keeps_unattached q (fun _ => @OutOfFuel A).
Proof. intros s a s' _ Hrun. discriminate. Qed.

Lemma keeps_load_ctx q p : keeps_unattached q (load_ctx p).
Proof.
  intros s a s' H Hrun. unfold load_ctx in Hrun.
  destruct (_ !! _); [injection Hrun as _ <-; exact H | discriminate].
Qed.

Lemma keeps_load_data q p : keeps_unattached q (load_data p).
Proof.
  intros s a s' H Hrun. unfold load_data in Hrun.
  destruct (_ !! _); [injection Hrun as _ <-; exact H | discriminate].
Qed.

Lemma keeps_get_mem q : keeps_unattached q get_mem.
Proof. intros s a s' H Hrun. injection Hrun as _ <-. exact H. Qed.

Lemma keeps_emit q e : keeps_unattached q (emit e).
Proof. intros s a s' H Hrun. injection Hrun as _ <-. exact H. Qed.

Lemma keeps_modify_mem q f :
  (∀ m, unattached q m → unattached q (f m)) → keeps_unattached q (modify_mem f).
Proof. intros Hf s a s' H Hrun. injection Hrun as _ <-. apply Hf, H. Qed.

Lemma keeps_upd_data_heap q f : keeps_unattached q (modify_mem (upd_data_heap f)).
Proof. apply keeps_modify_mem. intros [] H. exact H. Qed.

Lemma keeps_upd_coll_ue_id q f : keeps_unattached q (modify_mem (upd_coll_ue_id f)).
Proof. apply keeps_modify_mem. intros [] H. exact H. Qed.

Lemma keeps_upd_coll_guti q f : keeps_unattached q (modify_mem (upd_coll_guti f)).
Proof. apply keeps_modify_mem. intros [] H. exact H. Qed.

Lemma unattached_insert q p c m :
  is_attached c = FALSE → unattached q m → unattached q (upd_ctx_heap (insert p c) m).
Proof.
  intros Hc H c'. destruct m as [ch dh idx gidx ex]. unfold unattached in H. cbn in *.
  destruct (decide (q = p)) as [->|Hne].
  - rewrite lookup_insert_eq. intros [= <-]. exact Hc.
  - rewrite lookup_insert_ne by congruence. apply H.
Qed.

Lemma keeps_insert_ctx q p c :
  is_attached c = FALSE → keeps_unattached q (modify_mem (upd_ctx_heap (insert p c))).
Proof. intros Hc. apply keeps_modify_mem. intros m. apply unattached_insert, Hc. Qed.

Lemma keeps_delete_ctx q p : keeps_unattached q (modify_mem (upd_ctx_heap (delete p))).
Proof.
  apply keeps_modify_mem. intros [ch dh idx gidx ex] H c'. unfold unattached in H. cbn in *.
  destruct (decide (q = p)) as [->|Hne].
  - rewrite lookup_delete_eq. discriminate.
  - rewrite lookup_delete_ne by congruence. apply H.
Qed.

Lemma keeps_update_ctx q p f :
  (∀ c, is_attached c = FALSE → is_attached (f c) = FALSE) →
  keeps_unattached q (update_ctx p f).
Proof.
  intros Hf s a s' H Hrun. unfold update_ctx, bind, load_ctx, modify_mem in Hrun.
  destruct (ctx_heap (mem s) !! p) as [c|] eqn:Hc; [|discriminate].
  injection Hrun as _ <-. cbn [mem].
  destruct (decide (q = p)) as [->|Hne].
  - apply unattached_insert; [apply Hf, (H c Hc) | exact H].
  - intros c'. destruct (mem s) as [ch dh idx gidx ex]. cbn in *.
    rewrite lookup_insert_ne by congruence. apply H.
Qed.

Lemma keeps_when q b m : keeps_unattached q m → keeps_unattached q (when b m).
Proof. intros H. unfold when. destruct b; [exact H | apply keeps_ret]. Qed.

Create HintDb keeps discriminated.
#[local] Hint Resolve keeps_ret keeps_undefined keeps_load_ctx keeps_load_data keeps_get_mem
  keeps_emit keeps_upd_data_heap keeps_upd_coll_ue_id keeps_upd_coll_guti keeps_delete_ctx
  : keeps.

(* The side condition of [keeps_update_ctx]: the function written into the
   context is made of setters of other fields. *)
Ltac other_fields :=
  let c := fresh "c" in
  let Hc := fresh "Hc" in
  intros c Hc; repeat case_match; mred; first [exact Hc | reflexivity | solve [eauto]].

Ltac keeps_step :=
  first
    [ solve [ auto with keeps ]
    | apply keeps_update_ctx; solve [ other_fields ]
    | apply keeps_insert_ctx; reflexivity
    | apply keeps_when
    | apply keeps_bind; [| intros ? ]
    | progress cbv zeta
    | match goal with
      | |- keeps_unattached _ (if ?b then _ else _) => destruct b
      | |- keeps_unattached _ (match ?x with _ => _ end) => destruct x
      end
    | case_match ].

Ltac keeps := repeat keeps_step.

Section KeepsUnattached.
Variables (C : config) (E : environment) (q : Z).
Hypothesis HE : leave_unattached E.

Lemma keeps_call_api c : keeps_unattached q (call_api E c).
Proof.
  intros s a s' H Hrun. unfold call_api, bind, emit, run_ext, ret in Hrun. cbn in Hrun.
  pose proof (proj2 (proj2 (HE q (mem s) H)) c) as Hk.
  destruct (api E c (mem s)) as [r m']. cbn in *. injection Hrun as _ <-. exact Hk.
Qed.

Lemma keeps_call_emm_sap_send p : keeps_unattached q (call_emm_sap_send E p).
Proof.
  intros s a s' H Hrun. unfold call_emm_sap_send, bind, emit, run_ext, ret in Hrun.
  cbn in Hrun. pose proof (proj1 (proj2 (HE q (mem s) H)) p) as Hk.
  destruct (emm_sap_send E p (mem s)) as [r m']. cbn in *. injection Hrun as _ <-. exact Hk.
Qed.

Lemma keeps_call_esm_sap_send p : keeps_unattached q (call_esm_sap_send E p).
Proof.
  intros s a s' H Hrun. unfold call_esm_sap_send, bind, emit, run_ext, ret in Hrun.
  cbn in Hrun. pose proof (proj1 (HE q (mem s) H) p) as Hk.
  destruct (esm_sap_send E p (mem s)) as [r m']. cbn in *. injection Hrun as _ <-. exact Hk.
Qed.

Lemma keeps_malloc site : keeps_unattached q (malloc E site).
Proof. unfold malloc. keeps. Qed.

Hint Resolve keeps_call_api keeps_call_emm_sap_send keeps_call_esm_sap_send keeps_malloc
  : keeps.

Lemma keeps_obj_hashtable_insert g ue : keeps_unattached q (obj_hashtable_insert g ue).
Proof. unfold obj_hashtable_insert. keeps. Qed.

Lemma keeps_obj_hashtable_remove g : keeps_unattached q (obj_hashtable_remove g).
Proof. unfold obj_hashtable_remove. keeps. Qed.

Lemma keeps_emm_data_context_get ue : keeps_unattached q (emm_data_context_get ue).
Proof. unfold emm_data_context_get. keeps. Qed.

Lemma keeps_emm_data_context_get_by_guti g :
  keeps_unattached q (emm_data_context_get_by_guti g).
Proof. unfold emm_data_context_get_by_guti. keeps. Qed.

Lemma keeps_update_data p f : keeps_unattached q (update_data p f).
Proof. unfold update_data. keeps. Qed.

Lemma keeps_free_data p : keeps_unattached q (free_data p).
Proof. unfold free_data. keeps. Qed.

Hint Resolve keeps_obj_hashtable_insert keeps_obj_hashtable_remove
  keeps_emm_data_context_get keeps_emm_data_context_get_by_guti keeps_update_data
  keeps_free_data : keeps.

Lemma keeps_emm_data_context_add p : keeps_unattached q (emm_data_context_add p).
Proof. unfold emm_data_context_add. keeps. Qed.

Lemma keeps_emm_data_context_remove p : keeps_unattached q (emm_data_context_remove p).
Proof. unfold emm_data_context_remove. keeps. Qed.

Lemma keeps_emm_fsm_get_status ue p : keeps_unattached q (emm_fsm_get_status ue p).
Proof. unfold emm_fsm_get_status. keeps. Qed.

Lemma keeps_emm_fsm_set_status ue p st : keeps_unattached q (emm_fsm_set_status ue p st).
Proof. unfold emm_fsm_set_status. keeps. Qed.

Hint Resolve keeps_emm_data_context_add keeps_emm_data_context_remove
  keeps_emm_fsm_get_status keeps_emm_fsm_set_status : keeps.

Lemma keeps_stop_timer_if_active p get set :
  (∀ t c, is_attached c = FALSE → is_attached (set t c) = FALSE) →
  keeps_unattached q (stop_timer_if_active E p get set).
Proof.
  intros Hset. unfold stop_timer_if_active. keeps.
Qed.

Lemma keeps_emm_attach_release p : keeps_unattached q (_emm_attach_release C E p).
Proof.
  unfold _emm_attach_release. keeps.
Qed.

Hint Resolve keeps_emm_attach_release : keeps.

Lemma keeps_emm_attach_reject p : keeps_unattached q (_emm_attach_reject C E p).
Proof. unfold _emm_attach_reject. keeps. Qed.

Hint Resolve keeps_emm_attach_reject : keeps.

Lemma keeps_emm_attach_abort p : keeps_unattached q (_emm_attach_abort C E p).
Proof.
  unfold _emm_attach_abort. keeps.
Qed.

Lemma keeps_emm_attach_accept p d : keeps_unattached q (_emm_attach_accept E p d).
Proof. unfold _emm_attach_accept. keeps. Qed.

Hint Resolve keeps_emm_attach_abort keeps_emm_attach_accept : keeps.

Lemma keeps_emm_attach_t3450_handler d :
  keeps_unattached q (_emm_attach_t3450_handler C E d).
Proof. unfold _emm_attach_t3450_handler. keeps. Qed.

Lemma keeps_emm_attach_finish p rc : keeps_unattached q (emm_attach_finish C E p rc).
Proof. unfold emm_attach_finish. keeps. Qed.

Hint Resolve keeps_emm_attach_finish : keeps.

Lemma keeps_emm_attach_after_accept p d rc :
  keeps_unattached q (emm_attach_after_accept C E p d rc).
Proof. unfold emm_attach_after_accept. keeps. Qed.

Hint Resolve keeps_emm_attach_after_accept : keeps.

Lemma keeps_emm_attach p : keeps_unattached q (_emm_attach C E p).
Proof. unfold _emm_attach. keeps. Qed.

Hint Resolve keeps_emm_attach : keeps.

Lemma keeps_emm_attach_security p : keeps_unattached q (_emm_attach_security C E p).
Proof. unfold _emm_attach_security. keeps. Qed.

Hint Resolve keeps_emm_attach_security : keeps.

Lemma keeps_emm_attach_identify p : keeps_unattached q (_emm_attach_identify C E p).
Proof.
  unfold _emm_attach_identify, identify_finish, identify_authentication,
    identify_guti_reallocation. keeps.
Qed.

Lemma keeps_emm_attach_update p ue r : keeps_unattached q (_emm_attach_update C E p ue r).
Proof. unfold _emm_attach_update, update_identities_and_esm. keeps. Qed.

Hint Resolve keeps_emm_attach_identify keeps_emm_attach_update : keeps.

Lemma keeps_reject_ue_ctx u :
  is_attached u = FALSE → keeps_unattached q (reject_ue_ctx C E u).
Proof.
  intros Hu. unfold reject_ue_ctx. keeps. all: apply keeps_insert_ctx, Hu.
Qed.

Lemma keeps_attach_update_and_identify p r :
  keeps_unattached q (attach_update_and_identify C E p r).
Proof. unfold attach_update_and_identify. keeps. Qed.

Lemma keeps_create_context ue : keeps_unattached q (create_context C E ue).
Proof. unfold create_context. keeps. Qed.

Lemma keeps_rebind_by_guti ue temp g : keeps_unattached q (rebind_by_guti E ue temp g).
Proof. unfold rebind_by_guti. keeps. Qed.

Hint Resolve keeps_attach_update_and_identify keeps_create_context keeps_rebind_by_guti
  : keeps.

Lemma keeps_attach_with_context temp found r :
  keeps_unattached q (attach_with_context C E temp found r).
Proof.
  unfold attach_with_context. keeps. all: apply keeps_reject_ue_ctx; reflexivity.
Qed.

Hint Resolve keeps_attach_with_context : keeps.

Lemma keeps_emm_proc_attach_request_body self r :
  (∀ r', keeps_unattached q (self r')) →
  keeps_unattached q (emm_proc_attach_request_body C E self r).
Proof.
  intros Hself. unfold emm_proc_attach_request_body. keeps.
  all: first [apply keeps_reject_ue_ctx; reflexivity | apply Hself].
Qed.

Lemma keeps_emm_proc_attach_request fuel r :
  keeps_unattached q (emm_proc_attach_request C E fuel r).
Proof.
  revert r. induction fuel as [|fuel IH]; intros r; cbn [emm_proc_attach_request].
  - apply keeps_out_of_fuel.
  - apply keeps_emm_proc_attach_request_body, IH.
Qed.

Lemma keeps_emm_proc_attach_reject ue cause :
  keeps_unattached q (emm_proc_attach_reject C E ue cause).
Proof.
  unfold emm_proc_attach_reject. cbv zeta. apply keeps_reject_ue_ctx. reflexivity.
Qed.

End KeepsUnattached.

(** ** ATTACH COMPLETE for a UE that has a context *)

(* The run of [emm_proc_attach_complete] when a context is found, written
   with the answers of the collaborators at the memories they are called
   on. *)
Lemma attach_complete_run (C : config) (E : environment)
    ue esm s data m1 p c tid m2 c2 esm_rc esm_err out m4 :
  api E (emm_proc_common_get_args ue) (mem s) = (data, m1) →
  data = 0 ∨ is_Some (data_heap m1 !! data) →
  (if NAS_BUILT_IN_EPC C then 0 <? ue else ue <? EMM_DATA_NB_UE_MAX C) = true →
  ctx_coll_ue_id m1 !! ue = Some p →
  p ≠ 0 →
  ctx_heap m1 !! p = Some c →
  let m1' := if nonzero data then upd_data_heap (delete data) m1 else m1 in
  api E (nas_timer_stop (id (T3450 c))) m1' = (tid, m2) →
  ctx_heap m2 !! p = Some c2 →
  let c3 := set_old_guti None
              (set_guti_is_new FALSE (set_T3450 (set_timer_id tid (T3450 c2)) c2)) in
  esm_sap_send E (complete_cnf ue p esm) (upd_ctx_heap (insert p c3) m2)
    = ((esm_rc, esm_err, out), m4) →
  let t3 := trace s ++ [Api (emm_proc_common_get_args ue);
                        Api (nas_timer_stop (id (T3450 c)));
                        EsmSap (complete_cnf ue p esm)] in
  emm_proc_attach_complete C E ue esm s =
    if negb (esm_rc =? RETURNerror) && bool_decide (esm_err = ESM_SAP_SUCCESS) then
      match ctx_heap m4 !! p with
      | Some c4 =>
          let '(rc, m5) := emm_sap_send E (EMMREG_ATTACH_CNF ue p)
                             (upd_ctx_heap (insert p (set_is_attached TRUE c4)) m4) in
          Done rc {| mem := m5; trace := t3 ++ [EmmSap (EMMREG_ATTACH_CNF ue p)] |}
      | None => Undefined
      end
    else if bool_decide (esm_err = ESM_SAP_DISCARDED) then
      Done RETURNok {| mem := m4; trace := t3 |}
    else
      let '(rc, m5) := emm_sap_send E (EMMREG_ATTACH_REJ ue p) m4 in
      Done rc {| mem := m5; trace := t3 ++ [EmmSap (EMMREG_ATTACH_REJ ue p)] |}.
Proof.
  intros Hargs Hdata Hvalid Hidx Hp Hc m1' Hstop Hc2 c3 Hesm t3.
  subst m1' c3 t3. unfold emm_proc_attach_complete, complete_cnf in *.
  apply nonzero_true in Hp. revert Hstop.
  expose_state s. mred in *. munfold. rewrite Hargs. rewrite Hvalid.
  destruct m1 as [ch1 dh1 idx1 gidx1 ex1]. mred in *.
  destruct Hdata as [-> | [d Hd]];
    [ change (nonzero 0) with false in *
    | destruct (nonzero data) eqn:Hnz; mred in *; [rewrite Hd|] ];
    mred in *; intros Hstop; rewrite Hidx; mred; rewrite Hp; mred; rewrite Hc; mred;
    unfold upd_data_heap in *; mred in *; rewrite Hstop; mred;
    destruct m2 as [ch2 dh2 idx2 gidx2 ex2]; mred in *; rewrite Hc2; mred;
    repeat first [ rewrite lookup_insert_eq | rewrite insert_insert_eq
                 | progress unfold upd_ctx_heap | progress mred ];
    unfold upd_ctx_heap in Hesm; mred in Hesm; rewrite Hesm; mred;
    (destruct (negb (esm_rc =? RETURNerror) && bool_decide (esm_err = ESM_SAP_SUCCESS));
     mred;
     [ destruct m4 as [ch4 dh4 idx4 gidx4 ex4]; mred;
       destruct (ch4 !! p) as [c4|]; mred; [|reflexivity];
       match goal with
       | |- context [emm_sap_send E ?prim ?m] => destruct (emm_sap_send E prim m)
       end; rewrite <- !app_assoc; reflexivity
     | destruct (bool_decide (esm_err = ESM_SAP_DISCARDED)); mred;
       [ rewrite <- !app_assoc; reflexivity
       | match goal with
         | |- context [emm_sap_send E ?prim ?m] => destruct (emm_sap_send E prim m)
         end; rewrite <- !app_assoc; reflexivity ] ]).
Qed.

Lemma unattached_insert_at q p c m :
  (q = p → is_attached c = FALSE) →
  unattached q m → unattached q (upd_ctx_heap (insert p c) m).
Proof.
  intros Hc H c'. destruct m as [ch dh idx gidx ex]. unfold unattached in H. cbn in *.
  destruct (decide (q = p)) as [->|Hne].
  - rewrite lookup_insert_eq. intros [= <-]. apply Hc. reflexivity.
  - rewrite lookup_insert_ne by congruence. apply H.
Qed.

Lemma unattached_upd_data_heap q f m : unattached q m → unattached q (upd_data_heap f m).
Proof. destruct m. intros H. exact H. Qed.

(* A completion whose ESM confirm does not succeed leaves a cleared
   indicator cleared. *)
Lemma attach_complete_keeps_unattached (C : config) (E : environment)
    ue esm s data m1 p c tid m2 c2 esm_rc esm_err out m4 q rc s' :
  leave_unattached E →
  api E (emm_proc_common_get_args ue) (mem s) = (data, m1) →
  data = 0 ∨ is_Some (data_heap m1 !! data) →
  (if NAS_BUILT_IN_EPC C then 0 <? ue else ue <? EMM_DATA_NB_UE_MAX C) = true →
  ctx_coll_ue_id m1 !! ue = Some p →
  p ≠ 0 →
  ctx_heap m1 !! p = Some c →
  api E (nas_timer_stop (id (T3450 c)))
    (if nonzero data then upd_data_heap (delete data) m1 else m1) = (tid, m2) →
  ctx_heap m2 !! p = Some c2 →
  esm_sap_send E (complete_cnf ue p esm)
    (upd_ctx_heap
       (insert p (set_old_guti None
                    (set_guti_is_new FALSE (set_T3450 (set_timer_id tid (T3450 c2)) c2))))
       m2)
    = ((esm_rc, esm_err, out), m4) →
  ¬ (esm_rc ≠ RETURNerror ∧ esm_err = ESM_SAP_SUCCESS) →
  unattached q (mem s) →
  emm_proc_attach_complete C E ue esm s = Done rc s' →
  unattached q (mem s').
Proof.
  intros HE Hargs Hdata Hvalid Hidx Hp Hc Hstop Hc2 Hesm Hno Hq Hrun.
  rewrite (attach_complete_run C E ue esm s data m1 p c tid m2 c2 esm_rc esm_err out m4
             Hargs Hdata Hvalid Hidx Hp Hc Hstop Hc2 Hesm) in Hrun.
  assert (H1 : unattached q m1).
  { pose proof (proj2 (proj2 (HE q (mem s) Hq)) (emm_proc_common_get_args ue)) as H.
    rewrite Hargs in H. exact H. }
  assert (H2 : unattached q m2).
  { assert (H1' : unattached q (if nonzero data then upd_data_heap (delete data) m1 else m1))
      by (destruct (nonzero data); [apply unattached_upd_data_heap|]; exact H1).
    pose proof (proj2 (proj2 (HE q _ H1')) (nas_timer_stop (id (T3450 c)))) as H.
    rewrite Hstop in H. exact H. }
  assert (H4 : unattached q m4).
  { assert (H3 : unattached q
                   (upd_ctx_heap
                      (insert p (set_old_guti None
                                   (set_guti_is_new FALSE
                                      (set_T3450 (set_timer_id tid (T3450 c2)) c2))))
                      m2))
      by (apply unattached_insert_at; [intros ->; mred; exact (H2 c2 Hc2) | exact H2]).
    pose proof (proj1 (HE q _ H3) (complete_cnf ue p esm)) as H.
    rewrite Hesm in H. exact H. }
  destruct (negb (esm_rc =? RETURNerror) && bool_decide (esm_err = ESM_SAP_SUCCESS))
    eqn:Hyes.
  - exfalso. apply Hno. apply andb_true_iff in Hyes as [Hrc Herr].
    apply negb_true_iff, Z.eqb_neq in Hrc. apply bool_decide_eq_true in Herr. tauto.
  - destruct (bool_decide (esm_err = ESM_SAP_DISCARDED)).
    + injection Hrun as _ <-. exact H4.
    + pose proof (proj1 (proj2 (HE q m4 H4)) (EMMREG_ATTACH_REJ ue p)) as H.
      destruct (emm_sap_send E (EMMREG_ATTACH_REJ ue p) m4) as [r m5].
      injection Hrun as _ <-. exact H.
Qed.

Lemma status_only_ctx m m' p c :
  status_only m m' → ctx_heap m !! p = Some c →
  ∃ st, ctx_heap m' !! p = Some (set_emm_fsm_status st c).
Proof. intros (_ & _ & H). apply H. Qed.

(* With collaborators that change at most the status of a context: what
   the completion leaves in the attachment indicator, by the answer ESM
   gave it. *)
Lemma attach_complete_indicator (C : config) (E : environment)
    ue esm s data m1 p c tid m2 c2 esm_rc esm_err out m4 :
  fsm_only E →
  api E (emm_proc_common_get_args ue) (mem s) = (data, m1) →
  data = 0 ∨ is_Some (data_heap m1 !! data) →
  (if NAS_BUILT_IN_EPC C then 0 <? ue else ue <? EMM_DATA_NB_UE_MAX C) = true →
  ctx_coll_ue_id m1 !! ue = Some p →
  p ≠ 0 →
  ctx_heap m1 !! p = Some c →
  api E (nas_timer_stop (id (T3450 c)))
    (if nonzero data then upd_data_heap (delete data) m1 else m1) = (tid, m2) →
  ctx_heap m2 !! p = Some c2 →
  esm_sap_send E (complete_cnf ue p esm)
    (upd_ctx_heap
       (insert p (set_old_guti None
                    (set_guti_is_new FALSE (set_T3450 (set_timer_id tid (T3450 c2)) c2))))
       m2)
    = ((esm_rc, esm_err, out), m4) →
  ∃ rc s' c',
    emm_proc_attach_complete C E ue esm s = Done rc s'
    ∧ ctx_heap (mem s') !! p = Some c'
    ∧ (esm_rc ≠ RETURNerror ∧ esm_err = ESM_SAP_SUCCESS → is_attached c' = TRUE)
    ∧ (¬ (esm_rc ≠ RETURNerror ∧ esm_err = ESM_SAP_SUCCESS) →
         is_attached c' = is_attached c).
Proof.
  intros Hw Hargs Hdata Hvalid Hidx Hp Hc Hstop Hc2 Hesm.
  rewrite (attach_complete_run C E ue esm s data m1 p c tid m2 c2 esm_rc esm_err out m4
             Hargs Hdata Hvalid Hidx Hp Hc Hstop Hc2 Hesm).
  assert (Hsame : is_attached c2 = is_attached c).
  { pose proof (proj2 (proj2 Hw) (nas_timer_stop (id (T3450 c)))
                  (if nonzero data then upd_data_heap (delete data) m1 else m1)) as Hs.
    rewrite Hstop in Hs.
    destruct (status_only_ctx _ _ p c Hs) as [st Hst].
    { destruct (nonzero data); [destruct m1|]; exact Hc. }
    cbn [snd] in Hst. rewrite Hc2 in Hst. injection Hst as ->. reflexivity. }
  set (c3 := set_old_guti None
               (set_guti_is_new FALSE (set_T3450 (set_timer_id tid (T3450 c2)) c2))) in *.
  pose proof (proj1 Hw (complete_cnf ue p esm) (upd_ctx_heap (insert p c3) m2)) as Hs4.
  rewrite Hesm in Hs4. cbn [snd] in Hs4.
  destruct (status_only_ctx _ _ p c3 Hs4) as [st4 Hc4].
  { destruct m2. cbn. apply lookup_insert_eq. }
  destruct (negb (esm_rc =? RETURNerror) && bool_decide (esm_err = ESM_SAP_SUCCESS))
    eqn:Hyes.
  - rewrite Hc4.
    match goal with
    | |- context [emm_sap_send E ?prim ?m] =>
        pose proof (proj1 (proj2 Hw) prim m) as Hs5;
        destruct (emm_sap_send E prim m) as [rc m5]
    end.
    cbn [snd] in Hs5.
    destruct (status_only_ctx _ _ p (set_is_attached TRUE (set_emm_fsm_status st4 c3)) Hs5)
      as [st5 Hc5].
    { destruct m4. cbn. apply lookup_insert_eq. }
    eexists _, _, _. split; [reflexivity|]. split; [exact Hc5|].
    split; [intros _; reflexivity|].
    intros Hno. exfalso. apply Hno. apply andb_true_iff in Hyes as [Hrc Herr].
    apply negb_true_iff, Z.eqb_neq in Hrc. apply bool_decide_eq_true in Herr. tauto.
  - assert (Hno : ¬ (esm_rc ≠ RETURNerror ∧ esm_err = ESM_SAP_SUCCESS)).
    { intros [Hrc Herr]. apply andb_false_iff in Hyes as [Hyes|Hyes].
      - apply negb_false_iff, Z.eqb_eq in Hyes. contradiction.
      - apply bool_decide_eq_false in Hyes. contradiction. }
    destruct (bool_decide (esm_err = ESM_SAP_DISCARDED)).
    + eexists _, _, _. split; [reflexivity|]. split; [exact Hc4|].
      split; [intros H; contradiction | intros _; exact Hsame].
    + match goal with
      | |- context [emm_sap_send E ?prim ?m] =>
          pose proof (proj1 (proj2 Hw) prim m) as Hs5;
          destruct (emm_sap_send E prim m) as [rc m5]
      end.
      cbn [snd] in Hs5. destruct (status_only_ctx _ _ p _ Hs5 Hc4) as [st5 Hc5].
      eexists _, _, _. split; [reflexivity|]. split; [exact Hc5|].
      split; [intros H; contradiction | intros _; exact Hsame].
Qed.

Lemma unattached_set_status_at q p st m : unattached q m → unattached q (set_status_at p st m).
Proof.
  intros H. unfold set_status_at. destruct (ctx_heap m !! p) as [c|] eqn:Hc; [|exact H].
  apply unattached_insert_at; [|exact H]. intros ->. exact (H c Hc).
Qed.

Lemma reference_env_leaves_unattached fsm rc answer len ok :
  leave_unattached (reference_env fsm rc answer len ok).
Proof.
  intros q m H. split; [|split].
  - intros p. exact H.
  - intros p. cbn. destruct fsm; [|exact H].
    destruct p; first [apply unattached_set_status_at, H | exact H].
  - intros c. destruct c; exact H.
Qed.

(* The end of an Attach Request whose update of the context succeeds: the
   indicator of the context is [FALSE] when the request returns. *)
Lemma updated_request_ends_unattached (C : config) (E : environment) p r s s0 s1 rc s' :
  leave_unattached E →
  match req_tai r with
  | Some t => update_ctx p (set_tac t) s
  | None => Done tt s
  end = Done tt s0 →
  _emm_attach_update C E p (req_ueid r) r s0 = Done RETURNok s1 →
  attach_update_and_identify C E p r s = Done rc s' →
  unattached p (mem s').
Proof.
  intros HE Htai Hupd Hrun. unfold attach_update_and_identify in Hrun.
  assert (Hfirst : (match req_tai r with
                    | Some t => update_ctx p (set_tac t)
                    | None => ret tt
                    end) s = Done tt s0)
    by (destruct (req_tai r); exact Htai).
  rewrite (run_bind _ _ _ _ _ Hfirst), (run_bind _ _ _ _ _ Hupd) in Hrun.
  change (negb (RETURNok =? RETURNok)) with false in Hrun. cbv iota in Hrun.
  assert (H1 : unattached p (mem s1)).
  { destruct (ctx_heap (mem s0) !! p) as [c0|] eqn:Hc0.
    - destruct (emm_attach_update_spec C E p (req_ueid r) r s0 c0 Hc0)
        as (rc1 & s1' & c' & Hrun1 & _ & Hc' & _ & Hok & _).
      rewrite Hupd in Hrun1. injection Hrun1 as <- <-.
      intros c Hc. rewrite Hc' in Hc. injection Hc as <-. apply (Hok eq_refl).
    - exfalso. unfold _emm_attach_update, update_ctx, bind, load_ctx in Hupd.
      rewrite Hc0 in Hupd. discriminate. }
  exact (keeps_emm_attach_identify C E p HE p s1 rc s' H1 Hrun).
Qed.



(** What [emm_proc_attach_complete] does for a UE that has a context,
    written with the answers of the collaborators at the memories they are
    called on.  [data] is the retransmission buffer registered for the UE,
    freed first when there is one; [c] is the context found under the UE
    identifier, at [p]; T3450 is stopped, whether it runs or not, and the
    identifier [tid] that the timer service returns is stored; the old
    GUTI and the mark of a new one are cleared; the ESM message goes to ESM
    in [ESM_DEFAULT_EPS_BEARER_CONTEXT_ACTIVATE_CNF], on the memory so
    obtained.  It is the answer to that call that decides: on a success
    the context is marked attached and EMM gets [EMMREG_ATTACH_CNF] (if
    ESM has left no context at [p], the write goes to a dead object); on a
    discard nothing more happens and [RETURNok] is returned; on any other
    answer EMM gets [EMMREG_ATTACH_REJ].  The status returned is that of
    the EMM-SAP. *)
Theorem attach_complete_forwards_to_esm_then_notifies (C : config) (E : environment)
    ue esm s data m1 p c tid m2 c2 esm_rc esm_err out m4 :
  api E (emm_proc_common_get_args ue) (mem s) = (data, m1) →
  data = 0 ∨ is_Some (data_heap m1 !! data) →
  (if NAS_BUILT_IN_EPC C then 0 <? ue else ue <? EMM_DATA_NB_UE_MAX C) = true →
  ctx_coll_ue_id m1 !! ue = Some p →
  p ≠ 0 →
  ctx_heap m1 !! p = Some c →
  let m1' := if nonzero data then upd_data_heap (delete data) m1 else m1 in
  api E (nas_timer_stop (id (T3450 c))) m1' = (tid, m2) →
  ctx_heap m2 !! p = Some c2 →
  let c3 := set_old_guti None
              (set_guti_is_new FALSE (set_T3450 (set_timer_id tid (T3450 c2)) c2)) in
  esm_sap_send E (complete_cnf ue p esm) (upd_ctx_heap (insert p c3) m2)
    = ((esm_rc, esm_err, out), m4) →
  let t3 := trace s ++ [Api (emm_proc_common_get_args ue);
                        Api (nas_timer_stop (id (T3450 c)));
                        EsmSap (complete_cnf ue p esm)] in
  emm_proc_attach_complete C E ue esm s =
    if negb (esm_rc =? RETURNerror) && bool_decide (esm_err = ESM_SAP_SUCCESS) then
      match ctx_heap m4 !! p with
      | Some c4 =>
          let '(rc, m5) := emm_sap_send E (EMMREG_ATTACH_CNF ue p)
                             (upd_ctx_heap (insert p (set_is_attached TRUE c4)) m4) in
          Done rc {| mem := m5; trace := t3 ++ [EmmSap (EMMREG_ATTACH_CNF ue p)] |}
      | None => Undefined
      end
    else if bool_decide (esm_err = ESM_SAP_DISCARDED) then
      Done RETURNok {| mem := m4; trace := t3 |}
    else
      let '(rc, m5) := emm_sap_send E (EMMREG_ATTACH_REJ ue p) m4 in
      Done rc {| mem := m5; trace := t3 ++ [EmmSap (EMMREG_ATTACH_REJ ue p)] |}.
Proof.
  intros Hargs Hdata Hvalid Hidx Hp Hc m1' Hstop Hc2 c3 Hesm t3.
  exact (attach_complete_run C E ue esm s data m1 p c tid m2 c2 esm_rc esm_err out m4
           Hargs Hdata Hvalid Hidx Hp Hc Hstop Hc2 Hesm).
Qed.

Lemma attach_complete_forwards_to_esm_then_notifies_witness :
  ∃ s' c',
    emm_proc_attach_complete (epc_config 0) fsm_env 7 activate_default_bearer_accept
      retransmission_state = Done RETURNok s'
    ∧ trace s' = [Api (emm_proc_common_get_args 7); Api (nas_timer_stop 1);
                  EsmSap (complete_cnf 7 16 activate_default_bearer_accept);
                  EmmSap (EMMREG_ATTACH_CNF 7 16)]
    ∧ data_heap (mem s') = ∅
    ∧ ctx_heap (mem s') !! 16 = Some c'
    ∧ is_attached c' = TRUE ∧ _emm_fsm_status c' = EMM_REGISTERED.
Proof.
  pose (m1 := upd_data_heap (delete 1) (mem retransmission_state)).
  pose (c3 := set_old_guti None
                (set_guti_is_new FALSE
                   (set_T3450 (set_timer_id NAS_TIMER_INACTIVE_ID (T3450 attaching_context))
                      attaching_context))).
  eexists _, _. split.
  - etransitivity.
    + apply (attach_complete_forwards_to_esm_then_notifies (epc_config 0) fsm_env 7
               activate_default_bearer_accept retransmission_state
               1 (mem retransmission_state) 16 attaching_context
               NAS_TIMER_INACTIVE_ID m1 attaching_context
               RETURNok ESM_SAP_SUCCESS pdn_connectivity_request
               (upd_ctx_heap (insert 16 c3) m1)).
      * reflexivity.
      * right. eexists. reflexivity.
      * reflexivity.
      * reflexivity.
      * discriminate.
      * reflexivity.
      * reflexivity.
      * reflexivity.
      * reflexivity.
    + reflexivity.
  - split; [reflexivity|]. split; [reflexivity|]. split; [reflexivity|].
    split; reflexivity.
Defined.

(** ** The ATTACH ACCEPT: [_emm_attach_accept] *)

(* The run of [_emm_attach_accept], written with the answers of the
   collaborators at the memories they are called on. *)
Lemma emm_attach_accept_run (E : environment) p data s c r0 m1 c1 sc d rc m2 :
  p ≠ 0 →
  ctx_heap (mem s) !! p = Some c →
  api E (mme_api_notify_new_guti (ueid c) (guti c)) (mem s) = (r0, m1) →
  ctx_heap m1 !! p = Some c1 →
  security c1 = Some sc →
  data_heap m1 !! data = Some d →
  let accept :=
    EMMAS_ESTABLISH_CNF (ueid c)
      (if nonzero (guti_is_new c) && bool_decide (old_guti c ≠ None)
       then old_guti c else guti c)
      (guti c) (n_tacs c1) (tac c1) (security c1)
      (sel_encryption sc) (sel_integrity sc) (ad_esm_msg d) in
  emm_sap_send E accept m1 = (rc, m2) →
  let t2 := trace s ++ [Api (mme_api_notify_new_guti (ueid c) (guti c)); EmmSap accept] in
  _emm_attach_accept E p data s =
    if rc =? RETURNerror then Done rc {| mem := m2; trace := t2 |}
    else
      match ctx_heap m2 !! p with
      | Some c2 =>
          let '(tid, m3) := api E (arm_T3450 c2 data) m2 in
          match ctx_heap m3 !! p with
          | Some c3 =>
              Done rc {| mem := upd_ctx_heap
                                  (insert p (set_T3450 (set_timer_id tid (T3450 c3)) c3)) m3;
                         trace := t2 ++ [Api (arm_T3450 c2 data)] |}
          | None => Undefined
          end
      | None => Undefined
      end.
Proof.
  intros Hp Hc Hnotify Hc1 Hsc Hd accept Hsend t2. subst accept t2.
  unfold _emm_attach_accept, arm_T3450. rewrite (Z_eqb_false _ _ Hp).
  expose_state s. mred in *. munfold. rewrite Hc. mred.
  assert (Hguti : (if nonzero (guti_is_new c) && bool_decide (old_guti c ≠ None)
                   then (old_guti c, guti c)
                   else if nonzero (guti_is_new c) && bool_decide (guti c ≠ None)
                        then (guti c, guti c) else (guti c, guti c))
                  = (if nonzero (guti_is_new c) && bool_decide (old_guti c ≠ None)
                     then old_guti c else guti c, guti c)).
  { destruct (nonzero (guti_is_new c) && bool_decide (old_guti c ≠ None));
      [reflexivity|].
    destruct (nonzero (guti_is_new c) && bool_decide (guti c ≠ None)); reflexivity. }
  rewrite Hguti. mred. rewrite Hnotify. mred.
  destruct m1 as [ch1 dh1 idx1 gidx1 ex1]. mred in *. rewrite Hc1. mred.
  rewrite Hsc in Hsend |- *. mred. rewrite Hd. mred. rewrite Hsend. mred.
  destruct (rc =? RETURNerror); mred; [rewrite <- !app_assoc; reflexivity|].
  destruct m2 as [ch2 dh2 idx2 gidx2 ex2]. mred.
  destruct (ch2 !! p) as [c2|]; mred; [|reflexivity].
  destruct (id (T3450 c2) =? NAS_TIMER_INACTIVE_ID); mred.
  all: match goal with
       | |- context [api ?E0 ?call ?m] =>
           destruct (api E0 call m) as [tid [ch3 dh3 idx3 gidx3 ex3]]
       end; mred;
       (destruct (ch3 !! p) as [c3|]; mred; [|reflexivity]);
       rewrite <- !app_assoc; reflexivity.
Qed.

(** What [_emm_attach_accept] hands over and what it does with T3450,
    written with the answers of the collaborators at the memories they are
    called on.  The observer is told the GUTI, then one ATTACH ACCEPT goes
    to the EMM-SAP: it addresses the UE by the old GUTI when a new one has
    been assigned over an old one (implicit GUTI reallocation) and by the
    GUTI of the context otherwise, and in every case carries the GUTI of
    the context as the new GUTI, with the tracking area, the security
    context and its selected algorithms, and the ESM message of the
    buffer.  It is the status [rc] with which the EMM-SAP answers that
    primitive that decides on the timer and that is returned: on
    [RETURNerror] the function returns at once and T3450 is as it was, so
    that no expiry follows; on any other status T3450 is armed for the
    buffer (restarted if it is active, started with
    [_emm_attach_t3450_handler] otherwise) and the identifier that the
    timer service returns is stored in the context. *)
Theorem attach_accept_primitive_and_timer (E : environment)
    p data s c r0 m1 c1 sc d rc m2 :
  p ≠ 0 →
  ctx_heap (mem s) !! p = Some c →
  api E (mme_api_notify_new_guti (ueid c) (guti c)) (mem s) = (r0, m1) →
  ctx_heap m1 !! p = Some c1 →
  security c1 = Some sc →
  data_heap m1 !! data = Some d →
  let accept :=
    EMMAS_ESTABLISH_CNF (ueid c)
      (if nonzero (guti_is_new c) && bool_decide (old_guti c ≠ None)
       then old_guti c else guti c)
      (guti c) (n_tacs c1) (tac c1) (security c1)
      (sel_encryption sc) (sel_integrity sc) (ad_esm_msg d) in
  emm_sap_send E accept m1 = (rc, m2) →
  let t2 := trace s ++ [Api (mme_api_notify_new_guti (ueid c) (guti c)); EmmSap accept] in
  _emm_attach_accept E p data s =
    if rc =? RETURNerror then Done rc {| mem := m2; trace := t2 |}
    else
      match ctx_heap m2 !! p with
      | Some c2 =>
          let '(tid, m3) := api E (arm_T3450 c2 data) m2 in
          match ctx_heap m3 !! p with
          | Some c3 =>
              Done rc {| mem := upd_ctx_heap
                                  (insert p (set_T3450 (set_timer_id tid (T3450 c3)) c3)) m3;
                         trace := t2 ++ [Api (arm_T3450 c2 data)] |}
          | None => Undefined
          end
      | None => Undefined
      end.
Proof.
  intros Hp Hc Hnotify Hc1 Hsc Hd accept Hsend t2.
  exact (emm_attach_accept_run E p data s c r0 m1 c1 sc d rc m2
           Hp Hc Hnotify Hc1 Hsc Hd Hsend).
Qed.

Lemma attach_accept_primitive_and_timer_witness :
  _emm_attach_accept fsm_env 16 1 retransmission_state
  = Done RETURNok
      {| mem := mem retransmission_state;
         trace := [Api (mme_api_notify_new_guti 7 None);
                   EmmSap (attach_accept_for attaching_context security_zero
                             activate_default_bearer_request);
                   Api (nas_timer_restart 1)] |}
  ∧ _emm_attach_accept failing_emm_env 16 1 retransmission_state
    = Done RETURNerror
        {| mem := mem retransmission_state;
           trace := [Api (mme_api_notify_new_guti 7 None);
                     EmmSap (attach_accept_for attaching_context security_zero
                               activate_default_bearer_request)] |}.
Proof.
  split.
  - etransitivity.
    + apply (attach_accept_primitive_and_timer fsm_env 16 1 retransmission_state
               attaching_context RETURNok (mem retransmission_state) attaching_context
               security_zero
               {| ad_ueid := 7; retransmission_count := 0;
                  ad_esm_msg := activate_default_bearer_request |}
               RETURNok (mem retransmission_state)).
      * discriminate.
      * reflexivity.
      * reflexivity.
      * reflexivity.
      * reflexivity.
      * reflexivity.
      * reflexivity.
    + vm_compute. reflexivity.
  - etransitivity.
    + apply (attach_accept_primitive_and_timer failing_emm_env 16 1
               retransmission_state
               attaching_context RETURNok (mem retransmission_state) attaching_context
               security_zero
               {| ad_ueid := 7; retransmission_count := 0;
                  ad_esm_msg := activate_default_bearer_request |}
               RETURNerror (mem retransmission_state)).
      * discriminate.
      * reflexivity.
      * reflexivity.
      * reflexivity.
      * reflexivity.
      * reflexivity.
      * reflexivity.
    + vm_compute. reflexivity.
Defined.

(** ** The abort of an attach: [_emm_attach_abort] *)

(* The run of [_emm_attach_abort], written with the answers of the
   collaborators at the memories they are called on. *)
Lemma emm_attach_abort_run (C : config) (E : environment)
    data s d p c m1 esm_rc esm_err out m3 :
  data ≠ 0 →
  p ≠ 0 →
  data_heap (mem s) !! data = Some d →
  ctx_coll_ue_id (mem s) !! ad_ueid d = Some p →
  ctx_heap (mem s) !! p = Some c →
  T3450_stopped E p c (mem s) m1 →
  is_Some (data_heap m1 !! data) →
  let ue := ad_ueid d in
  esm_sap_send E (pdn_connectivity_rej ue p) (upd_data_heap (delete data) m1)
    = ((esm_rc, esm_err, out), m3) →
  let t2 := trace s ++ timer_stopped (T3450 c) ++ [EsmSap (pdn_connectivity_rej ue p)] in
  _emm_attach_abort C E data s =
    if esm_rc =? RETURNerror then Done esm_rc {| mem := m3; trace := t2 |}
    else
      let '(emm_rc, m4) := emm_sap_send E (EMMREG_ATTACH_REJ ue p) m3 in
      let s4 := {| mem := m4; trace := t2 ++ [EmmSap (EMMREG_ATTACH_REJ ue p)] |} in
      if emm_rc =? RETURNerror then Done emm_rc s4 else _emm_attach_release C E p s4.
Proof.
  intros Hdata Hp Hd Hidx Hc Hstop [d1 Hd1] ue Hesm t2. subst ue t2.
  unfold _emm_attach_abort, pdn_connectivity_rej, T3450_stopped, timer_stopped in *.
  rewrite (Z_eqb_false _ _ Hdata). apply nonzero_true in Hp.
  expose_state s. mred in *. munfold. rewrite Hd. mred. rewrite Hidx. mred.
  rewrite Hp. mred. rewrite Hc. mred.
  destruct (id (T3450 c) =? NAS_TIMER_INACTIVE_ID); mred.
  - subst m1. mred in *. rewrite Hd. mred.
    unfold upd_data_heap in *. mred in *. rewrite Hesm. mred.
    destruct (esm_rc =? RETURNerror); mred; [rewrite <- ?app_assoc; reflexivity|].
    match goal with
    | |- context [emm_sap_send E ?prim ?m] => destruct (emm_sap_send E prim m) as [emm_rc m4]
    end. mred.
    destruct (emm_rc =? RETURNerror); mred; rewrite <- ?app_assoc; reflexivity.
  - destruct Hstop as (tid & m' & c' & Hapi & Hc' & ->).
    rewrite Hapi. mred. destruct m' as [ch' dh' idx' gidx' ex']. mred in *.
    rewrite Hc'. mred. unfold upd_ctx_heap, upd_data_heap in *. mred in *.
    rewrite Hd1. mred. rewrite Hesm. mred.
    destruct (esm_rc =? RETURNerror); mred; [rewrite <- ?app_assoc; reflexivity|].
    match goal with
    | |- context [emm_sap_send E ?prim ?m] => destruct (emm_sap_send E prim m) as [emm_rc m4]
    end. mred.
    destruct (emm_rc =? RETURNerror); mred; rewrite <- ?app_assoc; reflexivity.
Qed.

(** What the abort of an attach does, written with the answers of the
    collaborators at the memories they are called on.  Called on NULL it
    returns [RETURNerror] and does nothing.  Called on the retransmission
    buffer of a UE that has a context, it stops T3450 if it is active,
    frees the buffer and sends [ESM_PDN_CONNECTIVITY_REJ] to ESM, on the
    memory so obtained.  If ESM answers that call with [RETURNerror], that is
    all: [RETURNerror] is returned, EMM is not told of the reject and the
    context is not released.  Otherwise EMM is notified with
    [EMMREG_ATTACH_REJ]; if the EMM-SAP answers that with [RETURNerror],
    nothing more is done and [RETURNerror] is returned; otherwise the
    function ends as [_emm_attach_release] does on the context. *)
Theorem abort_rejects_pdn_then_releases (C : config) (E : environment)
    data s d p c m1 esm_rc esm_err out m3 :
  data ≠ 0 →
  p ≠ 0 →
  data_heap (mem s) !! data = Some d →
  ctx_coll_ue_id (mem s) !! ad_ueid d = Some p →
  ctx_heap (mem s) !! p = Some c →
  T3450_stopped E p c (mem s) m1 →
  is_Some (data_heap m1 !! data) →
  let ue := ad_ueid d in
  esm_sap_send E (pdn_connectivity_rej ue p) (upd_data_heap (delete data) m1)
    = ((esm_rc, esm_err, out), m3) →
  let t2 := trace s ++ timer_stopped (T3450 c) ++ [EsmSap (pdn_connectivity_rej ue p)] in
  _emm_attach_abort C E 0 s = Done RETURNerror s
  ∧ _emm_attach_abort C E data s =
      if esm_rc =? RETURNerror then Done esm_rc {| mem := m3; trace := t2 |}
      else
        let '(emm_rc, m4) := emm_sap_send E (EMMREG_ATTACH_REJ ue p) m3 in
        let s4 := {| mem := m4; trace := t2 ++ [EmmSap (EMMREG_ATTACH_REJ ue p)] |} in
        if emm_rc =? RETURNerror then Done emm_rc s4 else _emm_attach_release C E p s4.
Proof.
  intros Hdata Hp Hd Hidx Hc Hstop Hd1 ue Hesm t2. split; [reflexivity|].
  exact (emm_attach_abort_run C E data s d p c m1 esm_rc esm_err out m3
           Hdata Hp Hd Hidx Hc Hstop Hd1 Hesm).
Qed.

Lemma abort_rejects_pdn_then_releases_witness :
  (∃ s',
     _emm_attach_abort (epc_config 0) esm_rejecting_env 1 retransmission_state
     = Done RETURNerror s'
     ∧ trace s' = [Api (nas_timer_stop 1); EsmSap (pdn_connectivity_rej 7 16)]
     ∧ data_heap (mem s') = ∅
     ∧ ctx_coll_ue_id (mem s') !! 7 = Some 16)
  ∧ (∃ s4,
       _emm_attach_abort (epc_config 0) fsm_env 1 retransmission_state
       = _emm_attach_release (epc_config 0) fsm_env 16 s4
       ∧ trace s4 = [Api (nas_timer_stop 1); EsmSap (pdn_connectivity_rej 7 16);
                     EmmSap (EMMREG_ATTACH_REJ 7 16)]).
Proof.
  pose (d := {| ad_ueid := 7; retransmission_count := 0;
                ad_esm_msg := activate_default_bearer_request |}).
  pose (m1 := upd_ctx_heap
                (insert 16 (set_T3450 (set_timer_id NAS_TIMER_INACTIVE_ID
                                         (T3450 attaching_context)) attaching_context))
                (mem retransmission_state)).
  split.
  - eexists. split; [|split; [|split]].
    + etransitivity.
      * apply (abort_rejects_pdn_then_releases (epc_config 0) esm_rejecting_env 1
                 retransmission_state d 16 attaching_context m1
                 RETURNerror ESM_SAP_FAILED pdn_connectivity_reject
                 (upd_data_heap (delete 1) m1)).
        -- discriminate.
        -- discriminate.
        -- reflexivity.
        -- reflexivity.
        -- reflexivity.
        -- exists NAS_TIMER_INACTIVE_ID, (mem retransmission_state), attaching_context.
           split; [reflexivity|]. split; reflexivity.
        -- eexists. reflexivity.
        -- reflexivity.
      * reflexivity.
    + reflexivity.
    + reflexivity.
    + reflexivity.
  - eexists. split.
    + etransitivity.
      * apply (abort_rejects_pdn_then_releases (epc_config 0) fsm_env 1
                 retransmission_state d 16 attaching_context m1
                 RETURNok ESM_SAP_SUCCESS pdn_connectivity_request
                 (upd_data_heap (delete 1) m1)).
        -- discriminate.
        -- discriminate.
        -- reflexivity.
        -- reflexivity.
        -- reflexivity.
        -- exists NAS_TIMER_INACTIVE_ID, (mem retransmission_state), attaching_context.
           split; [reflexivity|]. split; reflexivity.
        -- eexists. reflexivity.
        -- reflexivity.
      * reflexivity.
    + reflexivity.
Defined.

(** ** T3450 left to itself: four retransmissions, then the abort *)

Lemma fsm_api E c m :
  fsm_only E → ∃ r m', api E c m = (r, m') ∧ status_only m m'.
Proof.
  intros Hw. pose proof (proj2 (proj2 Hw) c m) as H.
  destruct (api E c m) as [r m']. exists r, m'. split; [reflexivity | exact H].
Qed.

Lemma fsm_emm_sap E prim m :
  fsm_only E → ∃ r m', emm_sap_send E prim m = (r, m') ∧ status_only m m'.
Proof.
  intros Hw. pose proof (proj1 (proj2 Hw) prim m) as H.
  destruct (emm_sap_send E prim m) as [r m']. exists r, m'. split; [reflexivity | exact H].
Qed.

Lemma fsm_esm_sap E prim m :
  fsm_only E →
  ∃ rc err out m', esm_sap_send E prim m = ((rc, err, out), m') ∧ status_only m m'.
Proof.
  intros Hw. pose proof (proj1 Hw prim m) as H.
  destruct (esm_sap_send E prim m) as [[[rc err] out] m'].
  exists rc, err, out, m'. split; [reflexivity | exact H].
Qed.

Lemma same_ue_refl c : same_ue c c.
Proof.
  assert (Ht : ∀ t : nas_timer_t, set_timer_id (id t) t = t) by (intros []; reflexivity).
  exists (_emm_fsm_status c), (id (T3450 c)). rewrite Ht. destruct c. reflexivity.
Qed.

Lemma same_ue_status c ck st : same_ue c ck → same_ue c (set_emm_fsm_status st ck).
Proof. intros (st0 & tid & ->). exists st, tid. reflexivity. Qed.

Lemma same_ue_timer c ck tid :
  same_ue c ck → same_ue c (set_T3450 (set_timer_id tid (T3450 ck)) ck).
Proof. intros (st0 & tid0 & ->). exists st0, tid. reflexivity. Qed.

Lemma arm_T3450_arms c data : arms_T3450 data (Api (arm_T3450 c data)) = true.
Proof.
  unfold arm_T3450. destruct (id (T3450 c) =? NAS_TIMER_INACTIVE_ID); cbn;
    [apply Z.eqb_refl | reflexivity].
Qed.

Section LeftRunning.
Variables (C : config) (E : environment).
Hypothesis Hw : fsm_only E.
Hypothesis Hsend :
  ∀ ue g g' n t sec enc int msg m,
    (emm_sap_send E (EMMAS_ESTABLISH_CNF ue g g' n t sec enc int msg) m).1 ≠ RETURNerror.
Variables (data p : Z) (c : emm_data_context_t) (sc : emm_security_context_t)
  (esm : OctetString).
Hypothesis Hsc : security c = Some sc.

(* One expiry below the bound: the retransmission, and the phase goes on. *)
Lemma t3450_expiry_retransmits n s ck :
  retransmitting data p c esm n s →
  0 ≤ n < ATTACH_COUNTER_MAX - 1 →
  ctx_heap (mem s) !! p = Some ck →
  ∃ s',
    _emm_attach_t3450_handler C E data s = Done tt s'
    ∧ trace s' = trace s ++ retransmission c sc esm (arm_T3450 ck data)
    ∧ retransmitting data p c esm (n + 1) s'.
Proof.
  intros (Hdata & Hp & d & ck' & Hd & Hn & Hesm & Hu & Hidx & Hck & Hsame) Hlt Hck0.
  rewrite Hck0 in Hck. injection Hck as <-.
  unfold ATTACH_COUNTER_MAX in Hlt.
  rewrite (t3450_handler_step C E data s d Hd), Hu, Hidx, Hn.
  rewrite uint32_small by lia.
  replace (n + 1 <? ATTACH_COUNTER_MAX) with true
    by (symmetry; apply Z.ltb_lt; unfold ATTACH_COUNTER_MAX; lia).
  cbn [default from_option Datatypes.id].
  set (d' := {| ad_ueid := ueid c; retransmission_count := n + 1;
                ad_esm_msg := ad_esm_msg d |}).
  set (s1 := {| mem := upd_data_heap (insert data d') (mem s); trace := trace s |}).
  assert (Hd1 : data_heap (mem s1) !! data = Some d')
    by (destruct s as [[]]; cbn; apply lookup_insert_eq).
  assert (Hc1 : ctx_heap (mem s1) !! p = Some ck) by (destruct s as [[]]; exact Hck0).
  assert (Hidx1 : ctx_coll_ue_id (mem s1) !! ueid c = Some p)
    by (destruct s as [[]]; exact Hidx).
  destruct (fsm_api E (mme_api_notify_new_guti (ueid ck) (guti ck)) (mem s1) Hw)
    as (r0 & m1 & Hnotify & Hs1).
  destruct (status_only_ctx _ _ p ck Hs1 Hc1) as [st1 Hcm1].
  destruct Hs1 as (Hdh1 & Hix1 & _).
  set (c1 := set_emm_fsm_status st1 ck) in *.
  assert (Hsc1 : security c1 = Some sc)
    by (destruct Hsame as (st0 & tid0 & ->); exact Hsc).
  assert (Hdm1 : data_heap m1 !! data = Some d') by (rewrite Hdh1; exact Hd1).
  set (accept :=
         EMMAS_ESTABLISH_CNF (ueid ck)
           (if nonzero (guti_is_new ck) && bool_decide (old_guti ck ≠ None)
            then old_guti ck else guti ck)
           (guti ck) (n_tacs c1) (tac c1) (security c1)
           (sel_encryption sc) (sel_integrity sc) (ad_esm_msg d')).
  destruct (fsm_emm_sap E accept m1 Hw) as (rc & m2 & Hacc & Hs2).
  pose proof (Hsend _ _ _ _ _ _ _ _ _ m1 : (emm_sap_send E accept m1).1 ≠ RETURNerror) as Hrc.
  rewrite Hacc in Hrc. cbn [fst] in Hrc.
  destruct (status_only_ctx _ _ p c1 Hs2 Hcm1) as [st2 Hcm2].
  destruct Hs2 as (Hdh2 & Hix2 & _).
  destruct (fsm_api E (arm_T3450 (set_emm_fsm_status st2 c1) data) m2 Hw)
    as (tid & m3 & Harm & Hs3).
  destruct (status_only_ctx _ _ p _ Hs3 Hcm2) as [st3 Hcm3].
  destruct Hs3 as (Hdh3 & Hix3 & _).
  pose proof (emm_attach_accept_run E p data s1 ck r0 m1 c1 sc d' rc m2
                Hp Hc1 Hnotify Hcm1 Hsc1 Hdm1 Hacc) as Hrun.
  cbv zeta in Hrun. rewrite (Z_eqb_false _ _ Hrc), Hcm2, Harm, Hcm3 in Hrun.
  rewrite (run_bind _ _ _ _ _ Hrun).
  eexists. split; [reflexivity|]. cbn [trace mem].
  split.
  - subst s1 c1 d'. destruct Hsame as (st0 & tid0 & ->).
    unfold retransmission, attach_accept_for, arm_T3450. mred.
    rewrite <- Hesm, Hsc, <- !app_assoc. reflexivity.
  - split; [exact Hdata|]. split; [exact Hp|].
    eexists d', _. destruct m3 as [ch3 dh3 idx3 gidx3 ex3]. mred in *.
    split; [rewrite Hdh3, Hdh2; exact Hdm1|].
    split; [reflexivity|]. split; [exact Hesm|]. split; [reflexivity|].
    split; [rewrite Hix3, Hix2, Hix1; exact Hidx1|].
    split; [apply lookup_insert_eq|].
    subst c1. destruct Hsame as (st0 & tid0 & ->). exists st3, tid. reflexivity.
Qed.

End LeftRunning.


Lemma silent_timer_stopped data t : Forall (silent_for data) (timer_stopped t).
Proof.
  unfold timer_stopped. destruct (id t =? NAS_TIMER_INACTIVE_ID); repeat constructor.
Qed.

Lemma silent_timers_stopped data c : Forall (silent_for data) (timers_stopped c).
Proof.
  unfold timers_stopped. repeat (apply Forall_app; split); apply silent_timer_stopped.
Qed.

(* With collaborators that change at most the status of a context, the
   stop of T3450 goes through. *)
Lemma fsm_T3450_stopped E p c m :
  fsm_only E →
  ctx_heap m !! p = Some c →
  ∃ m1 c1,
    T3450_stopped E p c m m1
    ∧ data_heap m1 = data_heap m
    ∧ ctx_coll_ue_id m1 = ctx_coll_ue_id m
    ∧ ctx_heap m1 !! p = Some c1
    ∧ ueid c1 = ueid c.
Proof.
  intros Hw Hc. unfold T3450_stopped.
  destruct (id (T3450 c) =? NAS_TIMER_INACTIVE_ID).
  - exists m, c. repeat split; [exact Hc].
  - destruct (fsm_api E (nas_timer_stop (id (T3450 c))) m Hw) as (tid & m' & Hapi & Hs).
    destruct (status_only_ctx _ _ p c Hs Hc) as [st Hc'].
    destruct Hs as (Hdh & Hix & _).
    eexists _, _. split; [exists tid, m', (set_emm_fsm_status st c)|].
    + split; [exact Hapi|]. split; [exact Hc' | reflexivity].
    + destruct m' as [ch' dh' idx' gidx' ex']. cbn in *.
      split; [exact Hdh|]. split; [exact Hix|].
      split; [apply lookup_insert_eq | reflexivity].
Qed.

(* The abort with collaborators that change at most the status of a
   context: it ends, frees the buffer, tells ESM, hands nothing to the
   access stratum and arms no timer. *)
Lemma emm_attach_abort_quiet (C : config) (E : environment) data s d p c :
  fsm_only E →
  data ≠ 0 →
  p ≠ 0 →
  data_heap (mem s) !! data = Some d →
  ctx_coll_ue_id (mem s) !! ad_ueid d = Some p →
  ctx_heap (mem s) !! p = Some c →
  ueid c = ad_ueid d →
  ∃ rc s' tail,
    _emm_attach_abort C E data s = Done rc s'
    ∧ trace s' = trace s ++ tail
    ∧ data_heap (mem s') = delete data (data_heap (mem s))
    ∧ EsmSap (pdn_connectivity_rej (ad_ueid d) p) ∈ tail
    ∧ Forall (silent_for data) tail.
Proof.
  intros Hw Hdata Hp Hd Hidx Hc Hu.
  destruct (fsm_T3450_stopped E p c (mem s) Hw Hc) as (m1 & c1 & Hstop & Hdh1 & Hix1 & Hc1 & Hu1).
  assert (Hd1 : is_Some (data_heap m1 !! data)) by (rewrite Hdh1, Hd; eexists; reflexivity).
  destruct (fsm_esm_sap E (pdn_connectivity_rej (ad_ueid d) p)
              (upd_data_heap (delete data) m1) Hw)
    as (esm_rc & esm_err & out & m3 & Hesm & Hs3).
  assert (Hc1' : ctx_heap (upd_data_heap (delete data) m1) !! p = Some c1)
    by (destruct m1; exact Hc1).
  destruct (status_only_ctx _ _ p c1 Hs3 Hc1') as [st3 Hc3].
  destruct Hs3 as (Hdh3 & Hix3 & _).
  assert (Hdh3' : data_heap m3 = delete data (data_heap (mem s)))
    by (rewrite Hdh3; destruct m1; cbn in *; rewrite Hdh1; reflexivity).
  assert (Hix3' : ctx_coll_ue_id m3 = ctx_coll_ue_id (mem s))
    by (rewrite Hix3; destruct m1; cbn in *; exact Hix1).
  assert (Hin : ∀ l l' : list event,
            EsmSap (pdn_connectivity_rej (ad_ueid d) p)
            ∈ timer_stopped (T3450 c) ++ [EsmSap (pdn_connectivity_rej (ad_ueid d) p)] ++ l').
  { intros _ l'. apply elem_of_app. right. apply elem_of_app. left.
    apply list_elem_of_singleton. reflexivity. }
  assert (Hsil : Forall (silent_for data)
                   (timer_stopped (T3450 c) ++ [EsmSap (pdn_connectivity_rej (ad_ueid d) p)])).
  { apply Forall_app. split; [apply silent_timer_stopped | repeat constructor]. }
  rewrite (emm_attach_abort_run C E data s d p c m1 esm_rc esm_err out m3
             Hdata Hp Hd Hidx Hc Hstop Hd1 Hesm).
  destruct (esm_rc =? RETURNerror).
  { eexists _, _, _. split; [reflexivity|]. cbn [trace mem].
    split; [reflexivity|]. split; [exact Hdh3'|].
    split; [rewrite <- (app_nil_r [_]); apply (Hin [] [])| exact Hsil]. }
  destruct (fsm_emm_sap E (EMMREG_ATTACH_REJ (ad_ueid d) p) m3 Hw)
    as (emm_rc & m4 & Hrej & Hs4).
  destruct (status_only_ctx _ _ p _ Hs4 Hc3) as [st4 Hc4].
  destruct Hs4 as (Hdh4 & Hix4 & _).
  rewrite Hrej. cbv zeta.
  destruct (emm_rc =? RETURNerror).
  { eexists _, _, _. split; [reflexivity|]. cbn [trace mem].
    split; [rewrite <- !app_assoc; reflexivity|].
    split; [rewrite Hdh4; exact Hdh3'|].
    split; [apply (Hin [] _)|].
    apply Forall_app. split; [apply silent_timer_stopped | repeat constructor]. }
  match goal with
  | |- context [_emm_attach_release C E p ?st] =>
      destruct (emm_attach_release_effect C E p st
                  (set_emm_fsm_status st4 (set_emm_fsm_status st3 c1)) Hw Hp)
        as (rc & s' & Hrun & Htr & Hdh & _)
  end.
  - exact Hc4.
  - cbn [mem]. rewrite Hix4, Hix3'. mred. rewrite Hu1, Hu. exact Hidx.
  - rewrite Hrun. exists rc, s'. eexists. split; [reflexivity|].
    cbn [trace mem] in *.
    split; [rewrite Htr, <- !app_assoc; reflexivity|].
    split; [rewrite Hdh, Hdh4; exact Hdh3'|].
    split; [apply (Hin [] _)|].
    apply Forall_app. split; [apply silent_timer_stopped|].
    repeat constructor.
    apply Forall_app. split; [apply silent_timers_stopped | repeat constructor].
Qed.

Lemma retransmission_arms data c sc esm t :
  arms_T3450 data (Api t) = true →
  existsb (arms_T3450 data) (retransmission c sc esm t) = true.
Proof.
  intros H. unfold retransmission. cbn [existsb]. rewrite H. reflexivity.
Qed.

Lemma silent_not_armed data l :
  Forall (silent_for data) l → existsb (arms_T3450 data) l = false.
Proof.
  induction 1 as [|e l [_ He] _ IH]; [reflexivity|]. cbn. rewrite He, IH. reflexivity.
Qed.

Section Exhaustion.
Variables (C : config) (E : environment).
Hypothesis Hw : fsm_only E.
Hypothesis Hsend :
  ∀ ue g g' n t sec enc int msg m,
    (emm_sap_send E (EMMAS_ESTABLISH_CNF ue g g' n t sec enc int msg) m).1 ≠ RETURNerror.
Variables (data p : Z) (c : emm_data_context_t) (sc : emm_security_context_t)
  (esm : OctetString).
Hypothesis Hsc : security c = Some sc.

(* The expiry that reaches the bound: the abort, after which T3450 is not
   armed. *)
Lemma t3450_expiry_aborts s :
  retransmitting data p c esm (ATTACH_COUNTER_MAX - 1) s →
  ∃ s' tail,
    _emm_attach_t3450_handler C E data s = Done tt s'
    ∧ trace s' = trace s ++ tail
    ∧ data_heap (mem s') !! data = None
    ∧ EsmSap (pdn_connectivity_rej (ueid c) p) ∈ tail
    ∧ Forall (silent_for data) tail.
Proof.
  intros (Hdata & Hp & d & ck & Hd & Hn & Hesm & Hu & Hidx & Hck & Hsame).
  rewrite (t3450_handler_step C E data s d Hd), Hn.
  change (uint32 (ATTACH_COUNTER_MAX - 1 + 1) <? ATTACH_COUNTER_MAX) with false.
  cbv iota.
  set (d' := {| ad_ueid := ad_ueid d;
                retransmission_count := uint32 (ATTACH_COUNTER_MAX - 1 + 1);
                ad_esm_msg := ad_esm_msg d |}).
  set (s1 := {| mem := upd_data_heap (insert data d') (mem s); trace := trace s |}).
  assert (Hd1 : data_heap (mem s1) !! data = Some d')
    by (destruct s as [[]]; cbn; apply lookup_insert_eq).
  assert (Hc1 : ctx_heap (mem s1) !! p = Some ck) by (destruct s as [[]]; exact Hck).
  assert (Hidx1 : ctx_coll_ue_id (mem s1) !! ad_ueid d' = Some p)
    by (destruct s as [[]]; cbn; rewrite Hu; exact Hidx).
  assert (Huk : ueid ck = ad_ueid d')
    by (destruct Hsame as (st0 & tid0 & ->); cbn; symmetry; exact Hu).
  destruct (emm_attach_abort_quiet C E data s1 d' p ck Hw Hdata Hp Hd1 Hidx1 Hc1 Huk)
    as (rc & s' & tail & Hrun & Htr & Hfree & Hin & Hsil).
  rewrite (run_bind _ _ _ _ _ Hrun).
  exists s', tail. split; [reflexivity|]. split; [exact Htr|].
  split; [rewrite Hfree; apply lookup_delete_eq|].
  split; [|exact Hsil]. cbn [ad_ueid d'] in Hin. rewrite Hu in Hin. exact Hin.
Qed.

Lemma left_running_below n : ∀ k s,
  retransmitting data p c esm (Z.of_nat k) s →
  (k + n ≤ 4)%nat →
  ∃ s' timers,
    t3450_left_running C E n data s = Done n s'
    ∧ retransmitting data p c esm (Z.of_nat (k + n)) s'
    ∧ length timers = n
    ∧ Forall (λ t, arms_T3450 data (Api t) = true) timers
    ∧ trace s' = trace s ++ flat_map (retransmission c sc esm) timers.
Proof.
  induction n as [|n IH]; intros k s Hinv Hle.
  - exists s, []. rewrite Nat.add_0_r, app_nil_r.
    split; [reflexivity|]. split; [exact Hinv|]. split; [reflexivity|].
    split; [constructor | reflexivity].
  - pose proof Hinv as (_ & _ & d & ck & _ & _ & _ & _ & _ & Hck & _).
    destruct (t3450_expiry_retransmits C E Hw Hsend data p c sc esm Hsc (Z.of_nat k) s ck Hinv)
      as (s1 & Hrun & Htr & Hinv1);
      [unfold ATTACH_COUNTER_MAX; lia | exact Hck |].
    replace (Z.of_nat k + 1) with (Z.of_nat (S k)) in Hinv1 by lia.
    destruct (IH (S k) s1 Hinv1) as (s' & l & Hrun' & Hinv' & Hlen & Hall & Htr'); [lia|].
    exists s', (arm_T3450 ck data :: l). cbn [t3450_left_running].
    rewrite Hrun, Htr, drop_app_length.
    rewrite (retransmission_arms _ _ _ _ _ (arm_T3450_arms ck data)).
    rewrite (run_bind _ _ _ _ _ Hrun').
    replace (k + S n)%nat with (S k + n)%nat by lia.
    split; [reflexivity|]. split; [exact Hinv'|]. split; [cbn; lia|].
    split; [constructor; [apply arm_T3450_arms | exact Hall]|].
    rewrite Htr', Htr, <- app_assoc. reflexivity.
Qed.

Lemma left_running_to_the_end n m : ∀ k s,
  retransmitting data p c esm (Z.of_nat k) s →
  (k + n = 4)%nat →
  ∃ s' timers tail,
    t3450_left_running C E (n + S m) data s = Done (S n) s'
    ∧ length timers = n
    ∧ Forall (λ t, arms_T3450 data (Api t) = true) timers
    ∧ trace s' = trace s ++ flat_map (retransmission c sc esm) timers ++ tail
    ∧ data_heap (mem s') !! data = None
    ∧ EsmSap (pdn_connectivity_rej (ueid c) p) ∈ tail
    ∧ Forall (silent_for data) tail.
Proof.
  induction n as [|n IH]; intros k s Hinv Hk.
  - replace (Z.of_nat k) with (ATTACH_COUNTER_MAX - 1) in Hinv
      by (unfold ATTACH_COUNTER_MAX; lia).
    destruct (t3450_expiry_aborts s Hinv) as (s' & tail & Hrun & Htr & Hfree & Hin & Hsil).
    exists s', [], tail. cbn [Nat.add t3450_left_running].
    rewrite Hrun, Htr, drop_app_length, (silent_not_armed _ _ Hsil).
    split; [reflexivity|]. split; [reflexivity|]. split; [constructor|].
    split; [reflexivity|]. split; [exact Hfree|]. split; [exact Hin | exact Hsil].
  - pose proof Hinv as (_ & _ & d & ck & _ & _ & _ & _ & _ & Hck & _).
    destruct (t3450_expiry_retransmits C E Hw Hsend data p c sc esm Hsc (Z.of_nat k) s ck Hinv)
      as (s1 & Hrun & Htr & Hinv1);
      [unfold ATTACH_COUNTER_MAX; lia | exact Hck |].
    replace (Z.of_nat k + 1) with (Z.of_nat (S k)) in Hinv1 by lia.
    destruct (IH (S k) s1 Hinv1)
      as (s' & l & tail & Hrun' & Hlen & Hall & Htr' & Hfree & Hin & Hsil); [lia|].
    exists s', (arm_T3450 ck data :: l), tail.
    change (S n + S m)%nat with (S (n + S m)). cbn [t3450_left_running].
    rewrite Hrun, Htr, drop_app_length.
    rewrite (retransmission_arms _ _ _ _ _ (arm_T3450_arms ck data)).
    rewrite (run_bind _ _ _ _ _ Hrun').
    split; [reflexivity|]. split; [cbn; lia|].
    split; [constructor; [apply arm_T3450_arms | exact Hall]|].
    split; [rewrite Htr', Htr, <- !app_assoc; reflexivity|].
    split; [exact Hfree|]. split; [exact Hin | exact Hsil].
Qed.

End Exhaustion.

Lemma sent_to_as_retransmissions c sc esm timers :
  sent_to_as (flat_map (retransmission c sc esm) timers)
  = replicate (length timers) (attach_accept_for c sc esm).
Proof.
  induction timers as [|t l IH]; [reflexivity|].
  cbn [flat_map length replicate]. unfold sent_to_as in *. rewrite omap_app, IH.
  reflexivity.
Qed.

Lemma sent_to_as_silent data l : Forall (silent_for data) l → sent_to_as l = [].
Proof.
  induction 1 as [|e l [He _] _ IH]; [reflexivity|].
  unfold sent_to_as in *.
  change (omap to_as (e :: l))
    with (match to_as e with Some y => y :: omap to_as l | None => omap to_as l end).
  rewrite He. exact IH.
Qed.



(** The same run, computed, with an EMM state machine that follows the
    primitives: four ATTACH ACCEPT, then the abort, which leaves the
    context deregistered and out of the index; T3450 has expired five
    times although nine expiries were allowed. *)
Example five_expiries_run :
  ∃ s' c',
    t3450_left_running (epc_config 0) fsm_env 9 1 retransmission_state = Done 5%nat s'
    ∧ length (sent_to_as (trace s')) = 4%nat
    ∧ ctx_coll_ue_id (mem s') !! 7 = None
    ∧ ctx_heap (mem s') !! 16 = Some c'
    ∧ _emm_fsm_status c' = EMM_DEREGISTERED
    ∧ last (trace s') = Some (EmmSap (EMMREG_PROC_ABORT 7 16)).
Proof.
  do 2 eexists. split; [vm_compute; reflexivity|]. repeat split; vm_compute; reflexivity.
Qed.

(** Where the hypothesis on the EMM-SAP is needed: when the EMM-SAP
    answers [RETURNerror] to the retransmission, [_emm_attach_accept] does
    not arm T3450, so that the first expiry is the last; the buffer is not
    freed and the procedure is not aborted. *)
Example failed_retransmission_ends_the_expiries :
  ∃ s',
    t3450_left_running (epc_config 0) failing_emm_env 9 1 retransmission_state
    = Done 1%nat s'
    ∧ trace s' = [Api (mme_api_notify_new_guti 7 None);
                  EmmSap (attach_accept_for attaching_context security_zero
                            activate_default_bearer_request)]
    ∧ is_Some (data_heap (mem s') !! 1).
Proof.
  eexists. split; [vm_compute; reflexivity|].
  split; [reflexivity | eexists; vm_compute; reflexivity].
Qed.
